(** * Risk-control weekly report generator: the analysis core

    A shallow embedding of the report pipeline of the application in its
    weekly variant: row classification, date extraction, the per-partition
    aggregator [analyzeRows], the weekly rollup inside [report] and the
    percentage formatting helpers.  The tag loop and the black-sample
    formula of the single-day baseline of [src/index.tsx] are kept next to
    it for comparison.

    JavaScript values are modelled as follows.
    - A string is the list of its UTF-16 code units.
    - A count (a number that only ever holds a row or hit count) is a [nat];
      this is exact for every count below 2^53.
    - Every other number is an IEEE-754 binary64 value, [spec_float] with
      precision 53 and maximal exponent 1024, so that division, the
      percentage products and [toFixed] round as they do in the engine.
    - A [Map] or [Set] is an association list or a list in insertion order.
    - An exception is a [Throw] in the [completion] type. *)

From Stdlib Require Import List Bool Arith ZArith NArith Lia String Ascii.
From Stdlib Require Import Permutation Sorted.
From Stdlib Require Import Floats.SpecFloat.
Import ListNotations.

Set Implicit Arguments.

(** ** JavaScript strings *)

Module JsString.

Definition t := list N.

Definition eqb (a b : t) : bool :=
  if list_eq_dec N.eq_dec a b then true else false.

(** Decoding of the UTF-8 bytes of a source literal into UTF-16 code
    units, so that literals can be written as they are in the source. *)
Fixpoint utf8 (fuel : nat) (bs : list N) : t :=
  match fuel with
  | O => []
  | S fuel' =>
    match bs with
    | [] => []
    | b0 :: r0 =>
      if (b0 <? 128)%N then b0 :: utf8 fuel' r0
      else if (b0 <? 224)%N then
        match r0 with
        | b1 :: r1 => ((b0 - 192) * 64 + (b1 - 128))%N :: utf8 fuel' r1
        | _ => []
        end
      else if (b0 <? 240)%N then
        match r0 with
        | b1 :: b2 :: r2 =>
          ((b0 - 224) * 4096 + (b1 - 128) * 64 + (b2 - 128))%N :: utf8 fuel' r2
        | _ => []
        end
      else
        match r0 with
        | b1 :: b2 :: b3 :: r3 =>
          let cp := ((b0 - 240) * 262144 + (b1 - 128) * 4096
                     + (b2 - 128) * 64 + (b3 - 128))%N in
          let v := (cp - 65536)%N in
          (55296 + v / 1024)%N :: (56320 + v mod 1024)%N :: utf8 fuel' r3
        | _ => []
        end
    end
  end.

Definition lit (s : string) : t :=
  let bs := map N_of_ascii (list_ascii_of_string s) in
  utf8 (List.length bs) bs.

(** [WhiteSpace] and [LineTerminator] code units: what [trim] strips and
    what the regular expression class [\s] matches. *)
Definition isWhiteSpace (c : N) : bool :=
  ((9 <=? c) && (c <=? 13) || (c =? 32) || (c =? 160) || (c =? 5760)
   || (8192 <=? c) && (c <=? 8202) || (c =? 8232) || (c =? 8233)
   || (c =? 8239) || (c =? 8287) || (c =? 12288) || (c =? 65279))%N.

Fixpoint trimStart (s : t) : t :=
  match s with
  | c :: s' => if isWhiteSpace c then trimStart s' else s
  | [] => []
  end.

Definition trimEnd (s : t) : t := rev (trimStart (rev s)).

Definition trim (s : t) : t := trimEnd (trimStart s).

Fixpoint startsWith (p s : t) : bool :=
  match p, s with
  | [], _ => true
  | a :: p', b :: s' => (a =? b)%N && startsWith p' s'
  | _ :: _, [] => false
  end.

(** [String.prototype.split] for a separator that never matches the empty
    string.  [matchAt s] is the length of the separator match anchored at
    the head of [s], or 0 when there is none.  [skip] counts the code
    units of the current match still to be consumed and [cur] holds, in
    reverse, the piece being collected. *)
Fixpoint splitGo (matchAt : t -> nat) (skip : nat) (cur s : t) : list t :=
  match s with
  | [] => [rev cur]
  | c :: s' =>
    match skip with
    | S k => splitGo matchAt k cur s'
    | O =>
      match matchAt s with
      | O => splitGo matchAt 0 (c :: cur) s'
      | S k => rev cur :: splitGo matchAt k [] s'
      end
    end
  end.

Definition split (matchAt : t -> nat) (s : t) : list t :=
  splitGo matchAt 0 [] s.

Definition padStart2 (s : t) : t :=
  match s with
  | [] => [48; 48]%N
  | [c] => [48%N; c]
  | _ => s
  end.

(** Code-unit order, the order of the default [Array.prototype.sort]. *)
Fixpoint ltb (a b : t) : bool :=
  match a, b with
  | _, [] => false
  | [], _ :: _ => true
  | x :: a', y :: b' => (x <? y)%N || ((x =? y)%N && ltb a' b')
  end.

End JsString.

Definition jsstr : Type := JsString.t.

Notation "'js' s" := (JsString.lit s%string) (at level 9, s at level 0, only parsing).

(** ** Completions: a value or a thrown exception *)

Inductive error : Type := RangeError.

Inductive completion (A : Type) : Type :=
| Return (a : A)
| Throw (e : error).

Arguments Return {A} a.
Arguments Throw {A} e.

Definition bind {A B : Type} (c : completion A) (k : A -> completion B)
  : completion B :=
  match c with
  | Return a => k a
  | Throw e => Throw e
  end.

Notation "x <- c ;; k" := (bind c (fun x => k))
  (at level 61, c at next level, right associativity).

(** ** JavaScript numbers (IEEE-754 binary64) *)

Module Number.

Definition t := spec_float.

Definition prec : Z := 53.
Definition emax : Z := 1024.

Definition ofZ (z : Z) : t := binary_normalize prec emax z 0 false.
Definition ofNat (n : nat) : t := ofZ (Z.of_nat n).

Definition zero : t := S754_zero false.

Definition add : t -> t -> t := SFadd prec emax.
Definition mul : t -> t -> t := SFmul prec emax.
Definition div : t -> t -> t := SFdiv prec emax.

(** [a < b], [a <= b] and [a === b] on numbers. *)
Definition ltb : t -> t -> bool := SFltb.
Definition leb : t -> t -> bool := SFleb.
Definition eqb : t -> t -> bool := SFeqb.

Definition isNaN (x : t) : bool :=
  match x with S754_nan => true | _ => false end.

(** The value of the decimal literal [m / 10^k] ([0.005] is [dec 5 3]):
    both operands are exact, so the correctly rounded quotient is the
    double nearest to the literal. *)
Definition dec (m : Z) (k : nat) : t := div (ofZ m) (ofZ (10 ^ Z.of_nat k)).

(** [Math.max] of two numbers. *)
Definition max (a b : t) : t :=
  match SFcompare a b with
  | None => S754_nan
  | Some Lt => b
  | Some Gt => a
  | Some Eq => match a with S754_zero true => b | _ => a end
  end.

(** [ToIntegerOrInfinity]; [None] stands for either infinity. *)
Definition toIntegerOrInfinity (x : t) : option Z :=
  match x with
  | S754_nan => Some 0%Z
  | S754_zero _ => Some 0%Z
  | S754_infinity _ => None
  | S754_finite s m e =>
    let a := Z.shiftl (Zpos m) e in
    Some (if s then Z.opp a else a)
  end.

Fixpoint uintChars (u : Decimal.uint) : jsstr :=
  match u with
  | Decimal.Nil => []
  | Decimal.D0 u' => 48%N :: uintChars u'
  | Decimal.D1 u' => 49%N :: uintChars u'
  | Decimal.D2 u' => 50%N :: uintChars u'
  | Decimal.D3 u' => 51%N :: uintChars u'
  | Decimal.D4 u' => 52%N :: uintChars u'
  | Decimal.D5 u' => 53%N :: uintChars u'
  | Decimal.D6 u' => 54%N :: uintChars u'
  | Decimal.D7 u' => 55%N :: uintChars u'
  | Decimal.D8 u' => 56%N :: uintChars u'
  | Decimal.D9 u' => 57%N :: uintChars u'
  end.

(** The decimal representation of a non-negative integer. *)
Definition decimalDigits (n : N) : jsstr := uintChars (N.to_uint n).

(** The integer [n] for which [n / 10^f] is closest to [m * 2^e], the
    larger one when two are equally close. *)
Definition nearestScaled (m : positive) (e : Z) (f : nat) : N :=
  let p := (10 ^ Z.of_nat f)%Z in
  Z.to_N (if (0 <=? e)%Z then Zpos m * 2 ^ e * p
          else (2 * Zpos m * p + 2 ^ (- e)) / 2 ^ (- e + 1))%Z.

(** Steps 10.b-10.c of [Number.prototype.toFixed]: the digits of [n]
    with a decimal point before the last [f] of them. *)
Definition fixedString (n : N) (f : nat) : jsstr :=
  let m := decimalDigits n in
  match f with
  | O => m
  | S _ =>
    let k := List.length m in
    let m' := if k <=? f then repeat 48%N (f + 1 - k) ++ m else m in
    let k' := if k <=? f then f + 1 else k in
    firstn (k' - f) m' ++ 46%N :: skipn (k' - f) m'
  end.

(** [Number::toString] for a finite value of at least [10^21], which is
    an integer [X]: the shortest decimal [s * 10^p] that reads back as
    the same double, in exponential notation. *)
Fixpoint shortest (x : t) (X : Z) (nd : nat) (k fuel : nat) : Z * nat :=
  let p := nd - k in
  let lo := (X / 10 ^ Z.of_nat p)%Z in
  let hi := (lo + 1)%Z in
  let okLo := eqb (ofZ (lo * 10 ^ Z.of_nat p)) x in
  let okHi := eqb (ofZ (hi * 10 ^ Z.of_nat p)) x in
  let closerLo := (X - lo * 10 ^ Z.of_nat p <=? hi * 10 ^ Z.of_nat p - X)%Z in
  match fuel with
  | O => (lo, p)
  | S fuel' =>
    if okLo && okHi then (if closerLo then lo else hi, p)
    else if okLo then (lo, p)
    else if okHi then (hi, p)
    else shortest x X nd (S k) fuel'
  end.

Fixpoint dropZeros (s : jsstr) : jsstr :=
  match s with
  | 48%N :: s' => dropZeros s'
  | _ => s
  end.

Definition toStringLarge (x : t) (X : Z) : jsstr :=
  let nd := List.length (decimalDigits (Z.to_N X)) in
  let '(s, p) := shortest x X nd 1 17 in
  let all := decimalDigits (Z.to_N s) in
  let ds := rev (dropZeros (rev all)) in
  let e := decimalDigits (N.of_nat (p + List.length all - 1)) in
  match ds with
  | [] => all
  | [d] => d :: js "e+" ++ e
  | d :: r => d :: 46%N :: r ++ js "e+" ++ e
  end.

(** [Number.prototype.toFixed]. *)
Definition toFixed (x : t) (fractionDigits : t) : completion jsstr :=
  match toIntegerOrInfinity fractionDigits with
  | None => Throw RangeError
  | Some f =>
    if ((f <? 0) || (100 <? f))%Z then Throw RangeError
    else
      match x with
      | S754_nan => Return (js "NaN")
      | S754_infinity s => Return (if s then js "-Infinity" else js "Infinity")
      | S754_zero _ => Return (fixedString 0 (Z.to_nat f))
      | S754_finite s m e =>
        let sign := if s then js "-" else [] in
        let X := Z.shiftl (Zpos m) e in
        if ((0 <=? e) && (10 ^ 21 <=? X))%Z
        then Return (sign ++ toStringLarge (S754_finite false m e) X)
        else Return (sign ++ fixedString (nearestScaled m e (Z.to_nat f)) (Z.to_nat f))
      end
  end.

End Number.

Definition number : Type := Number.t.

Arguments Number.ofZ : simpl never.
Arguments Number.ofNat : simpl never.
Arguments Number.add : simpl never.
Arguments Number.mul : simpl never.
Arguments Number.div : simpl never.
Arguments Number.toFixed : simpl never.

(** ** Rows, objects used as records, and maps in insertion order *)

(** A parsed CSV row: an object from column name to string value.  Lookup
    of a missing column is [None] (the source's [undefined]).

    The same [lookup] reads the two constant tables.  An object literal
    also answers for the properties it inherits from [Object.prototype]
    ([constructor], [toString], ...); a strategy or tag spelled like one of
    those is outside the model. *)
Definition CsvRow : Type := list (jsstr * jsstr).

Fixpoint lookup {V : Type} (o : list (jsstr * V)) (k : jsstr) : option V :=
  match o with
  | [] => None
  | (k', v) :: o' => if JsString.eqb k' k then Some v else lookup o' k
  end.

(** [x?.trim()] *)
Definition optTrim (x : option jsstr) : option jsstr :=
  option_map JsString.trim x.

(** Truthiness of a string-or-undefined value. *)
Definition truthy (x : option jsstr) : bool :=
  match x with
  | Some (_ :: _) => true
  | _ => false
  end.

(** [x === lit] for a string-or-undefined [x]. *)
Definition isStr (x : option jsstr) (lit : jsstr) : bool :=
  match x with
  | Some s => JsString.eqb s lit
  | None => false
  end.

(** [x || 0] for a count-or-undefined [x]. *)
Definition orZero (x : option nat) : nat :=
  match x with
  | Some (S n) => S n
  | _ => 0
  end.

(** A [Map] keyed by strings: entries in insertion order, keys unique. *)
Module JsMap.

Definition t (V : Type) : Type := list (jsstr * V).

Definition get {V : Type} (m : t V) (k : jsstr) : option V := lookup m k.

Definition has {V : Type} (m : t V) (k : jsstr) : bool :=
  match get m k with Some _ => true | None => false end.

(** [Map.prototype.set]: an existing key keeps its position. *)
Fixpoint set {V : Type} (m : t V) (k : jsstr) (v : V) : t V :=
  match m with
  | [] => [(k, v)]
  | (k', v') :: m' =>
    if JsString.eqb k' k then (k', v) :: m' else (k', v') :: set m' k v
  end.

Definition keys {V : Type} (m : t V) : list jsstr := map fst m.
Definition values {V : Type} (m : t V) : list V := map snd m.

End JsMap.

(** A [Set] of strings in insertion order. *)
Module JsSet.

Definition t : Type := list jsstr.

Definition has (s : t) (x : jsstr) : bool := existsb (JsString.eqb x) s.

Definition add (s : t) (x : jsstr) : t := if has s x then s else s ++ [x].

End JsSet.

(** ** Constants and mappings *)

Definition STRATEGY_MAPPING : list (jsstr * jsstr) :=
  [ (js "huiboxing_wenxin_model", js "huiboxing文心大模型");
    (js "service_digital_human_check", js "数字人物料机审");
    (js "service_sync_word", js "业务线词表策略");
    (js "qr_code_detect", js "二维码图片识别模型");
    (js "sensitive_img_model", js "敏感图片模型");
    (js "img_ocr_strategy", js "图片ocr策略");
    (js "service_variant_word_check", js "习彭变体词表");
    (js "duxiaodian_review", js "度小店审核");
    (js "service_short_text_check", js "短文本机审");
    (js "sensitive_hardface", js "敏感人脸模型");
    (js "service_word_3s_check", js "3S敏感词策略") ].

Definition WEEKLY_KEY : jsstr := js "ALL_WEEKLY_REPORT".

(** The merge table declared inside [analyzeRows]; every entry of it is
    commented out in the source. *)
Definition TAG_MERGE_MAPPING : list (jsstr * jsstr) := [].

Definition COL_SYNC_STATUS : jsstr := js "同步机审状态".
Definition COL_ASYNC_STATUS : jsstr := js "异步机审状态".
Definition COL_HUMAN_STATUS : jsstr := js "人审状态".
Definition COL_SYNC_STRATEGY : jsstr := js "同步机审命中策略".
Definition COL_ASYNC_STRATEGY : jsstr := js "异步机审命中策略".
Definition COL_HUMAN_TAGS : jsstr := js "人审标签".
Definition COL_ASYNC_TIME : jsstr := js "异步机审入审时间".

Definition REJECTED : jsstr := js "拒绝".
Definition PENDING : jsstr := js "待审".

Definition TAG_STOP_LIST : list jsstr :=
  [ js "通过"; js "拒绝"; js "待审"; js "送审"; js "null"; js "无";
    js "内容涉及"; js "请修改后重试" ].

(** ** Helper functions *)

Definition formatPercent (numerator denominator decimals : number)
  : completion jsstr :=
  if Number.eqb denominator Number.zero
  then Number.toFixed Number.zero decimals
  else Number.toFixed
         (Number.mul (Number.div numerator denominator) (Number.ofZ 100))
         decimals.

Definition formatDecimal (val decimals : number) : completion jsstr :=
  Number.toFixed val decimals.

Definition isDigit (c : N) : bool := ((48 <=? c) && (c <=? 57))%N.

(** The classes [[\.\-\/年]] and [[\.\-\/月]] of the date pattern. *)
Definition isYearSep (c : N) : bool :=
  ((c =? 46) || (c =? 45) || (c =? 47) || (c =? 24180))%N.
Definition isMonthSep (c : N) : bool :=
  ((c =? 46) || (c =? 45) || (c =? 47) || (c =? 26376))%N.

(** [\d{1,2}], greedy.  In the date pattern the group is followed either by
    a separator class without digits or by nothing, so giving back the
    second digit never produces a match and no backtracking is needed. *)
Definition digits12 (s : jsstr) : option (jsstr * jsstr) :=
  match s with
  | a :: b :: r => if isDigit a then
                     if isDigit b then Some ([a; b], r) else Some ([a], b :: r)
                   else None
  | [a] => if isDigit a then Some ([a], []) else None
  | [] => None
  end.

(** The date pattern anchored at the head of [s]: the three groups. *)
Definition matchDateAt (s : jsstr) : option (jsstr * jsstr * jsstr) :=
  match s with
  | y1 :: y2 :: y3 :: y4 :: sep :: r =>
    if isDigit y1 && isDigit y2 && isDigit y3 && isDigit y4 && isYearSep sep
    then
      match digits12 r with
      | Some (mo, sep2 :: r2) =>
        if isMonthSep sep2 then
          match digits12 r2 with
          | Some (d, _) => Some ([y1; y2; y3; y4], mo, d)
          | None => None
          end
        else None
      | _ => None
      end
    else None
  | _ => None
  end.

(** The leftmost match of the date pattern. *)
Fixpoint matchDate (s : jsstr) : option (jsstr * jsstr * jsstr) :=
  match matchDateAt s with
  | Some g => Some g
  | None => match s with
            | [] => None
            | _ :: s' => matchDate s'
            end
  end.

Definition extractDate (dateStr : option jsstr) : option jsstr :=
  if negb (truthy dateStr) then None
  else
    match dateStr with
    | Some s =>
      match matchDate s with
      | Some (year, mo, d) =>
        let month := JsString.padStart2 mo in
        let day := JsString.padStart2 d in
        Some (year ++ js "-" ++ month ++ js "-" ++ day)
      | None => None
      end
    | None => None
    end.

(** ** Analysis core: [analyzeRows] *)

Record StrategyStats : Type := {
  name : jsstr;
  hitCount : nat;
  humanReviewCount : nat;
  pendingCount : nat;
  violationCount : nat
}.

Record BasicStats : Type := {
  totalRows : nat;
  machineRejectCount : nat;
  recallCount : nat;
  humanViolationCount : nat;
  blackSampleTotal : nat
}.

(** The object returned by [analyzeRows]: the five counts, which are the
    fields a [BasicStats] has, and the two maps. *)
Record Analysis : Type := {
  basic : BasicStats;
  strategyMap : JsMap.t StrategyStats;
  tagMap : JsMap.t nat
}.

(** The variables the [rows.forEach] loop of [analyzeRows] updates. *)
Record LoopState : Type := {
  st_machineRejectCount : nat;
  st_recallCount : nat;
  st_humanViolationCount : nat;
  st_strategyMap : JsMap.t StrategyStats;
  st_tagMap : JsMap.t nat
}.

Definition isMachineReject (row : CsvRow) : bool :=
  let isSyncReject := isStr (optTrim (lookup row COL_SYNC_STATUS)) REJECTED in
  let isAsyncReject := isStr (optTrim (lookup row COL_ASYNC_STATUS)) REJECTED in
  isSyncReject || isAsyncReject.

Definition humanStatus (row : CsvRow) : option jsstr :=
  optTrim (lookup row COL_HUMAN_STATUS).

Definition isHumanSent (row : CsvRow) : bool := truthy (humanStatus row).
Definition isHumanViolation (row : CsvRow) : bool := isStr (humanStatus row) REJECTED.
Definition isHumanPending (row : CsvRow) : bool := isStr (humanStatus row) PENDING.

Definition rawStrategyValue (row : CsvRow) : option jsstr :=
  let v := optTrim (lookup row COL_SYNC_STRATEGY) in
  if truthy v then v else optTrim (lookup row COL_ASYNC_STRATEGY).

(** The separator ['&&'] of [split('&&')]. *)
Definition ampSep (s : jsstr) : nat :=
  if JsString.startsWith (js "&&") s then 2 else 0.

(** [STRATEGY_MAPPING[cleanName] || cleanName] *)
Definition mapStrategyName (cleanName : jsstr) : jsstr :=
  match lookup STRATEGY_MAPPING cleanName with
  | Some (c :: v) => c :: v
  | _ => cleanName
  end.

Definition newStrategy (strategyName : jsstr) : StrategyStats :=
  {| name := strategyName; hitCount := 0; humanReviewCount := 0;
     pendingCount := 0; violationCount := 0 |}.

(** The increments applied to the entry of one strategy hit. *)
Definition hit (sent pending violation : bool) (stats : StrategyStats)
  : StrategyStats :=
  {| name := name stats;
     hitCount := S (hitCount stats);
     humanReviewCount :=
       if sent then S (humanReviewCount stats) else humanReviewCount stats;
     pendingCount :=
       if pending then S (pendingCount stats) else pendingCount stats;
     violationCount :=
       if violation then S (violationCount stats) else violationCount stats |}.

(** The body of [allStrategies.forEach]. *)
Definition countStrategy (sent pending violation : bool)
    (strategyMap : JsMap.t StrategyStats) (rawName : jsstr)
  : JsMap.t StrategyStats :=
  let cleanName := JsString.trim rawName in
  match cleanName with
  | [] => strategyMap
  | _ :: _ =>
    let strategyName := mapStrategyName cleanName in
    let strategyMap1 :=
      if JsMap.has strategyMap strategyName then strategyMap
      else JsMap.set strategyMap strategyName (newStrategy strategyName) in
    match JsMap.get strategyMap1 strategyName with
    | Some stats =>
      JsMap.set strategyMap1 strategyName (hit sent pending violation stats)
    | None => strategyMap1
    end
  end.

(** The separator [/&&|\$\$|\+|[,\s，]+/] of the tag field. *)
Definition isListSep (c : N) : bool :=
  ((c =? 44) || JsString.isWhiteSpace c || (c =? 65292))%N.

Fixpoint listSepRun (s : jsstr) : nat :=
  match s with
  | c :: s' => if isListSep c then S (listSepRun s') else 0
  | [] => 0
  end.

Definition tagSep (s : jsstr) : nat :=
  if JsString.startsWith (js "&&") s then 2
  else if JsString.startsWith (js "$$") s then 2
  else if JsString.startsWith (js "+") s then 1
  else listSepRun s.

Definition isInvalidTag (tag : jsstr) : bool :=
  match tag with
  | [] => true
  | _ :: _ => existsb (JsString.eqb tag) TAG_STOP_LIST
  end.

Definition mergeTag (tag : jsstr) : jsstr :=
  match lookup TAG_MERGE_MAPPING tag with
  | Some (c :: v) => c :: v
  | _ => tag
  end.

(** The body of [tokens.forEach]. *)
Definition collectTag (uniqueTagsInRow : JsSet.t) (t : jsstr) : JsSet.t :=
  let tag := JsString.trim t in
  if negb (isInvalidTag tag) then JsSet.add uniqueTagsInRow (mergeTag tag)
  else uniqueTagsInRow.

Definition uniqueTagsInRow (row : CsvRow) : JsSet.t :=
  let rawTags := match lookup row COL_HUMAN_TAGS with
                 | Some s => s
                 | None => []
                 end in
  let tokens := JsString.split tagSep rawTags in
  fold_left collectTag tokens [].

(** The body of [uniqueTagsInRow.forEach]. *)
Definition countTag (tagMap : JsMap.t nat) (tag : jsstr) : JsMap.t nat :=
  JsMap.set tagMap tag (orZero (JsMap.get tagMap tag) + 1).

(** The body of [rows.forEach]. *)
Definition analyzeRow (st : LoopState) (row : CsvRow) : LoopState :=
  let sent := isHumanSent row in
  let violation := isHumanViolation row in
  let pending := isHumanPending row in
  {| st_machineRejectCount :=
       if isMachineReject row then S (st_machineRejectCount st)
       else st_machineRejectCount st;
     st_recallCount :=
       if sent then S (st_recallCount st) else st_recallCount st;
     st_humanViolationCount :=
       if violation then S (st_humanViolationCount st)
       else st_humanViolationCount st;
     st_strategyMap :=
       match rawStrategyValue row with
       | Some (c :: v) =>
         fold_left (countStrategy sent pending violation)
                   (JsString.split ampSep (c :: v)) (st_strategyMap st)
       | _ => st_strategyMap st
       end;
     st_tagMap :=
       if violation
       then fold_left countTag (uniqueTagsInRow row) (st_tagMap st)
       else st_tagMap st |}.

Definition initialState : LoopState :=
  {| st_machineRejectCount := 0; st_recallCount := 0;
     st_humanViolationCount := 0; st_strategyMap := []; st_tagMap := [] |}.

Definition analyzeRows (rows : list CsvRow) : Analysis :=
  let st := fold_left analyzeRow rows initialState in
  {| basic :=
       {| totalRows := List.length rows;
          machineRejectCount := st_machineRejectCount st;
          recallCount := st_recallCount st;
          humanViolationCount := st_humanViolationCount st;
          blackSampleTotal :=
            st_machineRejectCount st + st_humanViolationCount st |};
     strategyMap := st_strategyMap st;
     tagMap := st_tagMap st |}.

(** ** Report generation: [report] *)

Inductive Mode : Type := SINGLE | WEEKLY.

(** The pre-formatted averages [avgStats]. *)
Record AvgStats : Type := {
  avg_totalRows : jsstr;
  avg_machineRejectCount : jsstr;
  avg_recallCount : jsstr;
  avg_humanViolationCount : jsstr;
  avg_blackSampleTotal : jsstr;
  avg_recallRate : jsstr;
  avg_precision : jsstr;
  avg_riskLevel : jsstr
}.

(** An entry [{ name, count }] of [tagList]. *)
Record TagCount : Type := { tagName : jsstr; count : nat }.

Record ReportData : Type := {
  mode : Mode;
  dateLabel : jsstr;
  singleStats : option BasicStats;
  dates : option (list jsstr);
  dailyStatsMap : option (JsMap.t BasicStats);
  totalStats : option BasicStats;
  avgStats : option AvgStats;
  strategyList : list StrategyStats;
  tagList : list TagCount;
  totalTagCount : nat;
  aggTotalRows : nat;
  aggHumanViolationCount : nat;
  aggRecallCount : nat
}.

(** [Array.prototype.sort] with a comparator: the sort is stable, an
    element goes before another when the comparator is negative and equal
    elements keep their order.  [insertSorted] places an element that
    preceded every element of the already sorted [l]. *)
Fixpoint insertSorted {A : Type} (cmp : A -> A -> Z) (x : A) (l : list A)
  : list A :=
  match l with
  | [] => [x]
  | y :: l' => if (cmp x y <=? 0)%Z then x :: y :: l'
               else y :: insertSorted cmp x l'
  end.

Definition sort {A : Type} (cmp : A -> A -> Z) (l : list A) : list A :=
  fold_right (insertSorted cmp) [] l.

(** [(a, b) => b.hitCount - a.hitCount] and [(a, b) => b.count - a.count] *)
Definition byHitCountDesc (a b : StrategyStats) : Z :=
  Z.of_nat (hitCount b) - Z.of_nat (hitCount a).
Definition byCountDesc (a b : TagCount) : Z :=
  Z.of_nat (count b) - Z.of_nat (count a).

(** [r => extractDate(r['异步机审入审时间']) === d] *)
Definition onDate (d : jsstr) (r : CsvRow) : bool :=
  isStr (extractDate (lookup r COL_ASYNC_TIME)) d.

Definition rowsOfDate (rawData : list CsvRow) (d : jsstr) : list CsvRow :=
  filter (onDate d) rawData.

(** The noise filter of the weekly mode: the dates that are kept.

    [Math.max(...dailyCounts)] is a call with one argument per date.  The
    language puts no bound on the arguments of a call, but an engine does,
    and beyond it (some hundred thousand dates) the call ends in a
    [RangeError].  That bound is no part of the program and is outside the
    model: [retainedDates] is the value of the filter whenever the call
    returns, and a property that gives the report of a weekly selection
    over more than one date gives it for an engine that accepts the
    call. *)
Definition noiseThreshold (maxVolume : nat) : number :=
  Number.max (Number.ofZ 5) (Number.mul (Number.ofNat maxVolume) (Number.dec 5 3)).

Definition retainedDates (rawData : list CsvRow) (availableDates : list jsstr)
  : list jsstr :=
  if 1 <? List.length availableDates then
    let dailyCounts :=
      map (fun d => List.length (rowsOfDate rawData d)) availableDates in
    let maxVolume := list_max dailyCounts in
    if 100 <? maxVolume then
      let threshold := noiseThreshold maxVolume in
      map fst
        (filter (fun di => Number.ltb threshold (Number.ofNat (snd di)))
                (combine availableDates dailyCounts))
    else availableDates
  else availableDates.

(** The accumulators of the weekly [dates.forEach] loop.  [dailyStatsMap]
    is an object keyed by date; the properties only read it by key. *)
Record WeeklyState : Type := {
  w_dailyStatsMap : JsMap.t BasicStats;
  w_aggTotalRows : nat;
  w_aggMachineReject : nat;
  w_aggRecall : nat;
  w_aggHumanViolation : nat;
  w_aggBlackSample : nat;
  w_sumRecallRate : number;
  w_sumPrecision : number;
  w_sumRiskLevel : number;
  w_aggStrategyMap : JsMap.t StrategyStats;
  w_aggTagMap : JsMap.t nat
}.

(** [den > 0 ? (num / den) * 100 : 0] *)
Definition percentOf (num den : nat) : number :=
  if 0 <? den
  then Number.mul (Number.div (Number.ofNat num) (Number.ofNat den)) (Number.ofZ 100)
  else Number.zero.

(** The body of [stats.strategyMap.forEach] in the weekly loop. *)
Definition mergeStrategy (aggStrategyMap : JsMap.t StrategyStats)
    (kv : jsstr * StrategyStats) : JsMap.t StrategyStats :=
  let '(key, val) := kv in
  match JsMap.get aggStrategyMap key with
  | None => JsMap.set aggStrategyMap key val
  | Some existing =>
    JsMap.set aggStrategyMap key
      {| name := name existing;
         hitCount := hitCount existing + hitCount val;
         humanReviewCount := humanReviewCount existing + humanReviewCount val;
         pendingCount := pendingCount existing + pendingCount val;
         violationCount := violationCount existing + violationCount val |}
  end.

(** The body of [stats.tagMap.forEach] in the weekly loop. *)
Definition mergeTagCount (aggTagMap : JsMap.t nat) (kv : jsstr * nat)
  : JsMap.t nat :=
  let '(tag, count) := kv in
  JsMap.set aggTagMap tag (orZero (JsMap.get aggTagMap tag) + count).

(** The body of [dates.forEach]. *)
Definition weeklyDay (rawData : list CsvRow) (w : WeeklyState) (d : jsstr)
  : WeeklyState :=
  let dayRows := rowsOfDate rawData d in
  let stats := analyzeRows dayRows in
  let b := basic stats in
  {| w_dailyStatsMap := JsMap.set (w_dailyStatsMap w) d b;
     w_aggTotalRows := w_aggTotalRows w + totalRows b;
     w_aggMachineReject := w_aggMachineReject w + machineRejectCount b;
     w_aggRecall := w_aggRecall w + recallCount b;
     w_aggHumanViolation := w_aggHumanViolation w + humanViolationCount b;
     w_aggBlackSample := w_aggBlackSample w + blackSampleTotal b;
     w_sumRecallRate :=
       Number.add (w_sumRecallRate w) (percentOf (recallCount b) (totalRows b));
     w_sumPrecision :=
       Number.add (w_sumPrecision w)
                  (percentOf (humanViolationCount b) (recallCount b));
     w_sumRiskLevel :=
       Number.add (w_sumRiskLevel w)
                  (percentOf (blackSampleTotal b) (totalRows b));
     w_aggStrategyMap :=
       fold_left mergeStrategy (strategyMap stats) (w_aggStrategyMap w);
     w_aggTagMap := fold_left mergeTagCount (tagMap stats) (w_aggTagMap w) |}.

Definition weeklyInit : WeeklyState :=
  {| w_dailyStatsMap := []; w_aggTotalRows := 0; w_aggMachineReject := 0;
     w_aggRecall := 0; w_aggHumanViolation := 0; w_aggBlackSample := 0;
     w_sumRecallRate := Number.zero; w_sumPrecision := Number.zero;
     w_sumRiskLevel := Number.zero; w_aggStrategyMap := []; w_aggTagMap := [] |}.

Definition weeklyState (rawData : list CsvRow) (dates : list jsstr)
  : WeeklyState :=
  fold_left (weeklyDay rawData) dates weeklyInit.

(** [Array.from(m.entries()).map(([name, count]) => ({ name, count }))
      .sort((a, b) => b.count - a.count).slice(0, 35)] *)
Definition topTags (m : JsMap.t nat) : list TagCount :=
  firstn 35
    (sort byCountDesc
       (map (fun e => {| tagName := fst e; count := snd e |}) m)).

(** [tagList.reduce((acc, curr) => acc + curr.count, 0)] *)
Definition sumCounts (tagList : list TagCount) : nat :=
  fold_left (fun acc curr => acc + count curr) tagList 0.

(** The value of [dates.length || 1]. *)
Definition dayCountOf (dates : list jsstr) : nat :=
  match List.length dates with
  | O => 1
  | S n => S n
  end.

Definition two : number := Number.ofZ 2.
Definition percentSign : jsstr := js "%".

Definition averages (w : WeeklyState) (dayCount : nat) : completion AvgStats :=
  let n := Number.ofNat dayCount in
  let avg (total : nat) := Number.div (Number.ofNat total) n in
  a1 <- formatDecimal (avg (w_aggTotalRows w)) two ;;
  a2 <- formatDecimal (avg (w_aggMachineReject w)) (Number.ofZ 3) ;;
  a3 <- formatDecimal (avg (w_aggRecall w)) two ;;
  a4 <- formatDecimal (avg (w_aggHumanViolation w)) two ;;
  a5 <- formatDecimal (avg (w_aggBlackSample w)) (Number.ofZ 0) ;;
  a6 <- formatDecimal (Number.div (w_sumRecallRate w) n) two ;;
  a7 <- formatDecimal (Number.div (w_sumPrecision w) n) two ;;
  a8 <- formatDecimal (Number.div (w_sumRiskLevel w) n) two ;;
  Return {| avg_totalRows := a1;
            avg_machineRejectCount := a2;
            avg_recallCount := a3;
            avg_humanViolationCount := a4;
            avg_blackSampleTotal := a5;
            avg_recallRate := a6 ++ percentSign;
            avg_precision := a7 ++ percentSign;
            avg_riskLevel := a8 ++ percentSign |}.

Definition weeklyReport (rawData : list CsvRow) (availableDates : list jsstr)
  : completion ReportData :=
  let dates := retainedDates rawData availableDates in
  let w := weeklyState rawData dates in
  let totalStats :=
    {| totalRows := w_aggTotalRows w;
       machineRejectCount := w_aggMachineReject w;
       recallCount := w_aggRecall w;
       humanViolationCount := w_aggHumanViolation w;
       blackSampleTotal := w_aggBlackSample w |} in
  let dayCount := dayCountOf dates in
  avgStats <- averages w dayCount ;;
  let strategyList := sort byHitCountDesc (JsMap.values (w_aggStrategyMap w)) in
  let tagList := topTags (w_aggTagMap w) in
  let totalTagCount := sumCounts tagList in
  Return {| mode := WEEKLY;
            dateLabel := js "整体周报";
            singleStats := None;
            dates := Some dates;
            dailyStatsMap := Some (w_dailyStatsMap w);
            totalStats := Some totalStats;
            avgStats := Some avgStats;
            strategyList := strategyList;
            tagList := tagList;
            totalTagCount := totalTagCount;
            aggTotalRows := w_aggTotalRows w;
            aggHumanViolationCount := w_aggHumanViolation w;
            aggRecallCount := w_aggRecall w |}.

Definition singleReport (rawData : list CsvRow) (selectedDate : jsstr)
  : ReportData :=
  let dayRows := rowsOfDate rawData selectedDate in
  let stats := analyzeRows dayRows in
  let strategyList := sort byHitCountDesc (JsMap.values (strategyMap stats)) in
  let tagList := topTags (tagMap stats) in
  let totalTagCount := sumCounts tagList in
  {| mode := SINGLE;
     dateLabel := selectedDate;
     singleStats := Some (basic stats);
     dates := None;
     dailyStatsMap := None;
     totalStats := None;
     avgStats := None;
     strategyList := strategyList;
     tagList := tagList;
     totalTagCount := totalTagCount;
     aggTotalRows := totalRows (basic stats);
     aggHumanViolationCount := humanViolationCount (basic stats);
     aggRecallCount := recallCount (basic stats) |}.

(** The memoised [report] of the component: [None] is the source's [null]. *)
Definition report (rawData : list CsvRow) (selectedDate : jsstr)
    (availableDates : list jsstr) : completion (option ReportData) :=
  match rawData with
  | [] => Return None
  | _ :: _ =>
    if JsString.eqb selectedDate WEEKLY_KEY then
      r <- weeklyReport rawData availableDates ;;
      Return (Some r)
    else Return (Some (singleReport rawData selectedDate))
  end.

(** The dates [processFile] stores in [availableDates]: the distinct
    extracted dates, sorted ascending. *)
Fixpoint insertAsc (x : jsstr) (l : list jsstr) : list jsstr :=
  match l with
  | [] => [x]
  | y :: l' => if JsString.ltb y x then y :: insertAsc x l' else x :: y :: l'
  end.

Definition collectDate (dates : JsSet.t) (row : CsvRow) : JsSet.t :=
  match extractDate (lookup row COL_ASYNC_TIME) with
  | Some d => JsSet.add dates d
  | None => dates
  end.

Definition availableDatesOf (data : list CsvRow) : list jsstr :=
  fold_right insertAsc [] (fold_left collectDate data []).

(** ** The single-day baseline of [src/index.tsx] *)

Module Baseline.

(** Its tag loop: split on ['&&'] only, a shorter stop list and no set. *)
Definition isInvalidTag (tag : jsstr) : bool :=
  match tag with
  | [] => true
  | _ :: _ => JsString.eqb tag (js "通过") || JsString.eqb tag (js "拒绝")
              || JsString.eqb tag (js "待审") || JsString.eqb tag (js "送审")
  end.

Definition countToken (tagMap : JsMap.t nat) (token : jsstr) : JsMap.t nat :=
  let tag := JsString.trim token in
  if negb (isInvalidTag tag)
  then JsMap.set tagMap tag (orZero (JsMap.get tagMap tag) + 1)
  else tagMap.

Definition countRowTags (tagMap : JsMap.t nat) (row : CsvRow) : JsMap.t nat :=
  if isHumanViolation row then
    let rawTags := match lookup row COL_HUMAN_TAGS with
                   | Some s => s
                   | None => []
                   end in
    fold_left countToken (JsString.split ampSep rawTags) tagMap
  else tagMap.

(** Its counts: the three counters are updated as in [analyzeRows], and
    [blackSampleTotal = recallCount + humanViolationCount]. *)
Definition countRow (c : nat * nat * nat) (row : CsvRow) : nat * nat * nat :=
  let '(machineRejectCount, recallCount, humanViolationCount) := c in
  (if isMachineReject row then S machineRejectCount else machineRejectCount,
   if isHumanSent row then S recallCount else recallCount,
   if isHumanViolation row then S humanViolationCount else humanViolationCount).

Definition blackSampleTotal (dailyData : list CsvRow) : nat :=
  let '(_, recallCount, humanViolationCount) :=
    fold_left countRow dailyData (0, 0, 0) in
  recallCount + humanViolationCount.

End Baseline.

(** * Notions used to state the properties *)

(** ** Readings of the results *)

(** The statistics [analyzeRows] computes for the rows of date [d]. *)
Definition dayStats (rawData : list CsvRow) (d : jsstr) : BasicStats :=
  basic (analyzeRows (rowsOfDate rawData d)).

(** The sum of one count over a list of dates. *)
Definition sumOver (rawData : list CsvRow) (f : BasicStats -> nat)
    (ds : list jsstr) : nat :=
  list_sum (map (fun d => f (dayStats rawData d)) ds).

(** The entry of a strategy, a fresh one when the strategy is new. *)
Definition entryOr (m : JsMap.t StrategyStats) (k : jsstr) : StrategyStats :=
  match JsMap.get m k with
  | Some stats => stats
  | None => newStrategy k
  end.

(** The count a tag map holds for a tag, 0 when the tag is absent. *)
Definition tagCount (m : JsMap.t nat) (t : jsstr) : nat :=
  match JsMap.get m t with
  | Some n => n
  | None => 0
  end.

(** The canonical tags of a raw tag field: split on the delimiters, trim,
    drop the stop-list words and the empty tokens, apply the merge table. *)
Definition survivingTags (rawTags : jsstr) : list jsstr :=
  map mergeTag
      (filter (fun tag => negb (isInvalidTag tag))
              (map JsString.trim (JsString.split tagSep rawTags))).

(** [String(row['人审标签'] || '')] *)
Definition rawTagsOf (row : CsvRow) : jsstr :=
  match lookup row COL_HUMAN_TAGS with
  | Some s => s
  | None => []
  end.

(** The three rows of 1 March 2024 of the end-to-end scenario. *)
Definition scenarioRows : list CsvRow :=
  [ [ (COL_ASYNC_TIME, js "2024-03-01"); (COL_SYNC_STATUS, js "拒绝");
      (COL_HUMAN_STATUS, js "拒绝"); (COL_SYNC_STRATEGY, js "s1");
      (COL_HUMAN_TAGS, js "t1") ];
    [ (COL_ASYNC_TIME, js "2024-03-01"); (COL_SYNC_STATUS, js "通过");
      (COL_HUMAN_STATUS, js "待审"); (COL_SYNC_STRATEGY, js "s1&&s2") ];
    [ (COL_ASYNC_TIME, js "2024-03-01"); (COL_SYNC_STATUS, js "通过");
      (COL_HUMAN_STATUS, js "") ] ].

(** A violation row whose tag field names [A] twice and [B] once. *)
Definition rowAAB : CsvRow :=
  [ (COL_HUMAN_STATUS, js "拒绝"); (COL_HUMAN_TAGS, js "A&&A&&B") ].

(** The tag map the report is built from: the per-day merge in weekly
    mode, the map of the selected day otherwise. *)
Definition mergedTagMap (rawData : list CsvRow) (selectedDate : jsstr)
    (availableDates : list jsstr) : JsMap.t nat :=
  if JsString.eqb selectedDate WEEKLY_KEY
  then w_aggTagMap (weeklyState rawData (retainedDates rawData availableDates))
  else tagMap (analyzeRows (rowsOfDate rawData selectedDate)).

(** The entries of a tag map as [{ name, count }] objects. *)
Definition tagEntries (m : JsMap.t nat) : list TagCount :=
  map (fun e => {| tagName := fst e; count := snd e |}) m.

(** Forty violation rows of one day; row [j] carries the tags [T1] to
    [Tj], so that tag [Ti] is counted [41 - i] times. *)
Definition tagNo (i : nat) : jsstr :=
  js "T" ++ Number.decimalDigits (N.of_nat i).

Fixpoint joinAmp (l : list jsstr) : jsstr :=
  match l with
  | [] => []
  | [x] => x
  | x :: l' => x ++ js "&&" ++ joinAmp l'
  end.

Definition fortyTagsRow (j : nat) : CsvRow :=
  [ (COL_ASYNC_TIME, js "2024-03-01 08:00:00");
    (COL_HUMAN_STATUS, js "拒绝");
    (COL_HUMAN_TAGS, joinAmp (map tagNo (seq 1 j))) ].

Definition fortyTags : list CsvRow := map fortyTagsRow (seq 1 40).

(** A boolean check that the strings of a list are pairwise distinct. *)
Fixpoint distinctb (l : list jsstr) : bool :=
  match l with
  | [] => true
  | x :: r => negb (existsb (JsString.eqb x) r) && distinctb r
  end.

(** The statistics of an empty partition. *)
Definition zeroStats : BasicStats :=
  {| totalRows := 0; machineRejectCount := 0; recallCount := 0;
     humanViolationCount := 0; blackSampleTotal := 0 |}.

(** The averages of a weekly report without dates. *)
Definition zeroAverages : AvgStats :=
  {| avg_totalRows := js "0.00";
     avg_machineRejectCount := js "0.000";
     avg_recallCount := js "0.00";
     avg_humanViolationCount := js "0.00";
     avg_blackSampleTotal := js "0";
     avg_recallRate := js "0.00%";
     avg_precision := js "0.00%";
     avg_riskLevel := js "0.00%" |}.

(** A file whose single row has no parsable date. *)
Definition undatedData : list CsvRow :=
  [ [ (COL_ASYNC_TIME, js "n/a"); (COL_SYNC_STATUS, js "拒绝") ] ].

(** A file with one row, of 1 March 2024. *)
Definition oneDayData : list CsvRow :=
  [ [ (COL_ASYNC_TIME, js "2024-03-01 08:00:00"); (COL_SYNC_STATUS, js "拒绝") ] ].

(** The row count of a date and the largest row count of a list of dates. *)
Definition dailyCount (rawData : list CsvRow) (d : jsstr) : nat :=
  List.length (rowsOfDate rawData d).

Definition maxVolumeOf (rawData : list CsvRow) (availableDates : list jsstr)
  : nat :=
  list_max (map (dailyCount rawData) availableDates).

(** Three dates with the daily volumes 1, 1 and 150. *)
Definition datedRow (d : jsstr) : CsvRow := [ (COL_ASYNC_TIME, d) ].

Definition noisyData : list CsvRow :=
  datedRow (js "2024-03-01 23:59:59")
  :: datedRow (js "2024-03-02 00:00:01")
  :: repeat (datedRow (js "2024-03-03 12:00:00")) 150.

(** Zero with [d] decimal digits: ["0"], ["0.0"], ["0.00"], ... *)
Definition zeroFixed (d : nat) : jsstr :=
  match d with
  | O => js "0"
  | S _ => js "0." ++ repeat 48%N d
  end.

(** [toFixed] of zero yields [zeroFixed d] for every [d] up to [bound]. *)
Definition zeroFixedUpTo (bound : nat) : bool :=
  forallb (fun d =>
             match Number.toFixed Number.zero (Number.ofNat d) with
             | Return s => JsString.eqb s (zeroFixed d)
             | Throw _ => false
             end)
          (seq 0 (S bound)).

(** The sum of a list of numbers, added from the left starting at 0. *)
Definition sumNumbers (l : list number) : number :=
  fold_left Number.add l Number.zero.

(** The three per-day percentages of the weekly loop. *)
Definition recallRateOf (b : BasicStats) : number :=
  percentOf (recallCount b) (totalRows b).
Definition precisionOf (b : BasicStats) : number :=
  percentOf (humanViolationCount b) (recallCount b).
Definition riskLevelOf (b : BasicStats) : number :=
  percentOf (blackSampleTotal b) (totalRows b).

(** [formatDecimal(x, 2) + '%'] *)
Definition formatRate (x : number) : completion jsstr :=
  s <- formatDecimal x two ;; Return (s ++ percentSign).

(** One day of 1 row, machine-rejected, and one day of 3 rows, none
    rejected: per-day risk levels of 100% and 0%. *)
Definition unevenData : list CsvRow :=
  [ [ (COL_ASYNC_TIME, js "2024-03-01"); (COL_SYNC_STATUS, js "拒绝") ];
    [ (COL_ASYNC_TIME, js "2024-03-02"); (COL_SYNC_STATUS, js "通过") ];
    [ (COL_ASYNC_TIME, js "2024-03-02"); (COL_SYNC_STATUS, js "通过") ];
    [ (COL_ASYNC_TIME, js "2024-03-02"); (COL_SYNC_STATUS, js "通过") ] ].

(** One contribution [(k, d)] to a map: added to the value under [k], or
    stored at the end when [k] is new. *)
Definition upsertAdd {V : Type} (plus : V -> V -> V) (m : JsMap.t V)
    (kd : jsstr * V) : JsMap.t V :=
  JsMap.set m (fst kd)
    (match JsMap.get m (fst kd) with
     | Some e => plus e (snd kd)
     | None => snd kd
     end).

(** The sum of two optional values, an absent one adding nothing. *)
Definition optPlus {V : Type} (plus : V -> V -> V) (a b : option V)
  : option V :=
  match a, b with
  | Some x, Some y => Some (plus x y)
  | Some x, None => Some x
  | None, _ => b
  end.

(** The field-wise sum of two entries of one strategy. *)
Definition addStats (a b : StrategyStats) : StrategyStats :=
  {| name := name a;
     hitCount := hitCount a + hitCount b;
     humanReviewCount := humanReviewCount a + humanReviewCount b;
     pendingCount := pendingCount a + pendingCount b;
     violationCount := violationCount a + violationCount b |}.

(** The contributions of one strategy token, of one row, to the strategy
    map, and of one row to the tag map. *)
Definition tokenContribution (sent pending violation : bool) (rawName : jsstr)
  : list (jsstr * StrategyStats) :=
  match JsString.trim rawName with
  | [] => []
  | c :: r =>
    let k := mapStrategyName (c :: r) in
    [(k, hit sent pending violation (newStrategy k))]
  end.

Definition strategyContributions (row : CsvRow) : list (jsstr * StrategyStats) :=
  match rawStrategyValue row with
  | Some (c :: v) =>
    flat_map (tokenContribution (isHumanSent row) (isHumanPending row)
                                (isHumanViolation row))
             (JsString.split ampSep (c :: v))
  | _ => []
  end.

Definition tagContributions (row : CsvRow) : list (jsstr * nat) :=
  if isHumanViolation row
  then map (fun t => (t, 1)) (uniqueTagsInRow row)
  else [].

(** The value of one field of the entry of a strategy, 0 when absent. *)
Definition fieldOf (f : StrategyStats -> nat) (m : JsMap.t StrategyStats)
    (k : jsstr) : nat :=
  match JsMap.get m k with
  | Some s => f s
  | None => 0
  end.

(** * Further notions *)

(** A column that is absent from a row, or holds only white space. *)
Definition blankColumn (row : CsvRow) (col : jsstr) : bool :=
  match lookup row col with
  | None => true
  | Some s => match JsString.trim s with
              | [] => true
              | _ :: _ => false
              end
  end.

(** A row without machine status, human status or strategy. *)
Definition bareRow (row : CsvRow) : bool :=
  blankColumn row COL_SYNC_STATUS && blankColumn row COL_ASYNC_STATUS
  && blankColumn row COL_HUMAN_STATUS
  && blankColumn row COL_SYNC_STRATEGY && blankColumn row COL_ASYNC_STRATEGY.

(** The rows whose extracted date is one of [ds]. *)
Definition datedIn (ds : list jsstr) (r : CsvRow) : bool :=
  existsb (fun d => onDate d r) ds.

(** The rows a report is about: the rows of the retained dates, date by
    date, in weekly mode, the rows of the selected date otherwise. *)
Definition scopeRows (rawData : list CsvRow) (selectedDate : jsstr)
    (availableDates : list jsstr) : list CsvRow :=
  if JsString.eqb selectedDate WEEKLY_KEY
  then flat_map (rowsOfDate rawData) (retainedDates rawData availableDates)
  else rowsOfDate rawData selectedDate.

(** The statistics in the summary column of a report: [totalStats] in
    weekly mode, [singleStats] otherwise. *)
Definition summaryStats (r : ReportData) : option BasicStats :=
  match mode r with
  | WEEKLY => totalStats r
  | SINGLE => singleStats r
  end.

(** A date key [YYYY-MM-DD]: ten code units, digits around two hyphens. *)
Definition isCanonicalDate (d : jsstr) : bool :=
  match d with
  | [y1; y2; y3; y4; h1; m1; m2; h2; d1; d2] =>
    isDigit y1 && isDigit y2 && isDigit y3 && isDigit y4 && (h1 =? 45)%N
    && isDigit m1 && isDigit m2 && (h2 =? 45)%N && isDigit d1 && isDigit d2
  | _ => false
  end.

(** A string that does not begin with a digit. *)
Definition noLeadingDigit (s : jsstr) : bool :=
  match s with
  | [] => true
  | c :: _ => negb (isDigit c)
  end.

(** A code unit other than [.], [年] and [月]. *)
Definition plainDateChar (c : N) : bool :=
  negb ((c =? 46) || (c =? 24180) || (c =? 26376))%N.

(** * The single-day application of [src/index.tsx] *)

Module SingleDay.

Definition STRATEGY_MAPPING : list (jsstr * jsstr) :=
  [ (js "huiboxing_wenxin_model", js "huiboxing文心大模型");
    (js "service_digital_human_check", js "数字人物料机审");
    (js "service_sync_word", js "业务线词表策略");
    (js "qr_code_detect", js "二维码图片识别模型");
    (js "sensitive_img_model", js "敏感图片模型");
    (js "img_ocr_strategy", js "图片ocr策略") ].

Definition COL_TIME : jsstr := js "入审时间".

(** The class [[\/\-]], used for both separators of its date pattern. *)
Definition isDateSep (c : N) : bool := ((c =? 47) || (c =? 45))%N.

Definition matchDateAt (s : jsstr) : option (jsstr * jsstr * jsstr) :=
  match s with
  | y1 :: y2 :: y3 :: y4 :: sep :: r =>
    if isDigit y1 && isDigit y2 && isDigit y3 && isDigit y4 && isDateSep sep
    then
      match digits12 r with
      | Some (mo, sep2 :: r2) =>
        if isDateSep sep2 then
          match digits12 r2 with
          | Some (d, _) => Some ([y1; y2; y3; y4], mo, d)
          | None => None
          end
        else None
      | _ => None
      end
    else None
  | _ => None
  end.

Fixpoint matchDate (s : jsstr) : option (jsstr * jsstr * jsstr) :=
  match matchDateAt s with
  | Some g => Some g
  | None => match s with
            | [] => None
            | _ :: s' => matchDate s'
            end
  end.

Definition extractDate (dateStr : option jsstr) : option jsstr :=
  if negb (truthy dateStr) then None
  else
    match dateStr with
    | Some s =>
      match matchDate s with
      | Some (year, mo, d) =>
        let month := JsString.padStart2 mo in
        let day := JsString.padStart2 d in
        Some (year ++ js "-" ++ month ++ js "-" ++ day)
      | None => None
      end
    | None => None
    end.

(** The dates [processFile] collects: distinct, sorted and then
    reversed. *)
Definition collectDate (dates : JsSet.t) (row : CsvRow) : JsSet.t :=
  match extractDate (lookup row COL_TIME) with
  | Some d => JsSet.add dates d
  | None => dates
  end.

Definition availableDatesOf (data : list CsvRow) : list jsstr :=
  rev (fold_right insertAsc [] (fold_left collectDate data [])).

(** [STRATEGY_MAPPING[splitName] || splitName] *)
Definition mapStrategyName (splitName : jsstr) : jsstr :=
  match lookup STRATEGY_MAPPING splitName with
  | Some (c :: v) => c :: v
  | _ => splitName
  end.

(** The strategy update of one row: only the first ['&&'] token counts,
    and it is not skipped when it is empty. *)
Definition countStrategy (sent pending violation : bool)
    (strategyMap : JsMap.t StrategyStats) (rawStrategyValue : jsstr)
  : JsMap.t StrategyStats :=
  let splitName :=
    JsString.trim (hd [] (JsString.split ampSep rawStrategyValue)) in
  let strategyName := mapStrategyName splitName in
  let strategyMap1 :=
    if JsMap.has strategyMap strategyName then strategyMap
    else JsMap.set strategyMap strategyName (newStrategy strategyName) in
  match JsMap.get strategyMap1 strategyName with
  | Some stats =>
    JsMap.set strategyMap1 strategyName (hit sent pending violation stats)
  | None => strategyMap1
  end.

Record LoopState : Type := {
  st_counts : nat * nat * nat;
  st_strategyMap : JsMap.t StrategyStats;
  st_tagMap : JsMap.t nat
}.

(** The body of [dailyData.forEach]. *)
Definition analyzeRow (st : LoopState) (row : CsvRow) : LoopState :=
  {| st_counts := Baseline.countRow (st_counts st) row;
     st_strategyMap :=
       match rawStrategyValue row with
       | Some (c :: v) =>
         countStrategy (isHumanSent row) (isHumanPending row)
                       (isHumanViolation row) (st_strategyMap st) (c :: v)
       | _ => st_strategyMap st
       end;
     st_tagMap := Baseline.countRowTags (st_tagMap st) row |}.

Definition initialState : LoopState :=
  {| st_counts := (0, 0, 0); st_strategyMap := []; st_tagMap := [] |}.

(** [row => extractDate(row['入审时间']) === selectedDate] *)
Definition onDate (selectedDate : jsstr) (row : CsvRow) : bool :=
  isStr (extractDate (lookup row COL_TIME)) selectedDate.

Record Report : Type := {
  date : jsstr;
  totalRows : nat;
  machineRejectCount : nat;
  recallCount : nat;
  humanViolationCount : nat;
  blackSampleTotal : nat;
  strategyList : list StrategyStats;
  tagList : list TagCount;
  totalTagCount : nat
}.

(** The memoised [report]; [None] is the source's [null]. *)
Definition report (rawData : list CsvRow) (selectedDate : jsstr)
  : option Report :=
  match selectedDate, rawData with
  | [], _ => None
  | _, [] => None
  | _ :: _, _ :: _ =>
    let dailyData := filter (onDate selectedDate) rawData in
    let st := fold_left analyzeRow dailyData initialState in
    let '(machineRejectCount, recallCount, humanViolationCount) := st_counts st in
    let tagList :=
      firstn 15
        (sort byCountDesc
           (map (fun e => {| tagName := fst e; count := snd e |}) (st_tagMap st))) in
    Some {| date := selectedDate;
            totalRows := List.length dailyData;
            machineRejectCount := machineRejectCount;
            recallCount := recallCount;
            humanViolationCount := humanViolationCount;
            blackSampleTotal := recallCount + humanViolationCount;
            strategyList :=
              sort byHitCountDesc (JsMap.values (st_strategyMap st));
            tagList := tagList;
            totalTagCount := sumCounts tagList |}
  end.

(** The state of the application that the report depends on, with the
    error message. *)
Record AppState : Type := {
  app_rawData : list CsvRow;
  app_availableDates : list jsstr;
  app_selectedDate : jsstr;
  app_error : option jsstr
}.

Definition ERR_EMPTY : jsstr := js "CSV 文件为空或解析失败".
Definition WARN_COLUMNS : jsstr :=
  js "警告：关键列未找到，请检查 CSV 编码是否正确 (建议尝试 GBK)".

(** [handleFileChange] with a file chosen. *)
Definition handleFileChange : AppState :=
  {| app_rawData := []; app_availableDates := []; app_selectedDate := [];
     app_error := None |}.

(** [processFile], from the rows the parser hands to [complete]. *)
Definition processFile (st : AppState) (data : list CsvRow) : AppState :=
  match data with
  | [] =>
    {| app_rawData := app_rawData st;
       app_availableDates := app_availableDates st;
       app_selectedDate := app_selectedDate st;
       app_error := Some ERR_EMPTY |}
  | firstRow :: _ =>
    let sortedDates := availableDatesOf data in
    {| app_rawData := data;
       app_availableDates := sortedDates;
       app_selectedDate :=
         match sortedDates with
         | [] => app_selectedDate st
         | d :: _ => d
         end;
       app_error :=
         if negb (truthy (lookup firstRow COL_TIME))
            && negb (truthy (lookup firstRow COL_SYNC_STATUS))
         then Some WARN_COLUMNS
         else None |}
  end.

(** The report the application shows in a state. *)
Definition shownReport (st : AppState) : option Report :=
  report (app_rawData st) (app_selectedDate st).

End SingleDay.

(** The tags a row contributes in the single-day application: the trimmed
    ['&&'] tokens of the tag column of a violation row that pass its
    filter, repeats included. *)
Definition singleDayTags (row : CsvRow) : list jsstr :=
  if isHumanViolation row then
    filter (fun tag => negb (Baseline.isInvalidTag tag))
           (map JsString.trim
                (JsString.split ampSep
                   match lookup row COL_HUMAN_TAGS with
                   | Some s => s
                   | None => []
                   end))
  else [].

(** The number of times [t] occurs in [l]. *)
Definition occurrences (t : jsstr) (l : list jsstr) : nat :=
  List.length (filter (JsString.eqb t) l).
(** * Numbers and strings: [Number(s)] and [`${x}`] *)

Module NumberConv.

(** The double nearest to [num / den], ties to even, with the sign [s]:
    the quotient is rounded once, whatever the sizes of [num] and [den]. *)
Definition ofRatio (s : bool) (num den : positive) : number :=
  SFdiv Number.prec Number.emax (S754_finite s num 0) (S754_finite false den 0).

(** The double nearest to [±(M * 10^E)]. *)
Definition ofDecimal (s : bool) (M : N) (E : Z) : number :=
  match M with
  | N0 => S754_zero s
  | Npos m =>
    if (0 <=? E)%Z then ofRatio s (m * Z.to_pos (10 ^ E)) 1
    else ofRatio s m (Z.to_pos (10 ^ (- E)))
  end.

(** The value of [c] as a digit of [radix], for a radix up to 16. *)
Definition digitOf (radix c : N) : option N :=
  let v := if ((48 <=? c) && (c <=? 57))%N then Some (c - 48)%N
           else if ((97 <=? c) && (c <=? 102))%N then Some (c - 87)%N
           else if ((65 <=? c) && (c <=? 70))%N then Some (c - 55)%N
           else None in
  match v with
  | Some d => if (d <? radix)%N then Some d else None
  | None => None
  end.

(** The value of a run of digits, [None] when some code unit is not a
    digit of the radix. *)
Fixpoint natural (radix acc : N) (s : jsstr) : option N :=
  match s with
  | [] => Some acc
  | c :: s' =>
    match digitOf radix c with
    | Some d => natural radix (acc * radix + d) s'
    | None => None
    end
  end.

(** The longest prefix of decimal digits, and the rest. *)
Fixpoint spanDigits (s : jsstr) : jsstr * jsstr :=
  match s with
  | c :: s' =>
    if isDigit c then let '(d, r) := spanDigits s' in (c :: d, r)
    else ([], s)
  | [] => ([], [])
  end.

(** [ExponentPart] or nothing, up to the end of the string. *)
Definition exponentOf (s : jsstr) : option Z :=
  match s with
  | [] => Some 0%Z
  | c :: r =>
    if ((c =? 101) || (c =? 69))%N then
      let '(neg, ds) :=
        match r with
        | 43%N :: r' => (false, r')
        | 45%N :: r' => (true, r')
        | _ => (false, r)
        end in
      match ds with
      | [] => None
      | _ :: _ =>
        match natural 10 0 ds with
        | Some n => Some (if neg then (- Z.of_N n)%Z else Z.of_N n)
        | None => None
        end
      end
    else None
  end.

(** [StrUnsignedDecimalLiteral] with the sign [s] read before it; [None]
    when the text is not of that form. *)
Definition unsignedDecimal (s : bool) (text : jsstr) : option number :=
  if JsString.eqb text (js "Infinity") then Some (S754_infinity s)
  else
    let '(int, r1) := spanDigits text in
    let '(frac, r2, dotted) :=
      match r1 with
      | 46%N :: r => let '(f, r') := spanDigits r in (f, r', true)
      | _ => ([], r1, false)
      end in
    match int ++ frac with
    | [] => None
    | _ :: _ =>
      match natural 10 0 (int ++ frac), exponentOf r2 with
      | Some M, Some e =>
        Some (ofDecimal s M (e - Z.of_nat (List.length frac)))
      | _, _ => None
      end
    end.

(** [NonDecimalIntegerLiteral]: [0b], [0o] or [0x] and digits. *)
Definition nonDecimal (text : jsstr) : option number :=
  match text with
  | 48%N :: p :: ((_ :: _) as ds) =>
    let radix :=
      if ((p =? 98) || (p =? 66))%N then Some 2%N
      else if ((p =? 111) || (p =? 79))%N then Some 8%N
      else if ((p =? 120) || (p =? 88))%N then Some 16%N
      else None in
    match radix with
    | Some r =>
      match natural r 0 ds with
      | Some n => Some (ofDecimal false n 0)
      | None => None
      end
    | None => None
    end
  | _ => None
  end.

(** [StringToNumber], the conversion [Number(s)] applies to a string:
    white space around the literal is ignored, the empty text is [+0], and
    a text that is no numeric literal is [NaN].  A decimal literal denotes
    the double nearest to its exact value. *)
Definition StringToNumber (str : jsstr) : number :=
  match JsString.trim str with
  | [] => S754_zero false
  | (c :: r) as text =>
    match nonDecimal text with
    | Some x => x
    | None =>
      let res :=
        if (c =? 43)%N then unsignedDecimal false r
        else if (c =? 45)%N then unsignedDecimal true r
        else unsignedDecimal false text in
      match res with
      | Some x => x
      | None => S754_nan
      end
    end
  end.

(** The integer [n] with [10^(n-1) <= num/den < 10^n]. *)
Definition magnitude (num den : positive) : Z :=
  if (den <=? num)%positive
  then Z.of_nat (List.length (Number.decimalDigits (Npos num / Npos den)))
  else
    let j := (Z.of_nat (List.length (Number.decimalDigits (Npos den)))
              - Z.of_nat (List.length (Number.decimalDigits (Npos num))))%Z in
    if (Zpos den <=? Zpos num * 10 ^ j)%Z then (1 - j)%Z else (- j)%Z.

(** The shortest decimal [s * 10^p] that reads back as [x = num/den],
    trying [k] digits and then more; of two candidates the closer one, the
    even one when both are equally close. *)
Fixpoint shortest (x : number) (num den : positive) (n0 : Z) (k : Z)
    (fuel : nat) : Z * Z :=
  let p := (n0 - k)%Z in
  let sn := (if (0 <=? p)%Z then Zpos num else Zpos num * 10 ^ (- p))%Z in
  let sd := (if (0 <=? p)%Z then Zpos den * 10 ^ p else Zpos den)%Z in
  let lo := (sn / sd)%Z in
  let hi := (lo + 1)%Z in
  let okLo := Number.eqb (ofDecimal false (Z.to_N lo) p) x in
  let okHi := Number.eqb (ofDecimal false (Z.to_N hi) p) x in
  let pick :=
    match (2 * sn ?= (2 * lo + 1) * sd)%Z with
    | Lt => lo
    | Gt => hi
    | Eq => if Z.even lo then lo else hi
    end in
  match fuel with
  | O => (lo, p)
  | S fuel' =>
    if okLo && okHi then (pick, p)
    else if okLo then (lo, p)
    else if okHi then (hi, p)
    else shortest x num den n0 (k + 1) fuel'
  end.

(** [Number::toString] in radix 10 for the positive finite [m * 2^e]. *)
Definition toStringPositive (m : positive) (e : Z) : jsstr :=
  let num := (if (0 <=? e)%Z then m * Z.to_pos (2 ^ e) else m)%positive in
  let den := (if (0 <=? e)%Z then 1 else Z.to_pos (2 ^ (- e)))%positive in
  let '(s, p) :=
    shortest (S754_finite false m e) num den (magnitude num den) 1 17 in
  let all := Number.decimalDigits (Z.to_N s) in
  let ds := rev (Number.dropZeros (rev all)) in
  let k := Z.of_nat (List.length ds) in
  let n := (p + Z.of_nat (List.length all))%Z in
  if ((-5 <=? n) && (n <=? 21))%Z then
    if (k <=? n)%Z then ds ++ repeat 48%N (Z.to_nat (n - k))
    else if (0 <? n)%Z
         then firstn (Z.to_nat n) ds ++ 46%N :: skipn (Z.to_nat n) ds
         else 48%N :: 46%N :: repeat 48%N (Z.to_nat (- n)) ++ ds
  else
    let e10 := (n - 1)%Z in
    let tail :=
      101%N :: (if (e10 <? 0)%Z then 45%N else 43%N)
            :: Number.decimalDigits (Z.to_N (Z.abs e10)) in
    match ds with
    | [] => all
    | [d] => d :: tail
    | d :: r => d :: 46%N :: r ++ tail
    end.

(** [Number::toString] in radix 10, the conversion a template literal
    applies to a number. *)
Definition NumberToString (x : number) : jsstr :=
  match x with
  | S754_nan => js "NaN"
  | S754_zero _ => js "0"
  | S754_infinity s => if s then js "-Infinity" else js "Infinity"
  | S754_finite s m e =>
    (if s then js "-" else []) ++ toStringPositive m e
  end.

End NumberConv.

(** A value interpolated in a template literal: a number or [undefined]. *)
Definition interpolate (x : option number) : jsstr :=
  match x with
  | Some v => NumberConv.NumberToString v
  | None => js "undefined"
  end.

(** The separator ['-'] of [split('-')]. *)
Definition hyphenSep (s : jsstr) : nat :=
  if JsString.startsWith (js "-") s then 1 else 0.

Definition formatDateSimple (dateStr : jsstr) : jsstr :=
  match dateStr with
  | [] => []
  | _ :: _ =>
    let parts := map NumberConv.StringToNumber (JsString.split hyphenSep dateStr) in
    let m := nth_error parts 1 in
    let d := nth_error parts 2 in
    interpolate m ++ js "." ++ interpolate d
  end.

(** A group of two digits without its leading zero. *)
Definition unpad2 (g : jsstr) : jsstr :=
  match g with
  | [a; b] => if (a =? 48)%N then [b] else [a; b]
  | _ => g
  end.

(** The ten digit code units. *)
Definition digitChars : list N := map N.of_nat (seq 48 10).

(** The month and the day group of a date key [YYYY-MM-DD]. *)
Definition monthOf (d : jsstr) : jsstr := firstn 2 (skipn 5 d).
Definition dayOf (d : jsstr) : jsstr := skipn 8 d.

(** * Properties *)

Lemma str_eqb_eq a b : JsString.eqb a b = true <-> a = b.
Proof.
  unfold JsString.eqb; destruct (list_eq_dec N.eq_dec a b); split; congruence.
Qed.

Lemma str_eqb_refl a : JsString.eqb a a = true.
Proof. now apply str_eqb_eq. Qed.

Lemma str_eqb_neq a b : JsString.eqb a b = false <-> a <> b.
Proof.
  unfold JsString.eqb; destruct (list_eq_dec N.eq_dec a b); split; congruence.
Qed.

(** ** Maps in insertion order *)

Section MapFacts.

Context {V : Type}.
Implicit Types (m : JsMap.t V) (k : jsstr) (v : V).

Lemma get_set_same m k v : JsMap.get (JsMap.set m k v) k = Some v.
Proof.
  unfold JsMap.get.
  induction m as [|[k' v'] m IH]; simpl.
  - now rewrite str_eqb_refl.
  - destruct (JsString.eqb k' k) eqn:E; simpl; rewrite E; auto.
Qed.

Lemma get_set_other m k k' v :
  k <> k' -> JsMap.get (JsMap.set m k v) k' = JsMap.get m k'.
Proof.
  unfold JsMap.get. intros Hne.
  induction m as [|[k0 v0] m IH]; simpl.
  - apply str_eqb_neq in Hne. now rewrite Hne.
  - destruct (JsString.eqb k0 k) eqn:E; simpl.
    + apply str_eqb_eq in E; subst k0.
      apply str_eqb_neq in Hne. now rewrite Hne.
    + destruct (JsString.eqb k0 k'); auto.
Qed.

Lemma get_set m k k' v :
  JsMap.get (JsMap.set m k v) k'
  = if JsString.eqb k k' then Some v else JsMap.get m k'.
Proof.
  destruct (JsString.eqb k k') eqn:E.
  - apply str_eqb_eq in E; subst. apply get_set_same.
  - apply str_eqb_neq in E. now apply get_set_other.
Qed.

Lemma get_In m k v : JsMap.get m k = Some v -> In (k, v) m.
Proof.
  unfold JsMap.get.
  induction m as [|[k' v'] m IH]; simpl; [discriminate|].
  destruct (JsString.eqb k' k) eqn:E.
  - apply str_eqb_eq in E; subst. intros [= ->]. now left.
  - intros H. right. auto.
Qed.

Lemma get_None_keys m k : JsMap.get m k = None <-> ~ In k (JsMap.keys m).
Proof.
  unfold JsMap.get, JsMap.keys.
  induction m as [|[k' v'] m IH]; simpl.
  - tauto.
  - destruct (JsString.eqb k' k) eqn:E.
    + apply str_eqb_eq in E; subst.
      split; [discriminate | intros H; exfalso; apply H; now left].
    + apply str_eqb_neq in E. rewrite IH.
      split; [intros H [H'|H']; auto | intros H H'; apply H; now right].
Qed.

Lemma In_set m k v e :
  In e (JsMap.set m k v) -> e = (k, v) \/ In e m.
Proof.
  induction m as [|[k' v'] m IH]; simpl.
  - intros [H|[]]; auto.
  - destruct (JsString.eqb k' k) eqn:E; simpl.
    + apply str_eqb_eq in E; subst. intros [H|H]; auto.
    + intros [H|H]; auto. destruct (IH H); auto.
Qed.

End MapFacts.

(** ** The weekly loop, one accumulator at a time *)

Section WeeklyLoop.

Variable rawData : list CsvRow.

Lemma weekly_fold_counts ds : forall w,
  let w' := fold_left (weeklyDay rawData) ds w in
  w_aggTotalRows w' = w_aggTotalRows w + sumOver rawData totalRows ds
  /\ w_aggMachineReject w'
     = w_aggMachineReject w + sumOver rawData machineRejectCount ds
  /\ w_aggRecall w' = w_aggRecall w + sumOver rawData recallCount ds
  /\ w_aggHumanViolation w'
     = w_aggHumanViolation w + sumOver rawData humanViolationCount ds
  /\ w_aggBlackSample w'
     = w_aggBlackSample w + sumOver rawData blackSampleTotal ds.
Proof.
  unfold sumOver.
  induction ds as [|d ds IH]; intros w; simpl.
  - repeat split; lia.
  - specialize (IH (weeklyDay rawData w d)). simpl in IH.
    destruct IH as (H1 & H2 & H3 & H4 & H5).
    rewrite H1, H2, H3, H4, H5. unfold dayStats. simpl.
    repeat split; lia.
Qed.

Lemma weekly_fold_daily ds : forall w d,
  JsMap.get (w_dailyStatsMap (fold_left (weeklyDay rawData) ds w)) d
  = if existsb (JsString.eqb d) ds then Some (dayStats rawData d)
    else JsMap.get (w_dailyStatsMap w) d.
Proof.
  induction ds as [|d0 ds IH]; intros w d; simpl; auto.
  rewrite IH. simpl.
  destruct (existsb (JsString.eqb d) ds); rewrite ?orb_true_r; auto.
  rewrite orb_false_r, get_set.
  destruct (JsString.eqb d d0) eqn:E.
  - apply str_eqb_eq in E; subst. now rewrite str_eqb_refl.
  - apply str_eqb_neq in E.
    assert (JsString.eqb d0 d = false) as ->
      by (apply str_eqb_neq; congruence).
    reflexivity.
Qed.

End WeeklyLoop.

(** ** Formatting never throws for the literal digit counts *)

Lemma toFixed_returns x f :
  In f [0; 2; 3; 4]%Z -> exists s, Number.toFixed x (Number.ofZ f) = Return s.
Proof.
  intros Hf. unfold Number.toFixed.
  assert (Number.toIntegerOrInfinity (Number.ofZ f) = Some f) as ->.
  { simpl in Hf. repeat destruct Hf as [<-|Hf]; try reflexivity. contradiction. }
  assert (((f <? 0) || (100 <? f))%Z = false) as ->.
  { simpl in Hf. repeat destruct Hf as [<-|Hf]; try reflexivity. contradiction. }
  destruct x; eauto.
  destruct (_ && _)%bool; eauto.
Qed.

(** Runs a chain of [toFixed] calls with literal digit counts. *)
Ltac run_toFixed :=
  repeat match goal with
  | |- context [Number.toFixed ?x (Number.ofZ ?f)] =>
    let s := fresh "s" in let H := fresh "H" in
    destruct (@toFixed_returns x f) as [s H]; [simpl; tauto|];
    rewrite H; clear H; cbn [bind]
  end.

Lemma averages_returns w n : exists a, averages w n = Return a.
Proof.
  unfold averages, formatDecimal, two. cbv zeta.
  run_toFixed.
  eauto.
Qed.

Lemma existsb_eqb_In d ds : In d ds -> existsb (JsString.eqb d) ds = true.
Proof.
  intros H. apply existsb_exists. exists d. split; auto. apply str_eqb_refl.
Qed.

(** ** Black-sample totals *)

(** C1.  For every sequence of rows [analyzeRows] returns
    [blackSampleTotal = machineRejectCount + humanViolationCount]; and the
    weekly report over a non-empty input has, in its total column, a
    [blackSampleTotal] equal to the sum, over the retained dates, of the
    [blackSampleTotal] stored for each date in [dailyStatsMap], which is
    the one [analyzeRows] returns for the rows of that date. *)
Theorem C1_black_sample_total :
  (forall rows : list CsvRow,
      blackSampleTotal (basic (analyzeRows rows))
      = machineRejectCount (basic (analyzeRows rows))
        + humanViolationCount (basic (analyzeRows rows)))
  /\ (forall (row : CsvRow) (rows : list CsvRow) (availableDates : list jsstr),
      exists r ds daily total,
        report (row :: rows) WEEKLY_KEY availableDates = Return (Some r)
        /\ mode r = WEEKLY
        /\ dates r = Some ds
        /\ ds = retainedDates (row :: rows) availableDates
        /\ dailyStatsMap r = Some daily
        /\ totalStats r = Some total
        /\ Forall (fun d =>
                     JsMap.get daily d
                     = Some (basic (analyzeRows (rowsOfDate (row :: rows) d))))
                  ds
        /\ blackSampleTotal total
           = list_sum
               (map (fun d => match JsMap.get daily d with
                              | Some b => blackSampleTotal b
                              | None => 0
                              end) ds)).
Proof.
  split; [reflexivity|].
  intros row rows availableDates.
  unfold report. rewrite str_eqb_refl. unfold weeklyReport.
  set (raw := row :: rows).
  set (ds := retainedDates raw availableDates).
  destruct (averages_returns (weeklyState raw ds) (dayCountOf ds)) as [a Ha].
  rewrite Ha. cbn [bind].
  eexists _, ds, _, _.
  repeat (split; [reflexivity|]).
  assert (Hget : forall d, In d ds ->
            JsMap.get (w_dailyStatsMap (weeklyState raw ds)) d
            = Some (dayStats raw d)).
  { intros d Hd. unfold weeklyState. rewrite weekly_fold_daily.
    now rewrite existsb_eqb_In. }
  split; [apply Forall_forall; exact Hget|].
  cbn [blackSampleTotal].
  destruct (weekly_fold_counts raw ds weeklyInit) as (_ & _ & _ & _ & H5).
  unfold weeklyState. rewrite H5. cbn [w_aggBlackSample weeklyInit].
  unfold sumOver. simpl. apply f_equal.
  apply map_ext_in. intros d Hd.
  fold (weeklyState raw ds). now rewrite (Hget d Hd).
Qed.

(** The baseline of [src/index.tsx] adds the recalled rows instead of the
    machine-rejected ones: on the scenario rows it reports 3 where
    [analyzeRows] reports 2. *)
Remark baseline_black_sample_differs :
  Baseline.blackSampleTotal scenarioRows = 3
  /\ blackSampleTotal (basic (analyzeRows scenarioRows)) = 2.
Proof. split; reflexivity. Qed.

(** The end-to-end scenario. *)
Example scenario_analysis :
  basic (analyzeRows scenarioRows)
  = {| totalRows := 3; machineRejectCount := 1; recallCount := 2;
       humanViolationCount := 1; blackSampleTotal := 2 |}
  /\ strategyMap (analyzeRows scenarioRows)
     = [ (js "s1", {| name := js "s1"; hitCount := 2; humanReviewCount := 2;
                      pendingCount := 1; violationCount := 1 |});
         (js "s2", {| name := js "s2"; hitCount := 1; humanReviewCount := 1;
                      pendingCount := 1; violationCount := 0 |}) ]
  /\ tagMap (analyzeRows scenarioRows) = [ (js "t1", 1) ].
Proof. repeat split; reflexivity. Qed.

(** ** Invariants of the strategy entries *)

Lemma Forall_set {V : Type} (Q : jsstr * V -> Prop) (m : JsMap.t V) k v :
  Forall Q m -> Q (k, v) -> Forall Q (JsMap.set m k v).
Proof.
  intros Hm Hkv. apply Forall_forall. intros e He.
  destruct (In_set _ _ _ _ He) as [->|Hin]; auto.
  rewrite Forall_forall in Hm. auto.
Qed.

Lemma fold_left_inv {A B : Type} (I : A -> Prop) (f : A -> B -> A) l :
  (forall a b, I a -> I (f a b)) -> forall a, I a -> I (fold_left f l a).
Proof.
  intros Hf. induction l as [|b l IH]; simpl; auto.
Qed.

Section StrategyInvariant.

Variable P : StrategyStats -> Prop.

Hypothesis P_new : forall n, P (newStrategy n).

Hypothesis P_hit : forall row s,
  P s -> P (hit (isHumanSent row) (isHumanPending row) (isHumanViolation row) s).

Let entriesOk (m : JsMap.t StrategyStats) : Prop :=
  Forall (fun e => P (snd e)) m.

Lemma countStrategy_inv row m rawName :
  entriesOk m ->
  entriesOk (countStrategy (isHumanSent row) (isHumanPending row)
                           (isHumanViolation row) m rawName).
Proof.
  unfold entriesOk, countStrategy. intros Hm.
  destruct (JsString.trim rawName) as [|c r]; auto.
  set (k := mapStrategyName (c :: r)).
  set (m1 := if JsMap.has m k then m else JsMap.set m k (newStrategy k)).
  assert (H1 : Forall (fun e => P (snd e)) m1).
  { unfold m1. destruct (JsMap.has m k); auto.
    apply Forall_set; auto. simpl. apply P_new. }
  destruct (JsMap.get m1 k) as [stats|] eqn:G; auto.
  apply Forall_set; auto. simpl. apply P_hit.
  apply get_In in G. rewrite Forall_forall in H1. apply (H1 _ G).
Qed.

Lemma analyzeRow_inv st row :
  entriesOk (st_strategyMap st) ->
  entriesOk (st_strategyMap (analyzeRow st row)).
Proof.
  intros H. unfold analyzeRow. cbn [st_strategyMap].
  destruct (rawStrategyValue row) as [[|c v]|]; auto.
  apply fold_left_inv; auto.
  intros; now apply countStrategy_inv.
Qed.

Lemma analyzeRows_inv rows : entriesOk (strategyMap (analyzeRows rows)).
Proof.
  unfold analyzeRows. cbn [strategyMap].
  apply fold_left_inv with (I := fun st => entriesOk (st_strategyMap st)).
  - intros; now apply analyzeRow_inv.
  - constructor.
Qed.

End StrategyInvariant.

Lemma isStr_truthy x lit :
  isStr x lit = true -> lit <> [] -> truthy x = true.
Proof.
  destruct x as [s|]; simpl; [|discriminate].
  intros H Hne. apply str_eqb_eq in H. subst. now destruct lit.
Qed.

Lemma pending_is_sent row : isHumanPending row = true -> isHumanSent row = true.
Proof.
  unfold isHumanPending, isHumanSent. intros H.
  apply (isStr_truthy _ H). discriminate.
Qed.

Lemma violation_is_sent row :
  isHumanViolation row = true -> isHumanSent row = true.
Proof.
  unfold isHumanViolation, isHumanSent. intros H.
  apply (isStr_truthy _ H). discriminate.
Qed.

(** C7.  For every sequence of rows, every entry of the strategy map that
    [analyzeRows] returns has [pendingCount <= humanReviewCount] and
    [violationCount <= humanReviewCount]. *)
Theorem C7_pending_violation_le_review : forall rows : list CsvRow,
  Forall (fun e : jsstr * StrategyStats =>
            pendingCount (snd e) <= humanReviewCount (snd e)
            /\ violationCount (snd e) <= humanReviewCount (snd e))
         (strategyMap (analyzeRows rows)).
Proof.
  intros rows.
  apply analyzeRows_inv
    with (P := fun s => pendingCount s <= humanReviewCount s
                        /\ violationCount s <= humanReviewCount s).
  - intros n. simpl. lia.
  - intros row s [Hp Hv]. unfold hit. simpl.
    destruct (isHumanPending row) eqn:Ep, (isHumanViolation row) eqn:Ev;
      try rewrite (pending_is_sent _ Ep);
      try rewrite (violation_is_sent _ Ev);
      destruct (isHumanSent row); lia.
Qed.

Lemma set_set {V : Type} (m : JsMap.t V) k v v' :
  JsMap.set (JsMap.set m k v) k v' = JsMap.set m k v'.
Proof.
  induction m as [|[k0 v0] m IH]; simpl.
  - now rewrite str_eqb_refl.
  - destruct (JsString.eqb k0 k) eqn:E; simpl; rewrite E; congruence.
Qed.

Lemma countStrategy_set sent pending violation m rawName :
  countStrategy sent pending violation m rawName
  = match JsString.trim rawName with
    | [] => m
    | c :: r =>
      let k := mapStrategyName (c :: r) in
      JsMap.set m k (hit sent pending violation (entryOr m k))
    end.
Proof.
  unfold countStrategy, entryOr, JsMap.has.
  destruct (JsString.trim rawName) as [|c r]; auto.
  cbv zeta. set (k := mapStrategyName (c :: r)).
  destruct (JsMap.get m k) as [s|] eqn:G.
  - now rewrite G.
  - rewrite get_set_same. apply set_set.
Qed.

(** C9.  Every entry of the strategy map that [analyzeRows] returns has
    [humanReviewCount <= hitCount]: an entry is created with both fields
    zero, and every update of an entry (one [set] per strategy token) adds
    exactly 1 to [hitCount] and at most 1 to [humanReviewCount]. *)
Theorem C9_review_le_hit :
  (forall rows : list CsvRow,
      Forall (fun e : jsstr * StrategyStats =>
                humanReviewCount (snd e) <= hitCount (snd e))
             (strategyMap (analyzeRows rows)))
  /\ (forall n, hitCount (newStrategy n) = 0
                /\ humanReviewCount (newStrategy n) = 0)
  /\ (forall sent pending violation s,
        hitCount (hit sent pending violation s) = hitCount s + 1
        /\ humanReviewCount s <= humanReviewCount (hit sent pending violation s)
        /\ humanReviewCount (hit sent pending violation s)
           <= humanReviewCount s + 1)
  /\ (forall sent pending violation m rawName,
        countStrategy sent pending violation m rawName
        = match JsString.trim rawName with
          | [] => m
          | c :: r =>
            let k := mapStrategyName (c :: r) in
            JsMap.set m k (hit sent pending violation (entryOr m k))
          end).
Proof.
  split; [|split; [|split]].
  - intros rows.
    apply analyzeRows_inv with (P := fun s => humanReviewCount s <= hitCount s).
    + intros n. simpl. lia.
    + intros row s H. unfold hit. simpl. destruct (isHumanSent row); lia.
  - intros n. simpl. auto.
  - intros sent pending violation s. unfold hit. simpl.
    destruct sent; lia.
  - apply countStrategy_set.
Qed.

(** ** Tag counting *)

Lemma orZero_tagCount m t : orZero (JsMap.get m t) = tagCount m t.
Proof. unfold orZero, tagCount. now destruct (JsMap.get m t) as [[|n]|]. Qed.

Lemma set_has_In s x : JsSet.has s x = true <-> In x s.
Proof.
  unfold JsSet.has. rewrite existsb_exists. split.
  - intros (y & Hy & E). apply str_eqb_eq in E. now subst.
  - intros H. exists x. split; auto. apply str_eqb_refl.
Qed.

Lemma set_add_NoDup s x : NoDup s -> NoDup (JsSet.add s x).
Proof.
  intros H. unfold JsSet.add. destruct (JsSet.has s x) eqn:E; auto.
  apply NoDup_app; auto.
  - repeat constructor. simpl. tauto.
  - intros y Hy [<-|[]].
    apply set_has_In in Hy. congruence.
Qed.

Lemma set_add_In s x y : In y (JsSet.add s x) <-> In y s \/ y = x.
Proof.
  unfold JsSet.add. destruct (JsSet.has s x) eqn:E.
  - apply set_has_In in E. split; [tauto|]. intros [H| ->]; auto.
  - rewrite in_app_iff. simpl. intuition congruence.
Qed.

Lemma collectTag_fold tokens : forall s0,
  let s := fold_left collectTag tokens s0 in
  (NoDup s0 -> NoDup s)
  /\ (forall t, In t s <->
        In t s0
        \/ In t (map mergeTag
                     (filter (fun tag => negb (isInvalidTag tag))
                             (map JsString.trim tokens)))).
Proof.
  induction tokens as [|tok tokens IH]; intros s0; simpl.
  - split; auto. intros t. tauto.
  - destruct (IH (collectTag s0 tok)) as [IH1 IH2]. split.
    + intros H. apply IH1. unfold collectTag.
      destruct (negb (isInvalidTag (JsString.trim tok))); auto.
      now apply set_add_NoDup.
    + intros t. rewrite IH2. unfold collectTag.
      destruct (negb (isInvalidTag (JsString.trim tok))); simpl; [|tauto].
      rewrite set_add_In. intuition congruence.
Qed.

Lemma uniqueTagsInRow_spec row :
  NoDup (uniqueTagsInRow row)
  /\ forall t, In t (uniqueTagsInRow row) <-> In t (survivingTags (rawTagsOf row)).
Proof.
  unfold uniqueTagsInRow, survivingTags, rawTagsOf.
  destruct (collectTag_fold
              (JsString.split tagSep
                 match lookup row COL_HUMAN_TAGS with
                 | Some s => s
                 | None => []
                 end) []) as [H1 H2].
  split.
  - apply H1. constructor.
  - intros t. rewrite H2. simpl. tauto.
Qed.

Lemma tagCount_set m k v t :
  tagCount (JsMap.set m k v) t = if JsString.eqb k t then v else tagCount m t.
Proof. unfold tagCount. rewrite get_set. now destruct (JsString.eqb k t). Qed.

Lemma countTag_fold s : forall m t,
  tagCount (fold_left countTag s m) t
  = tagCount m t + count_occ (list_eq_dec N.eq_dec) s t.
Proof.
  induction s as [|x s IH]; intros m t; simpl; [lia|].
  rewrite IH. unfold countTag. rewrite tagCount_set, orZero_tagCount.
  destruct (list_eq_dec N.eq_dec x t) as [->|Hne].
  - rewrite str_eqb_refl. lia.
  - apply str_eqb_neq in Hne. rewrite Hne. lia.
Qed.

Lemma count_occ_NoDup_existsb s t :
  NoDup s ->
  count_occ (list_eq_dec N.eq_dec) s t
  = if existsb (JsString.eqb t) s then 1 else 0.
Proof.
  intros H. rewrite (NoDup_count_occ (list_eq_dec N.eq_dec)) in H.
  specialize (H t).
  destruct (existsb (JsString.eqb t) s) eqn:E.
  - apply existsb_exists in E. destruct E as (y & Hy & E).
    apply str_eqb_eq in E. subst y.
    apply (count_occ_In (list_eq_dec N.eq_dec)) in Hy. lia.
  - destruct (count_occ (list_eq_dec N.eq_dec) s t) eqn:C; auto.
    assert (Hin : In t s) by (apply (count_occ_In (list_eq_dec N.eq_dec)); lia).
    apply existsb_eqb_In in Hin. congruence.
Qed.

Lemma existsb_ext_In (s s' : list jsstr) t :
  (forall x, In x s <-> In x s') ->
  existsb (JsString.eqb t) s = existsb (JsString.eqb t) s'.
Proof.
  intros H.
  destruct (existsb (JsString.eqb t) s) eqn:E, (existsb (JsString.eqb t) s') eqn:E';
    auto.
  - apply existsb_exists in E. destruct E as (y & Hy & E).
    apply str_eqb_eq in E. subst y.
    apply H, existsb_eqb_In in Hy. congruence.
  - apply existsb_exists in E'. destruct E' as (y & Hy & E').
    apply str_eqb_eq in E'. subst y.
    apply H, existsb_eqb_In in Hy. congruence.
Qed.

(** C4.  For a row whose human status is the violation literal, the row
    adds exactly 1 to the count of every canonical tag that survives the
    splitting, trimming, stop-list filtering and merge mapping of its raw
    tag field, however often the field repeats it, and adds nothing to any
    other tag.  The raw field ["A&&A&&B"] adds 1 to [A] and 1 to [B]. *)
Theorem C4_tag_counted_once_per_row :
  (forall (st : LoopState) (row : CsvRow) (t : jsstr),
      isHumanViolation row = true ->
      tagCount (st_tagMap (analyzeRow st row)) t
      = tagCount (st_tagMap st) t
        + (if existsb (JsString.eqb t) (survivingTags (rawTagsOf row))
           then 1 else 0))
  /\ survivingTags (rawTagsOf rowAAB) = [js "A"; js "A"; js "B"]
  /\ tagMap (analyzeRows [rowAAB]) = [(js "A", 1); (js "B", 1)].
Proof.
  split; [|split; reflexivity].
  intros st row t Hv.
  unfold analyzeRow. cbn [st_tagMap]. rewrite Hv.
  rewrite countTag_fold.
  destruct (uniqueTagsInRow_spec row) as [Hnd Hin].
  rewrite (count_occ_NoDup_existsb _ Hnd).
  now rewrite (existsb_ext_In _ _ t Hin).
Qed.

Lemma C4_witness :
  tagCount (st_tagMap (analyzeRow initialState rowAAB)) (js "A") = 0 + 1.
Proof.
  apply (proj1 C4_tag_counted_once_per_row initialState rowAAB (js "A")).
  reflexivity.
Defined.

(** The baseline of [src/index.tsx] has no set: it counts [A] twice. *)
Remark baseline_counts_repeats :
  Baseline.countRowTags [] rowAAB = [(js "A", 2); (js "B", 1)].
Proof. reflexivity. Qed.

(** ** The stable descending sort *)

Section SortDesc.

Variable A : Type.
Variable key : A -> nat.

Let cmp (a b : A) : Z := Z.of_nat (key b) - Z.of_nat (key a).
Let geKey (a b : A) : Prop := key b <= key a.

Lemma insertSorted_perm x l : Permutation (insertSorted cmp x l) (x :: l).
Proof.
  induction l as [|y l IH]; simpl; auto.
  destruct (cmp x y <=? 0)%Z; auto.
  rewrite IH. apply perm_swap.
Qed.

Lemma sort_perm l : Permutation (sort cmp l) l.
Proof.
  induction l as [|x l IH]; simpl; auto.
  rewrite insertSorted_perm. now constructor.
Qed.

Lemma insertSorted_sorted x l :
  StronglySorted geKey l -> StronglySorted geKey (insertSorted cmp x l).
Proof.
  induction 1 as [|y l Hs IH Hy]; simpl.
  - repeat constructor.
  - destruct (cmp x y <=? 0)%Z eqn:E.
    + apply Z.leb_le in E. unfold cmp in E.
      constructor; [now constructor|].
      constructor; [unfold geKey; lia|].
      eapply Forall_impl; [|exact Hy]. unfold geKey. intros; lia.
    + apply Z.leb_gt in E. unfold cmp in E.
      constructor; auto.
      eapply Permutation_Forall; [symmetry; apply insertSorted_perm|].
      constructor; auto. unfold geKey. lia.
Qed.

Lemma sort_sorted l : StronglySorted geKey (sort cmp l).
Proof.
  induction l as [|x l IH]; simpl; [constructor|].
  now apply insertSorted_sorted.
Qed.

Lemma insertSorted_filter c x l :
  filter (fun a => key a =? c) (insertSorted cmp x l)
  = filter (fun a => key a =? c) (x :: l).
Proof.
  induction l as [|y l IH]; simpl; auto.
  destruct (cmp x y <=? 0)%Z eqn:E; simpl; auto.
  apply Z.leb_gt in E. unfold cmp in E.
  simpl in IH. rewrite IH.
  destruct (key x =? c) eqn:Ex, (key y =? c) eqn:Ey; auto.
  apply Nat.eqb_eq in Ex, Ey. lia.
Qed.

Lemma sort_stable c l :
  filter (fun a => key a =? c) (sort cmp l) = filter (fun a => key a =? c) l.
Proof.
  induction l as [|x l IH]; simpl; auto.
  rewrite insertSorted_filter. simpl. now rewrite IH.
Qed.

End SortDesc.

Lemma sumCounts_list_sum l : sumCounts l = list_sum (map count l).
Proof.
  unfold sumCounts.
  enough (H : forall a, fold_left (fun acc curr => acc + count curr) l a
                        = a + list_sum (map count l)) by apply H.
  induction l as [|x l IH]; intros a; simpl; [lia|].
  rewrite IH. lia.
Qed.

(** ** The rendered tag list *)

Lemma report_tagList row rows selectedDate availableDates :
  exists r,
    report (row :: rows) selectedDate availableDates = Return (Some r)
    /\ tagList r
       = topTags (mergedTagMap (row :: rows) selectedDate availableDates)
    /\ totalTagCount r = sumCounts (tagList r).
Proof.
  unfold report, mergedTagMap.
  destruct (JsString.eqb selectedDate WEEKLY_KEY).
  - unfold weeklyReport.
    destruct (averages_returns
                (weeklyState (row :: rows)
                   (retainedDates (row :: rows) availableDates))
                (dayCountOf (retainedDates (row :: rows) availableDates)))
      as [a ->].
    cbn [bind]. eexists. repeat split.
  - eexists. repeat split.
Qed.

Lemma distinctb_NoDup l : distinctb l = true -> NoDup l.
Proof.
  induction l as [|x l IH]; simpl; [constructor|].
  intros H. apply andb_prop in H. destruct H as [H1 H2].
  constructor; auto.
  intros Hin. apply existsb_eqb_In in Hin. rewrite Hin in H1. discriminate.
Qed.

(** C5, as the code has it.  In both report modes the tag list is the
    list of merged tag entries under a stable sort by descending count,
    cut to its first 35 entries, and [totalTagCount] is the sum of the
    counts of that cut list.  For 40 distinct tags with the counts
    40, 39, ..., 1 the list holds the counts 40 down to 6 and
    [totalTagCount] is 805. *)
Theorem C5_top_35_tags :
  (forall (row : CsvRow) (rows : list CsvRow) (selectedDate : jsstr)
          (availableDates : list jsstr),
      exists r,
        report (row :: rows) selectedDate availableDates = Return (Some r)
        /\ let entries :=
             tagEntries (mergedTagMap (row :: rows) selectedDate availableDates) in
           let sorted := sort byCountDesc entries in
           tagList r = firstn 35 sorted
           /\ Permutation sorted entries
           /\ StronglySorted (fun a b => count b <= count a) sorted
           /\ (forall c, filter (fun a => count a =? c) sorted
                         = filter (fun a => count a =? c) entries)
           /\ totalTagCount r = list_sum (map count (tagList r)))
  /\ (map snd (tagMap (analyzeRows fortyTags)) = rev (seq 1 40)
      /\ NoDup (JsMap.keys (tagMap (analyzeRows fortyTags))))
  /\ (exists r,
        report fortyTags (js "2024-03-01") (availableDatesOf fortyTags)
        = Return (Some r)
        /\ map count (tagList r) = rev (seq 6 35)
        /\ totalTagCount r = 805)
  /\ (exists r,
        report fortyTags WEEKLY_KEY (availableDatesOf fortyTags)
        = Return (Some r)
        /\ map count (tagList r) = rev (seq 6 35)
        /\ totalTagCount r = 805).
Proof.
  split; [|split; [|split]].
  - intros row rows selectedDate availableDates.
    destruct (report_tagList row rows selectedDate availableDates)
      as (r & Hr & Ht & Hc).
    exists r. split; [exact Hr|]. cbv zeta.
    split; [exact Ht|].
    split; [apply (sort_perm count)|].
    split; [apply (sort_sorted count)|].
    split; [intros c; apply (sort_stable count)|].
    rewrite Hc. apply sumCounts_list_sum.
  - split.
    + vm_compute. reflexivity.
    + apply distinctb_NoDup. vm_compute. reflexivity.
  - eexists. split; [vm_compute; reflexivity|]. split; reflexivity.
  - eexists. split; [vm_compute; reflexivity|]. split; reflexivity.
Qed.

Lemma C5_counterexample :
  exists r,
    report fortyTags (js "2024-03-01") (availableDatesOf fortyTags)
    = Return (Some r)
    /\ map snd (tagMap (analyzeRows fortyTags)) = rev (seq 1 40)
    /\ map count (tagList r) = rev (seq 6 35)
    /\ totalTagCount r <> 943.
Proof.
  eexists. split; [vm_compute; reflexivity|].
  split; [vm_compute; reflexivity|].
  split; [reflexivity|]. simpl. discriminate.
Qed.

(** ** No rows, no report *)

Lemma C2_counterexample :
  (undatedData <> []
   /\ availableDatesOf undatedData = []
   /\ retainedDates undatedData (availableDatesOf undatedData) = []
   /\ exists r, report undatedData WEEKLY_KEY (availableDatesOf undatedData)
                = Return (Some r))
  /\ (rowsOfDate oneDayData (js "2024-03-02") = []
      /\ exists r, report oneDayData (js "2024-03-02")
                     (availableDatesOf oneDayData)
                   = Return (Some r)).
Proof.
  split.
  - split; [discriminate|]. split; [reflexivity|]. split; [reflexivity|].
    eexists. vm_compute. reflexivity.
  - split; [reflexivity|]. eexists. vm_compute. reflexivity.
Qed.

(** C2, as the code has it.  With zero input rows [report] returns the
    explicit "no report" value and does not throw.  The two other cases of
    no retained data give a report structure instead: when there are rows
    and a single-day selection matches none of them, a single-day report
    whose counts are all zero and whose lists are empty; when there are
    rows and zero dates are retained in weekly mode, a weekly report
    without date columns, with zero totals and with averages taken with
    divisor 1. *)
Theorem C2_empty_partitions_still_report :
  (forall selectedDate availableDates,
      report [] selectedDate availableDates = Return None)
  /\ (forall row rows selectedDate availableDates,
        selectedDate <> WEEKLY_KEY ->
        rowsOfDate (row :: rows) selectedDate = [] ->
        report (row :: rows) selectedDate availableDates
        = Return (Some {| mode := SINGLE;
                          dateLabel := selectedDate;
                          singleStats := Some zeroStats;
                          dates := None;
                          dailyStatsMap := None;
                          totalStats := None;
                          avgStats := None;
                          strategyList := [];
                          tagList := [];
                          totalTagCount := 0;
                          aggTotalRows := 0;
                          aggHumanViolationCount := 0;
                          aggRecallCount := 0 |}))
  /\ (forall row rows availableDates,
        retainedDates (row :: rows) availableDates = [] ->
        report (row :: rows) WEEKLY_KEY availableDates
        = Return (Some {| mode := WEEKLY;
                          dateLabel := js "整体周报";
                          singleStats := None;
                          dates := Some [];
                          dailyStatsMap := Some [];
                          totalStats := Some zeroStats;
                          avgStats := Some zeroAverages;
                          strategyList := [];
                          tagList := [];
                          totalTagCount := 0;
                          aggTotalRows := 0;
                          aggHumanViolationCount := 0;
                          aggRecallCount := 0 |})).
Proof.
  split; [reflexivity|]. split.
  - intros row rows selectedDate availableDates Hsel Hrows.
    unfold report. apply str_eqb_neq in Hsel. rewrite Hsel.
    unfold singleReport. rewrite Hrows. reflexivity.
  - intros row rows availableDates Hret.
    unfold report. rewrite str_eqb_refl.
    unfold weeklyReport. rewrite Hret.
    vm_compute. reflexivity.
Qed.

Lemma C2_witness :
  (exists r, report oneDayData (js "2024-03-02") (availableDatesOf oneDayData)
             = Return (Some r) /\ mode r = SINGLE
             /\ singleStats r = Some zeroStats)
  /\ (exists r, report undatedData WEEKLY_KEY (availableDatesOf undatedData)
                = Return (Some r) /\ mode r = WEEKLY /\ dates r = Some []).
Proof.
  destruct C2_empty_partitions_still_report as (_ & Hsingle & Hweekly).
  split.
  - eexists. split.
    + apply (Hsingle _ [] (js "2024-03-02") (availableDatesOf oneDayData)).
      * discriminate.
      * reflexivity.
    + split; reflexivity.
  - eexists. split.
    + apply (Hweekly _ [] (availableDatesOf undatedData)). reflexivity.
    + split; reflexivity.
Defined.

(** ** Facts about binary64 arithmetic *)

Lemma iter_pos_inv {A : Type} (I : A -> Prop) (f : A -> A) :
  (forall a, I a -> I (f a)) -> forall p a, I a -> I (iter_pos f p a).
Proof.
  intros Hf. induction p as [p IH|p IH|]; intros a Ha; simpl; auto.
Qed.

Lemma shr_1_nonneg mrs : (0 <= shr_m mrs)%Z -> (0 <= shr_m (shr_1 mrs))%Z.
Proof.
  destruct mrs as [m r s]. simpl.
  destruct m as [|[p|p|]|[p|p|]]; simpl; lia.
Qed.

Lemma shr_nonneg mrs e n :
  (0 <= shr_m mrs)%Z -> (0 <= shr_m (fst (shr mrs e n)))%Z.
Proof.
  intros H. destruct n as [|p|p]; simpl; auto.
  apply iter_pos_inv with (I := fun x => (0 <= shr_m x)%Z); auto.
  apply shr_1_nonneg.
Qed.

Lemma shr_fexp_nonneg m e l :
  (0 <= m)%Z ->
  (0 <= shr_m (fst (shr_fexp Number.prec Number.emax m e l)))%Z.
Proof.
  intros H. unfold shr_fexp. apply shr_nonneg.
  destruct l as [|[| |]]; simpl; auto.
Qed.

Lemma round_nearest_even_nonneg m l :
  (0 <= m)%Z -> (0 <= round_nearest_even m l)%Z.
Proof.
  intros H. destruct l as [|[| |]]; simpl; try lia.
  destruct (Z.even m); lia.
Qed.

Lemma binary_round_aux_not_nan s m e l :
  (0 <= m)%Z ->
  Number.isNaN (binary_round_aux Number.prec Number.emax s m e l) = false.
Proof.
  intros H. unfold binary_round_aux.
  pose proof (@shr_fexp_nonneg m e l H) as H1.
  destruct (shr_fexp Number.prec Number.emax m e l) as [mrs' e'].
  simpl in H1.
  pose proof (@shr_fexp_nonneg
                (round_nearest_even (shr_m mrs') (loc_of_shr_record mrs'))
                e' loc_Exact
                (@round_nearest_even_nonneg _ _ H1)) as H2.
  destruct (shr_fexp Number.prec Number.emax
              (round_nearest_even (shr_m mrs') (loc_of_shr_record mrs'))
              e' loc_Exact) as [mrs'' e''].
  simpl in H2.
  destruct (shr_m mrs'') as [|p|p]; simpl; auto.
  - destruct (e'' <=? _)%Z; reflexivity.
  - lia.
Qed.

Lemma ofZ_not_nan z : Number.isNaN (Number.ofZ z) = false.
Proof.
  unfold Number.ofZ, binary_normalize, binary_round.
  destruct z as [|p|p]; auto.
  - destruct (shl_align p 0 _) as [mz ez].
    apply binary_round_aux_not_nan. lia.
  - destruct (shl_align p 0 _) as [mz ez].
    apply binary_round_aux_not_nan. lia.
Qed.

Lemma ofNat_not_nan n : Number.isNaN (Number.ofNat n) = false.
Proof. apply ofZ_not_nan. Qed.

Lemma mul_finite_not_nan x s m e :
  Number.isNaN x = false ->
  Number.isNaN (Number.mul x (S754_finite s m e)) = false.
Proof.
  unfold Number.mul. destruct x as [sx|sx| |sx mx ex]; simpl; auto.
  intros _. apply binary_round_aux_not_nan. lia.
Qed.

Lemma compare_not_nan a b :
  Number.isNaN a = false -> Number.isNaN b = false ->
  exists c, SFcompare a b = Some c.
Proof.
  destruct a, b; simpl; try discriminate; eauto.
Qed.

Lemma max_not_nan a b :
  Number.isNaN a = false -> Number.isNaN b = false ->
  Number.isNaN (Number.max a b) = false.
Proof.
  intros Ha Hb. unfold Number.max.
  destruct (@compare_not_nan a b Ha Hb) as [c ->].
  destruct c; auto. destruct a as [[|]| | |]; auto.
Qed.

Lemma compare_swap a b :
  SFcompare b a = option_map CompOpp (SFcompare a b).
Proof.
  destruct a as [sa|sa| |sa ma ea], b as [sb|sb| |sb mb eb]; simpl; auto;
    try (destruct sa; reflexivity); try (destruct sb; reflexivity);
    try (destruct sa, sb; reflexivity).
  rewrite (Z.compare_antisym ea eb).
  change (Pos.compare_cont Eq mb ma) with (Pos.compare mb ma).
  change (Pos.compare_cont Eq ma mb) with (Pos.compare ma mb).
  rewrite (Pos.compare_antisym ma mb).
  destruct sa, sb; simpl; auto;
    destruct (ea ?= eb)%Z; simpl; auto;
    destruct (ma ?= mb)%positive; reflexivity.
Qed.

Lemma ltb_negb_leb a b :
  Number.isNaN a = false -> Number.isNaN b = false ->
  Number.ltb a b = negb (Number.leb b a).
Proof.
  intros Ha Hb. unfold Number.ltb, Number.leb, SFltb, SFleb.
  rewrite (compare_swap a b).
  destruct (@compare_not_nan a b Ha Hb) as [c ->].
  destruct c; reflexivity.
Qed.

(** ** The noise filter *)

Lemma filter_by_index {A B : Type} (f : A -> B) (g : B -> bool) (l : list A) :
  map fst (filter (fun di => g (snd di)) (combine l (map f l)))
  = filter (fun d => g (f d)) l.
Proof.
  induction l as [|x l IH]; simpl; auto.
  destruct (g (f x)); simpl; now rewrite IH.
Qed.

Lemma noiseThreshold_not_nan maxVolume :
  Number.isNaN (noiseThreshold maxVolume) = false.
Proof.
  unfold noiseThreshold. apply max_not_nan.
  - apply ofZ_not_nan.
  - change (Number.dec 5 3)
      with (S754_finite false 5764607523034235 (-60)).
    apply mul_finite_not_nan, ofNat_not_nan.
Qed.

(** C3.  In weekly mode, with more than one date and a maximal daily row
    count [maxVolume] above 100, the dates dropped are exactly those whose
    row count is [<= max(5, maxVolume * 0.005)], the others being kept in
    order; with at most one date, or [maxVolume <= 100], no date is
    dropped.  For the daily volumes 1, 1 and 150 the threshold is
    [max(5, 0.75) = 5] and only the date of volume 150 is retained. *)
Theorem C3_noise_filter :
  (forall rawData availableDates,
      1 < List.length availableDates ->
      100 < maxVolumeOf rawData availableDates ->
      retainedDates rawData availableDates
      = filter (fun d =>
                  negb (Number.leb
                          (Number.ofNat (dailyCount rawData d))
                          (Number.max (Number.ofZ 5)
                             (Number.mul
                                (Number.ofNat (maxVolumeOf rawData availableDates))
                                (Number.dec 5 3)))))
               availableDates)
  /\ (forall rawData availableDates,
        List.length availableDates <= 1
        \/ maxVolumeOf rawData availableDates <= 100 ->
        retainedDates rawData availableDates = availableDates)
  /\ (forall row rows availableDates,
        exists r,
          report (row :: rows) WEEKLY_KEY availableDates = Return (Some r)
          /\ dates r = Some (retainedDates (row :: rows) availableDates))
  /\ (availableDatesOf noisyData
      = [js "2024-03-01"; js "2024-03-02"; js "2024-03-03"]
      /\ map (dailyCount noisyData) (availableDatesOf noisyData) = [1; 1; 150]
      /\ Number.mul (Number.ofNat 150) (Number.dec 5 3) = Number.dec 75 2
      /\ Number.max (Number.ofZ 5) (Number.dec 75 2) = Number.ofZ 5
      /\ retainedDates noisyData (availableDatesOf noisyData)
         = [js "2024-03-03"]).
Proof.
  split; [|split; [|split]].
  - intros rawData availableDates Hlen Hmax.
    unfold retainedDates.
    apply Nat.ltb_lt in Hlen. rewrite Hlen.
    fold (dailyCount rawData). fold (maxVolumeOf rawData availableDates).
    apply Nat.ltb_lt in Hmax. rewrite Hmax.
    rewrite (filter_by_index (dailyCount rawData)
               (fun c => Number.ltb
                           (noiseThreshold (maxVolumeOf rawData availableDates))
                           (Number.ofNat c))).
    apply filter_ext. intros d.
    apply ltb_negb_leb.
    + apply noiseThreshold_not_nan.
    + apply ofNat_not_nan.
  - intros rawData availableDates H.
    unfold retainedDates.
    destruct (1 <? List.length availableDates) eqn:E1; auto.
    fold (dailyCount rawData). fold (maxVolumeOf rawData availableDates).
    destruct (100 <? maxVolumeOf rawData availableDates) eqn:E2; auto.
    apply Nat.ltb_lt in E1, E2. lia.
  - intros row rows availableDates.
    unfold report. rewrite str_eqb_refl. unfold weeklyReport.
    destruct (averages_returns
                (weeklyState (row :: rows)
                   (retainedDates (row :: rows) availableDates))
                (dayCountOf (retainedDates (row :: rows) availableDates)))
      as [a ->].
    cbn [bind]. eexists. split; reflexivity.
  - repeat split; vm_compute; reflexivity.
Qed.

Lemma C3_witness :
  retainedDates noisyData (availableDatesOf noisyData)
  = filter (fun d =>
              negb (Number.leb
                      (Number.ofNat (dailyCount noisyData d))
                      (Number.max (Number.ofZ 5)
                         (Number.mul
                            (Number.ofNat
                               (maxVolumeOf noisyData (availableDatesOf noisyData)))
                            (Number.dec 5 3)))))
           (availableDatesOf noisyData)
  /\ retainedDates oneDayData (availableDatesOf oneDayData)
     = availableDatesOf oneDayData.
Proof.
  split.
  - apply (proj1 C3_noise_filter noisyData (availableDatesOf noisyData)).
    + vm_compute. lia.
    + vm_compute. lia.
  - apply (proj1 (proj2 C3_noise_filter) oneDayData (availableDatesOf oneDayData)).
    left. vm_compute. lia.
Defined.

(** ** Percentage formatting *)

Lemma toFixed_zero d :
  d <= 100 -> Number.toFixed Number.zero (Number.ofNat d) = Return (zeroFixed d).
Proof.
  intros Hd.
  assert (H : zeroFixedUpTo 100 = true) by (vm_compute; reflexivity).
  unfold zeroFixedUpTo in H. rewrite forallb_forall in H.
  specialize (H d). rewrite in_seq in H.
  assert (Hin : 0 <= d < 0 + 101) by lia. specialize (H Hin).
  destruct (Number.toFixed Number.zero (Number.ofNat d)) as [s|e];
    [|discriminate].
  apply str_eqb_eq in H. now subst.
Qed.

Lemma C8_counterexample :
  formatPercent (Number.ofZ 1) Number.zero (Number.ofZ 101) = Throw RangeError.
Proof. vm_compute. reflexivity. Qed.

(** C8, as the code has it.  For every numerator and every decimal count
    [d] from 0 to 100, [formatPercent] with a zero denominator returns zero
    written with exactly [d] decimal digits and does not throw; with a
    non-zero denominator it returns [numerator / denominator * 100] fixed
    to the given number of digits.  The decimal count 101 makes [toFixed],
    and so [formatPercent], throw a [RangeError] whatever the other
    arguments are. *)
Theorem C8_format_percent :
  (forall (numerator denominator : number) (d : nat),
      Number.eqb denominator Number.zero = true ->
      d <= 100 ->
      formatPercent numerator denominator (Number.ofNat d)
      = Return (zeroFixed d))
  /\ (forall numerator denominator decimals : number,
        Number.eqb denominator Number.zero = false ->
        formatPercent numerator denominator decimals
        = Number.toFixed
            (Number.mul (Number.div numerator denominator) (Number.ofZ 100))
            decimals)
  /\ (forall numerator denominator : number,
        formatPercent numerator denominator (Number.ofZ 101)
        = Throw RangeError).
Proof.
  split; [|split].
  - intros numerator denominator d Hden Hd.
    unfold formatPercent. rewrite Hden. now apply toFixed_zero.
  - intros numerator denominator decimals Hden.
    unfold formatPercent. now rewrite Hden.
  - intros numerator denominator. unfold formatPercent.
    destruct (Number.eqb denominator Number.zero); reflexivity.
Qed.

Lemma C8_witness :
  formatPercent (Number.ofZ 7) Number.zero (Number.ofNat 4)
  = Return (js "0.0000")
  /\ formatPercent (Number.ofZ 1) (Number.ofZ 3) (Number.ofZ 4)
     = Return (js "33.3333").
Proof.
  split.
  - apply (proj1 C8_format_percent (Number.ofZ 7) Number.zero 4).
    + reflexivity.
    + lia.
  - rewrite (proj1 (proj2 C8_format_percent) (Number.ofZ 1) (Number.ofZ 3)
               (Number.ofZ 4)).
    + vm_compute. reflexivity.
    + reflexivity.
Defined.

(** ** The daily-average column *)

Lemma weekly_fold_rates rawData ds : forall w,
  let w' := fold_left (weeklyDay rawData) ds w in
  w_sumRecallRate w'
  = fold_left Number.add (map (fun d => recallRateOf (dayStats rawData d)) ds)
              (w_sumRecallRate w)
  /\ w_sumPrecision w'
     = fold_left Number.add (map (fun d => precisionOf (dayStats rawData d)) ds)
                 (w_sumPrecision w)
  /\ w_sumRiskLevel w'
     = fold_left Number.add (map (fun d => riskLevelOf (dayStats rawData d)) ds)
                 (w_sumRiskLevel w).
Proof.
  induction ds as [|d ds IH]; intros w; [repeat split|].
  destruct (IH (weeklyDay rawData w d)) as (H1 & H2 & H3).
  cbn [fold_left map]. cbv zeta. rewrite H1, H2, H3. repeat split.
Qed.

Lemma averages_spec w n :
  exists a,
    averages w n = Return a
    /\ formatDecimal (Number.div (Number.ofNat (w_aggTotalRows w)) (Number.ofNat n))
                     (Number.ofZ 2) = Return (avg_totalRows a)
    /\ formatDecimal (Number.div (Number.ofNat (w_aggMachineReject w)) (Number.ofNat n))
                     (Number.ofZ 3) = Return (avg_machineRejectCount a)
    /\ formatDecimal (Number.div (Number.ofNat (w_aggRecall w)) (Number.ofNat n))
                     (Number.ofZ 2) = Return (avg_recallCount a)
    /\ formatDecimal (Number.div (Number.ofNat (w_aggHumanViolation w)) (Number.ofNat n))
                     (Number.ofZ 2) = Return (avg_humanViolationCount a)
    /\ formatDecimal (Number.div (Number.ofNat (w_aggBlackSample w)) (Number.ofNat n))
                     (Number.ofZ 0) = Return (avg_blackSampleTotal a)
    /\ formatRate (Number.div (w_sumRecallRate w) (Number.ofNat n))
       = Return (avg_recallRate a)
    /\ formatRate (Number.div (w_sumPrecision w) (Number.ofNat n))
       = Return (avg_precision a)
    /\ formatRate (Number.div (w_sumRiskLevel w) (Number.ofNat n))
       = Return (avg_riskLevel a).
Proof.
  unfold averages, formatRate, formatDecimal, two. cbv zeta.
  run_toFixed.
  eexists. repeat split.
Qed.

Lemma dayCountOf_max ds : dayCountOf ds = Nat.max (List.length ds) 1.
Proof. unfold dayCountOf. destruct (List.length ds) as [|[|n]]; simpl; auto. Qed.

(** C6.  In the weekly report every averaged count is the summed total
    over the retained dates divided by [max(number of retained dates, 1)]
    (then fixed to 2, 3, 2, 2 and 0 digits), and every averaged rate is the
    sum of the per-day percentages divided by the same number, a per-day
    percentage being the ratio times 100, or 0 when its denominator is 0.
    The averaged rate is not recomputed from the totals: for a day of one
    rejected row and a day of three accepted rows the averaged risk level
    is 50.00% while the ratio of the totals is 25.00%. *)
Theorem C6_daily_average_column :
  (forall (row : CsvRow) (rows : list CsvRow) (availableDates : list jsstr),
      let rawData := row :: rows in
      let ds := retainedDates rawData availableDates in
      let n := Number.ofNat (Nat.max (List.length ds) 1) in
      let total f := Number.ofNat (sumOver rawData f ds) in
      let mean pct :=
        Number.div (sumNumbers (map (fun d => pct (dayStats rawData d)) ds)) n in
      exists r a,
        report rawData WEEKLY_KEY availableDates = Return (Some r)
        /\ avgStats r = Some a
        /\ formatDecimal (Number.div (total totalRows) n) (Number.ofZ 2)
           = Return (avg_totalRows a)
        /\ formatDecimal (Number.div (total machineRejectCount) n) (Number.ofZ 3)
           = Return (avg_machineRejectCount a)
        /\ formatDecimal (Number.div (total recallCount) n) (Number.ofZ 2)
           = Return (avg_recallCount a)
        /\ formatDecimal (Number.div (total humanViolationCount) n) (Number.ofZ 2)
           = Return (avg_humanViolationCount a)
        /\ formatDecimal (Number.div (total blackSampleTotal) n) (Number.ofZ 0)
           = Return (avg_blackSampleTotal a)
        /\ formatRate (mean recallRateOf) = Return (avg_recallRate a)
        /\ formatRate (mean precisionOf) = Return (avg_precision a)
        /\ formatRate (mean riskLevelOf) = Return (avg_riskLevel a))
  /\ (forall num den : nat,
        percentOf num den
        = if den =? 0 then Number.zero
          else Number.mul (Number.div (Number.ofNat num) (Number.ofNat den))
                          (Number.ofZ 100))
  /\ (exists r a total,
        report unevenData WEEKLY_KEY (availableDatesOf unevenData)
        = Return (Some r)
        /\ avgStats r = Some a
        /\ totalStats r = Some total
        /\ avg_riskLevel a = js "50.00%"
        /\ formatPercent (Number.ofNat (blackSampleTotal total))
                         (Number.ofNat (totalRows total)) (Number.ofZ 2)
           = Return (js "25.00")).
Proof.
  split; [|split].
  - intros row rows availableDates rawData ds n total mean.
    unfold report. fold rawData. subst rawData.
    rewrite str_eqb_refl. unfold weeklyReport.
    fold ds.
    destruct (averages_spec (weeklyState (row :: rows) ds) (dayCountOf ds))
      as (a & Ha & H1 & H2 & H3 & H4 & H5 & H6 & H7 & H8).
    rewrite Ha. cbn [bind]. eexists. exists a.
    split; [reflexivity|]. split; [reflexivity|].
    rewrite dayCountOf_max in H1, H2, H3, H4, H5, H6, H7, H8.
    destruct (weekly_fold_counts (row :: rows) ds weeklyInit)
      as (C1 & C2 & C3 & C4 & C5).
    destruct (weekly_fold_rates (row :: rows) ds weeklyInit)
      as (R1 & R2 & R3).
    unfold weeklyState in H1, H2, H3, H4, H5, H6, H7, H8.
    rewrite C1 in H1. rewrite C2 in H2. rewrite C3 in H3.
    rewrite C4 in H4. rewrite C5 in H5.
    rewrite R1 in H6. rewrite R2 in H7. rewrite R3 in H8.
    repeat split; assumption.
  - intros num den. unfold percentOf. now destruct den.
  - eexists. eexists. eexists.
    split; [vm_compute; reflexivity|].
    split; [reflexivity|]. split; [reflexivity|].
    split; vm_compute; reflexivity.
Qed.

(** ** Maps built by adding contributions key by key *)

Lemma keys_set {V : Type} (m : JsMap.t V) k v :
  JsMap.keys (JsMap.set m k v) = JsSet.add (JsMap.keys m) k.
Proof.
  unfold JsSet.add, JsSet.has, JsMap.keys.
  induction m as [|[k0 v0] m IH]; simpl; auto.
  destruct (JsString.eqb k0 k) eqn:E; simpl.
  - apply str_eqb_eq in E. subst. now rewrite str_eqb_refl.
  - assert (JsString.eqb k k0 = false) as ->.
    { apply str_eqb_neq. apply str_eqb_neq in E. congruence. }
    simpl. rewrite IH.
    now destruct (existsb (JsString.eqb k) (map fst m)).
Qed.

Lemma fold_add_In ks : forall s y,
  In y (fold_left JsSet.add ks s) <-> In y s \/ In y ks.
Proof.
  induction ks as [|k ks IH]; intros s y; simpl.
  - tauto.
  - rewrite IH, set_add_In. intuition congruence.
Qed.

Lemma fold_add_NoDup ks : forall s,
  NoDup s -> NoDup (fold_left JsSet.add ks s).
Proof.
  induction ks as [|k ks IH]; intros s H; simpl; auto.
  apply IH. now apply set_add_NoDup.
Qed.

Lemma set_add_present s x : In x s -> JsSet.add s x = s.
Proof.
  intros H. unfold JsSet.add. apply set_has_In in H. now rewrite H.
Qed.

Lemma fold_add_dedup ys : forall s,
  fold_left JsSet.add (fold_left JsSet.add ys []) s = fold_left JsSet.add ys s.
Proof.
  induction ys as [|y ys IH] using rev_ind; intros s; auto.
  rewrite !fold_left_app. simpl.
  unfold JsSet.add at 2.
  destruct (JsSet.has (fold_left JsSet.add ys []) y) eqn:E.
  - rewrite IH. symmetry. apply set_add_present.
    apply set_has_In in E. apply fold_add_In in E.
    apply fold_add_In. destruct E as [[]|E]; auto.
  - rewrite fold_left_app. simpl. now rewrite IH.
Qed.

Lemma map_ext_keys {V : Type} (m1 : JsMap.t V) : forall m2,
  NoDup (JsMap.keys m1) ->
  JsMap.keys m1 = JsMap.keys m2 ->
  (forall k, JsMap.get m1 k = JsMap.get m2 k) ->
  m1 = m2.
Proof.
  unfold JsMap.keys, JsMap.get.
  induction m1 as [|[k1 v1] m1 IH]; intros [|[k2 v2] m2] Hnd Hk Hg;
    try discriminate; auto.
  simpl in Hk. injection Hk as Hk1 Hk2. subst k2.
  inversion Hnd as [|? ? Hnotin Hnd']; subst.
  pose proof (Hg k1) as H1. simpl in H1. rewrite str_eqb_refl in H1.
  injection H1 as ->.
  f_equal. apply IH; auto.
  intros k. specialize (Hg k). simpl in Hg.
  destruct (JsString.eqb k1 k) eqn:E; auto.
  apply str_eqb_eq in E. subst k.
  assert (G1 : JsMap.get m1 k1 = None) by now apply get_None_keys.
  assert (G2 : JsMap.get m2 k1 = None).
  { apply get_None_keys. unfold JsMap.keys. now rewrite <- Hk2. }
  unfold JsMap.get in G1, G2. congruence.
Qed.

Section Contributions.

Variable V : Type.
Variable plus : V -> V -> V.
Hypothesis plus_assoc : forall a b c, plus (plus a b) c = plus a (plus b c).

Let add := upsertAdd plus.
Let oplus := optPlus plus.

Lemma oplus_assoc a b c : oplus (oplus a b) c = oplus a (oplus b c).
Proof.
  unfold oplus, optPlus. destruct a, b, c; auto. now rewrite plus_assoc.
Qed.

Lemma get_upsertAdd m k d k' :
  JsMap.get (add m (k, d)) k'
  = if JsString.eqb k k' then oplus (JsMap.get m k) (Some d)
    else JsMap.get m k'.
Proof.
  unfold add, upsertAdd. simpl. rewrite get_set.
  destruct (JsString.eqb k k'); auto.
  unfold oplus, optPlus. now destruct (JsMap.get m k).
Qed.

Lemma get_upsertAdd_split m kd k :
  JsMap.get (add m kd) k = oplus (JsMap.get m k) (JsMap.get (add [] kd) k).
Proof.
  destruct kd as [k0 d]. rewrite !get_upsertAdd.
  destruct (JsString.eqb k0 k) eqn:E.
  - apply str_eqb_eq in E. subst. reflexivity.
  - unfold oplus, optPlus. simpl. now destruct (JsMap.get m k).
Qed.

(** The value found after a run of contributions splits into what the
    map held before and what the run contributes on its own. *)
Lemma get_fold_upsertAdd ops : forall m k,
  JsMap.get (fold_left add ops m) k
  = oplus (JsMap.get m k) (JsMap.get (fold_left add ops []) k).
Proof.
  induction ops as [|op ops IH]; intros m k; simpl.
  - unfold oplus, optPlus. simpl. now destruct (JsMap.get m k).
  - rewrite IH. rewrite (IH (add [] op)).
    rewrite <- oplus_assoc. f_equal. apply get_upsertAdd_split.
Qed.

Lemma get_merge n : forall m k,
  NoDup (JsMap.keys n) ->
  JsMap.get (fold_left add n m) k = oplus (JsMap.get m k) (JsMap.get n k).
Proof.
  induction n as [|[k0 v0] n IH]; intros m k Hnd; simpl.
  - unfold oplus, optPlus. simpl. now destruct (JsMap.get m k).
  - inversion Hnd as [|? ? Hnotin Hnd']; subst.
    rewrite IH by assumption. rewrite get_upsertAdd.
    destruct (JsString.eqb k0 k) eqn:E.
    + apply str_eqb_eq in E. subst k.
      assert (JsMap.get n k0 = None) as -> by now apply get_None_keys.
      unfold oplus, optPlus. now destruct (JsMap.get m k0).
    + reflexivity.
Qed.

Lemma keys_fold_upsertAdd ops : forall m,
  JsMap.keys (fold_left add ops m)
  = fold_left JsSet.add (map fst ops) (JsMap.keys m).
Proof.
  induction ops as [|op ops IH]; intros m; simpl; auto.
  rewrite IH. unfold add, upsertAdd. now rewrite keys_set.
Qed.

Lemma NoDup_keys_fold ops m :
  NoDup (JsMap.keys m) -> NoDup (JsMap.keys (fold_left add ops m)).
Proof.
  intros H. rewrite keys_fold_upsertAdd. now apply fold_add_NoDup.
Qed.

(** Merging the map of a run of contributions into [m] is the same as
    applying the run to [m], entry for entry and in the same order. *)
Lemma merge_is_replay ops m :
  NoDup (JsMap.keys m) ->
  fold_left add (fold_left add ops []) m = fold_left add ops m.
Proof.
  intros Hm. apply map_ext_keys.
  - now apply NoDup_keys_fold.
  - rewrite !keys_fold_upsertAdd.
    change (map fst (fold_left add ops []))
      with (JsMap.keys (fold_left add ops [])).
    rewrite keys_fold_upsertAdd. apply fold_add_dedup.
  - intros k. rewrite get_merge.
    + symmetry. apply get_fold_upsertAdd.
    + apply NoDup_keys_fold. constructor.
Qed.

Lemma replay_days {D : Type} (ops : D -> list (jsstr * V)) ds : forall m,
  NoDup (JsMap.keys m) ->
  fold_left (fun m d => fold_left add (fold_left add (ops d) []) m) ds m
  = fold_left add (flat_map ops ds) m.
Proof.
  induction ds as [|d ds IH]; intros m Hm; simpl; auto.
  rewrite fold_left_app, merge_is_replay by assumption.
  apply IH. now apply NoDup_keys_fold.
Qed.

End Contributions.

(** ** The aggregator as a run of contributions *)

Lemma add_assoc_rev a b c : a + b + c = a + (b + c).
Proof. lia. Qed.

Lemma addStats_assoc a b c :
  addStats (addStats a b) c = addStats a (addStats b c).
Proof. unfold addStats. simpl. f_equal; lia. Qed.

Lemma hit_addStats sent pending violation e k :
  hit sent pending violation e
  = addStats e (hit sent pending violation (newStrategy k)).
Proof.
  unfold hit, addStats. simpl.
  f_equal; try lia; [destruct sent|destruct pending|destruct violation]; lia.
Qed.

Lemma mergeStrategy_upsertAdd m kv :
  mergeStrategy m kv = upsertAdd addStats m kv.
Proof.
  destruct kv as [k v]. unfold mergeStrategy, upsertAdd. simpl.
  now destruct (JsMap.get m k).
Qed.

Lemma mergeTagCount_upsertAdd m kv :
  mergeTagCount m kv = upsertAdd Nat.add m kv.
Proof.
  destruct kv as [k c]. unfold mergeTagCount, upsertAdd. simpl.
  now destruct (JsMap.get m k) as [[|n]|].
Qed.

Lemma countTag_upsertAdd m t : countTag m t = upsertAdd Nat.add m (t, 1).
Proof.
  unfold countTag, upsertAdd. simpl.
  destruct (JsMap.get m t) as [[|n]|]; simpl; auto.
Qed.

Lemma countStrategy_upsertAdd sent pending violation m rawName :
  countStrategy sent pending violation m rawName
  = fold_left (upsertAdd addStats)
              (tokenContribution sent pending violation rawName) m.
Proof.
  rewrite countStrategy_set. unfold tokenContribution.
  destruct (JsString.trim rawName) as [|c r]; auto.
  cbv zeta. simpl. unfold upsertAdd, entryOr. simpl.
  destruct (JsMap.get m (mapStrategyName (c :: r))); auto.
  f_equal. apply hit_addStats.
Qed.

Lemma fold_left_flat_map {A B C : Type} (f : A -> C -> A) (g : B -> list C) l :
  forall a,
    fold_left f (flat_map g l) a
    = fold_left (fun a x => fold_left f (g x) a) l a.
Proof.
  induction l as [|x l IH]; intros a; simpl; auto.
  now rewrite fold_left_app, IH.
Qed.

Lemma fold_left_ext {A B : Type} (f g : A -> B -> A) l :
  (forall a b, f a b = g a b) -> forall a, fold_left f l a = fold_left g l a.
Proof.
  intros H. induction l as [|b l IH]; intros a; simpl; auto.
  now rewrite H, IH.
Qed.

Lemma analyzeRow_strategyMap st row :
  st_strategyMap (analyzeRow st row)
  = fold_left (upsertAdd addStats) (strategyContributions row)
              (st_strategyMap st).
Proof.
  unfold analyzeRow, strategyContributions. cbn [st_strategyMap].
  destruct (rawStrategyValue row) as [[|c v]|]; auto.
  rewrite fold_left_flat_map.
  apply fold_left_ext. intros; apply countStrategy_upsertAdd.
Qed.

Lemma analyzeRow_tagMap st row :
  st_tagMap (analyzeRow st row)
  = fold_left (upsertAdd Nat.add) (tagContributions row) (st_tagMap st).
Proof.
  unfold analyzeRow, tagContributions. cbn [st_tagMap].
  destruct (isHumanViolation row); auto.
  generalize (st_tagMap st).
  induction (uniqueTagsInRow row) as [|t ts IH]; intros m; simpl; auto.
  now rewrite IH, countTag_upsertAdd.
Qed.

Lemma analyze_maps rows : forall st,
  st_strategyMap (fold_left analyzeRow rows st)
  = fold_left (upsertAdd addStats) (flat_map strategyContributions rows)
              (st_strategyMap st)
  /\ st_tagMap (fold_left analyzeRow rows st)
     = fold_left (upsertAdd Nat.add) (flat_map tagContributions rows)
                 (st_tagMap st).
Proof.
  induction rows as [|row rows IH]; intros st; simpl; auto.
  destruct (IH (analyzeRow st row)) as [H1 H2].
  rewrite H1, H2, !fold_left_app, analyzeRow_strategyMap, analyzeRow_tagMap.
  auto.
Qed.

Lemma analyzeRows_maps rows :
  strategyMap (analyzeRows rows)
  = fold_left (upsertAdd addStats) (flat_map strategyContributions rows) []
  /\ tagMap (analyzeRows rows)
     = fold_left (upsertAdd Nat.add) (flat_map tagContributions rows) [].
Proof. unfold analyzeRows. cbn [strategyMap tagMap]. apply analyze_maps. Qed.

Lemma analyze_counts rows : forall st,
  let st' := fold_left analyzeRow rows st in
  st_machineRejectCount st'
  = st_machineRejectCount st + List.length (filter isMachineReject rows)
  /\ st_recallCount st'
     = st_recallCount st + List.length (filter isHumanSent rows)
  /\ st_humanViolationCount st'
     = st_humanViolationCount st + List.length (filter isHumanViolation rows).
Proof.
  induction rows as [|row rows IH]; intros st; simpl.
  - repeat split; lia.
  - destruct (IH (analyzeRow st row)) as (H1 & H2 & H3).
    rewrite H1, H2, H3. unfold analyzeRow. simpl.
    destruct (isMachineReject row), (isHumanSent row), (isHumanViolation row);
      simpl; repeat split; lia.
Qed.

Lemma analyzeRows_basic rows :
  basic (analyzeRows rows)
  = {| totalRows := List.length rows;
       machineRejectCount := List.length (filter isMachineReject rows);
       recallCount := List.length (filter isHumanSent rows);
       humanViolationCount := List.length (filter isHumanViolation rows);
       blackSampleTotal := List.length (filter isMachineReject rows)
                           + List.length (filter isHumanViolation rows) |}.
Proof.
  unfold analyzeRows. cbn [basic].
  destruct (analyze_counts rows initialState) as (H1 & H2 & H3).
  cbv zeta in H1, H2, H3. rewrite H1, H2, H3. reflexivity.
Qed.

Lemma flat_map_flat_map {A B C : Type} (f : B -> list C) (g : A -> list B) l :
  flat_map f (flat_map g l) = flat_map (fun x => flat_map f (g x)) l.
Proof.
  induction l as [|x l IH]; simpl; auto.
  now rewrite flat_map_app, IH.
Qed.

Lemma weekly_fold_maps rawData ds : forall w,
  let w' := fold_left (weeklyDay rawData) ds w in
  w_aggStrategyMap w'
  = fold_left (fun m d =>
                 fold_left (upsertAdd addStats)
                           (strategyMap (analyzeRows (rowsOfDate rawData d))) m)
              ds (w_aggStrategyMap w)
  /\ w_aggTagMap w'
     = fold_left (fun m d =>
                    fold_left (upsertAdd Nat.add)
                              (tagMap (analyzeRows (rowsOfDate rawData d))) m)
                 ds (w_aggTagMap w).
Proof.
  induction ds as [|d ds IH]; intros w; [split; reflexivity|].
  destruct (IH (weeklyDay rawData w d)) as [H1 H2].
  cbn [fold_left]. cbv zeta. rewrite H1, H2. cbn [weeklyDay w_aggStrategyMap w_aggTagMap].
  split; f_equal; apply fold_left_ext; intros;
    [apply mergeStrategy_upsertAdd | apply mergeTagCount_upsertAdd].
Qed.

(** The weekly merge of the per-day maps is the map of one aggregation
    over the rows of the retained dates, taken date by date. *)
Lemma weekly_maps_single_pass rawData ds :
  w_aggStrategyMap (weeklyState rawData ds)
  = strategyMap (analyzeRows (flat_map (rowsOfDate rawData) ds))
  /\ w_aggTagMap (weeklyState rawData ds)
     = tagMap (analyzeRows (flat_map (rowsOfDate rawData) ds)).
Proof.
  unfold weeklyState.
  destruct (weekly_fold_maps rawData ds weeklyInit) as [H1 H2].
  cbv zeta in H1, H2. rewrite H1, H2. cbn [weeklyInit w_aggStrategyMap w_aggTagMap].
  destruct (analyzeRows_maps (flat_map (rowsOfDate rawData) ds)) as [-> ->].
  rewrite !flat_map_flat_map.
  split.
  - rewrite <- (replay_days addStats addStats_assoc
                  (fun d => flat_map strategyContributions (rowsOfDate rawData d)))
      by constructor.
    apply fold_left_ext. intros m d.
    now destruct (analyzeRows_maps (rowsOfDate rawData d)) as [-> _].
  - rewrite <- (replay_days Nat.add add_assoc_rev
                  (fun d => flat_map tagContributions (rowsOfDate rawData d)))
      by constructor.
    apply fold_left_ext. intros m d.
    now destruct (analyzeRows_maps (rowsOfDate rawData d)) as [_ ->].
Qed.

Lemma analyzeRows_app_maps A B :
  (forall k,
      JsMap.get (strategyMap (analyzeRows (A ++ B))) k
      = optPlus addStats (JsMap.get (strategyMap (analyzeRows A)) k)
                         (JsMap.get (strategyMap (analyzeRows B)) k))
  /\ (forall t,
        JsMap.get (tagMap (analyzeRows (A ++ B))) t
        = optPlus Nat.add (JsMap.get (tagMap (analyzeRows A)) t)
                          (JsMap.get (tagMap (analyzeRows B)) t))
  /\ strategyMap (analyzeRows (A ++ B))
     = fold_left mergeStrategy (strategyMap (analyzeRows B))
                 (strategyMap (analyzeRows A))
  /\ tagMap (analyzeRows (A ++ B))
     = fold_left mergeTagCount (tagMap (analyzeRows B))
                 (tagMap (analyzeRows A)).
Proof.
  destruct (analyzeRows_maps (A ++ B)) as [Sab Tab].
  destruct (analyzeRows_maps A) as [Sa Ta].
  destruct (analyzeRows_maps B) as [Sb Tb].
  rewrite Sab, Tab, Sa, Ta, Sb, Tb.
  rewrite !flat_map_app, !fold_left_app.
  split; [|split; [|split]].
  - intros k. apply (get_fold_upsertAdd addStats addStats_assoc).
  - intros t. apply (get_fold_upsertAdd Nat.add add_assoc_rev).
  - rewrite (fold_left_ext mergeStrategy (upsertAdd addStats))
      by apply mergeStrategy_upsertAdd.
    symmetry. apply (merge_is_replay addStats addStats_assoc).
    apply NoDup_keys_fold. constructor.
  - rewrite (fold_left_ext mergeTagCount (upsertAdd Nat.add))
      by apply mergeTagCount_upsertAdd.
    symmetry. apply (merge_is_replay Nat.add add_assoc_rev).
    apply NoDup_keys_fold. constructor.
Qed.

(** C10.  [analyzeRows] is additive over concatenation: on [A ++ B] each
    of the five basic counts, each of the four fields of each strategy
    entry and the count of each tag is the sum of what [analyzeRows]
    returns on [A] and on [B] (a missing key counting as 0), and the two
    maps are exactly the weekly merge of the maps of [B] into the maps of
    [A].  Hence the maps merged over the retained dates in weekly mode,
    and the lists built from them, are those of one aggregation over the
    rows of the retained dates. *)
Theorem C10_additive_over_concatenation :
  (forall A B : list CsvRow,
      let ab := analyzeRows (A ++ B) in
      let a := analyzeRows A in
      let b := analyzeRows B in
      (totalRows (basic ab) = totalRows (basic a) + totalRows (basic b)
       /\ machineRejectCount (basic ab)
          = machineRejectCount (basic a) + machineRejectCount (basic b)
       /\ recallCount (basic ab) = recallCount (basic a) + recallCount (basic b)
       /\ humanViolationCount (basic ab)
          = humanViolationCount (basic a) + humanViolationCount (basic b)
       /\ blackSampleTotal (basic ab)
          = blackSampleTotal (basic a) + blackSampleTotal (basic b))
      /\ (forall k,
            fieldOf hitCount (strategyMap ab) k
            = fieldOf hitCount (strategyMap a) k
              + fieldOf hitCount (strategyMap b) k
            /\ fieldOf humanReviewCount (strategyMap ab) k
               = fieldOf humanReviewCount (strategyMap a) k
                 + fieldOf humanReviewCount (strategyMap b) k
            /\ fieldOf pendingCount (strategyMap ab) k
               = fieldOf pendingCount (strategyMap a) k
                 + fieldOf pendingCount (strategyMap b) k
            /\ fieldOf violationCount (strategyMap ab) k
               = fieldOf violationCount (strategyMap a) k
                 + fieldOf violationCount (strategyMap b) k)
      /\ (forall t,
            tagCount (tagMap ab) t = tagCount (tagMap a) t + tagCount (tagMap b) t)
      /\ strategyMap ab = fold_left mergeStrategy (strategyMap b) (strategyMap a)
      /\ tagMap ab = fold_left mergeTagCount (tagMap b) (tagMap a))
  /\ (forall (rawData : list CsvRow) (ds : list jsstr),
        w_aggStrategyMap (weeklyState rawData ds)
        = strategyMap (analyzeRows (flat_map (rowsOfDate rawData) ds))
        /\ w_aggTagMap (weeklyState rawData ds)
           = tagMap (analyzeRows (flat_map (rowsOfDate rawData) ds)))
  /\ (forall (row : CsvRow) (rows : list CsvRow) (availableDates : list jsstr),
        let rawData := row :: rows in
        let retained :=
          flat_map (rowsOfDate rawData) (retainedDates rawData availableDates) in
        exists r,
          report rawData WEEKLY_KEY availableDates = Return (Some r)
          /\ strategyList r
             = sort byHitCountDesc
                    (JsMap.values (strategyMap (analyzeRows retained)))
          /\ tagList r = topTags (tagMap (analyzeRows retained))).
Proof.
  split; [|split].
  - intros A B ab a b. subst ab a b.
    destruct (analyzeRows_app_maps A B) as (HS & HT & HSM & HTM).
    split; [|split; [|split; [|split]]]; auto.
    + rewrite !analyzeRows_basic. cbn.
      rewrite !filter_app, !length_app. repeat split; lia.
    + intros k. unfold fieldOf. rewrite HS.
      destruct (JsMap.get (strategyMap (analyzeRows A)) k),
               (JsMap.get (strategyMap (analyzeRows B)) k);
        simpl; repeat split; lia.
    + intros t. unfold tagCount. rewrite HT.
      destruct (JsMap.get (tagMap (analyzeRows A)) t),
               (JsMap.get (tagMap (analyzeRows B)) t);
        simpl; lia.
  - apply weekly_maps_single_pass.
  - intros row rows availableDates rawData retained.
    unfold report. fold rawData. subst rawData.
    rewrite str_eqb_refl. unfold weeklyReport.
    set (ds := retainedDates (row :: rows) availableDates) in *.
    destruct (averages_returns (weeklyState (row :: rows) ds) (dayCountOf ds))
      as [a ->].
    cbn [bind]. eexists. split; [reflexivity|].
    cbn [strategyList tagList]. subst retained.
    destruct (weekly_maps_single_pass (row :: rows) ds) as [-> ->].
    split; reflexivity.
Qed.

(** * Further properties of the aggregator *)

Lemma filter_length_le {A : Type} (p : A -> bool) l :
  List.length (filter p l) <= List.length l.
Proof.
  induction l as [|x l IH]; simpl; auto. destruct (p x); simpl; lia.
Qed.

Lemma filter_length_impl {A : Type} (p q : A -> bool) l :
  (forall x, p x = true -> q x = true) ->
  List.length (filter p l) <= List.length (filter q l).
Proof.
  intros H. induction l as [|x l IH]; simpl; auto.
  destruct (p x) eqn:E.
  - rewrite (H x E). simpl. lia.
  - destruct (q x); simpl; lia.
Qed.

(** X1.  The counts of [analyzeRows] are nested: every violation row is a
    recalled row and every recalled row is a row, and the machine-rejected
    rows are rows. *)
Theorem basic_counts_nested : forall rows : list CsvRow,
  let b := basic (analyzeRows rows) in
  totalRows b = List.length rows
  /\ humanViolationCount b <= recallCount b
  /\ recallCount b <= totalRows b
  /\ machineRejectCount b <= totalRows b.
Proof.
  intros rows b. subst b. rewrite analyzeRows_basic. cbn.
  split; [reflexivity|]. split; [|split].
  - apply filter_length_impl. apply violation_is_sent.
  - apply filter_length_le.
  - apply filter_length_le.
Qed.

Lemma filter_or_and {A : Type} (p q : A -> bool) l :
  List.length (filter p l) + List.length (filter q l)
  = List.length (filter (fun x => p x || q x) l)
    + List.length (filter (fun x => p x && q x) l).
Proof.
  induction l as [|x l IH]; simpl; auto.
  destruct (p x), (q x); simpl; lia.
Qed.

(** X2.  [blackSampleTotal] counts a row that is both machine-rejected and
    a human violation twice: it is the number of rows that are either, plus
    the number of rows that are both.  It is at least the number of rows
    that are either and at most twice the number of rows. *)
Theorem black_sample_counts_overlap_twice : forall rows : list CsvRow,
  let either := filter (fun r => isMachineReject r || isHumanViolation r) rows in
  let both := filter (fun r => isMachineReject r && isHumanViolation r) rows in
  blackSampleTotal (basic (analyzeRows rows))
  = List.length either + List.length both
  /\ List.length both <= List.length either
  /\ blackSampleTotal (basic (analyzeRows rows)) <= 2 * List.length rows.
Proof.
  intros rows either both. subst either both.
  rewrite analyzeRows_basic. cbn [blackSampleTotal].
  rewrite filter_or_and. split; [reflexivity|]. split.
  - apply filter_length_impl. intros x H.
    apply andb_prop in H. destruct H as [-> _]. reflexivity.
  - pose proof (filter_length_le
                  (fun r => isMachineReject r || isHumanViolation r) rows).
    pose proof (filter_length_le
                  (fun r => isMachineReject r && isHumanViolation r) rows).
    lia.
Qed.

(** ** Entries of the strategy map *)

Lemma pending_not_violation row :
  isHumanPending row = true -> isHumanViolation row = false.
Proof.
  unfold isHumanPending, isHumanViolation.
  destruct (humanStatus row) as [s|]; simpl; [|discriminate].
  intros H. apply str_eqb_eq in H. subst s. reflexivity.
Qed.

(** X3.  In every entry of the strategy map of [analyzeRows] the pending
    and the violation hits together do not exceed the hits sent to human
    review: a hit is counted as pending or as violation, never as both. *)
Theorem pending_plus_violation_le_review : forall rows : list CsvRow,
  Forall (fun e : jsstr * StrategyStats =>
            pendingCount (snd e) + violationCount (snd e)
            <= humanReviewCount (snd e))
         (strategyMap (analyzeRows rows)).
Proof.
  intros rows.
  apply analyzeRows_inv
    with (P := fun s => pendingCount s + violationCount s <= humanReviewCount s).
  - intros n. simpl. lia.
  - intros row s H. unfold hit. simpl.
    destruct (isHumanPending row) eqn:Ep.
    + rewrite (pending_not_violation _ Ep), (pending_is_sent _ Ep). lia.
    + destruct (isHumanViolation row) eqn:Ev.
      * rewrite (violation_is_sent _ Ev). lia.
      * destruct (isHumanSent row); lia.
Qed.

Lemma fold_upsertAdd_Forall {V : Type} (plus : V -> V -> V)
    (Q : jsstr * V -> Prop) ops :
  (forall k e d, Q (k, e) -> Q (k, d) -> Q (k, plus e d)) ->
  Forall Q ops ->
  forall m, Forall Q m -> Forall Q (fold_left (upsertAdd plus) ops m).
Proof.
  intros Hplus. induction ops as [|[k d] ops IH]; intros Hops m Hm; simpl; auto.
  inversion Hops as [|? ? Hkd Hops']; subst.
  apply IH; auto.
  unfold upsertAdd. simpl. apply Forall_set; auto.
  destruct (JsMap.get m k) as [e|] eqn:G; auto.
  apply Hplus; auto.
  apply get_In in G. rewrite Forall_forall in Hm. apply (Hm _ G).
Qed.

Lemma mapStrategyName_nonempty c r : mapStrategyName (c :: r) <> [].
Proof.
  unfold mapStrategyName.
  destruct (lookup STRATEGY_MAPPING (c :: r)) as [[|c' v]|]; discriminate.
Qed.

Lemma strategyContributions_shape row :
  Forall (fun kd : jsstr * StrategyStats =>
            name (snd kd) = fst kd /\ fst kd <> [] /\ hitCount (snd kd) = 1)
         (strategyContributions row).
Proof.
  unfold strategyContributions.
  destruct (rawStrategyValue row) as [[|c v]|]; try constructor.
  apply Forall_flat_map. apply Forall_forall. intros rawName _.
  unfold tokenContribution.
  destruct (JsString.trim rawName) as [|c' r]; [constructor|].
  constructor; [|constructor]. simpl.
  split; [reflexivity|]. split; [apply mapStrategyName_nonempty|reflexivity].
Qed.

Lemma set_hits_sum (m : JsMap.t StrategyStats) k v :
  list_sum (map (fun e => hitCount (snd e)) (JsMap.set m k v))
  + fieldOf hitCount m k
  = list_sum (map (fun e => hitCount (snd e)) m) + hitCount v.
Proof.
  unfold fieldOf, JsMap.get.
  induction m as [|[k0 v0] m IH]; simpl; [lia|].
  destruct (JsString.eqb k0 k); simpl; lia.
Qed.

(** Every contribution of one hit adds one to the sum of the hit counts. *)
Lemma hits_sum ops : forall m,
  Forall (fun kd : jsstr * StrategyStats => hitCount (snd kd) = 1) ops ->
  list_sum (map (fun e => hitCount (snd e))
                (fold_left (upsertAdd addStats) ops m))
  = list_sum (map (fun e => hitCount (snd e)) m) + List.length ops.
Proof.
  induction ops as [|[k d] ops IH]; intros m H; simpl; [lia|].
  inversion H as [|? ? Hd Hops]; subst. simpl in Hd.
  rewrite IH by assumption.
  unfold upsertAdd. simpl.
  pose proof (set_hits_sum m k
                (match JsMap.get m k with
                 | Some e => addStats e d
                 | None => d
                 end)) as HS.
  unfold fieldOf in HS.
  destruct (JsMap.get m k) as [e|]; simpl in HS; lia.
Qed.

Lemma strategyMap_shape rows :
  Forall (fun e : jsstr * StrategyStats =>
            name (snd e) = fst e /\ fst e <> [] /\ 1 <= hitCount (snd e))
         (strategyMap (analyzeRows rows)).
Proof.
  destruct (analyzeRows_maps rows) as [-> _].
  apply fold_upsertAdd_Forall; [| |constructor].
  - intros k e d (N1 & K1 & H1) (N2 & K2 & H2). simpl in *.
    repeat split; auto. lia.
  - apply Forall_flat_map. apply Forall_forall. intros row _.
    eapply Forall_impl; [|apply strategyContributions_shape].
    intros kd (N & K & H). repeat split; auto. lia.
Qed.

Lemma strategyMap_NoDup rows : NoDup (JsMap.keys (strategyMap (analyzeRows rows))).
Proof.
  destruct (analyzeRows_maps rows) as [-> _].
  apply NoDup_keys_fold. constructor.
Qed.

(** X4.  The strategy map of [analyzeRows] has one entry per strategy name:
    its keys are pairwise distinct and non-empty, the [name] of an entry is
    its key, and every entry has at least one hit and at most as many hits
    as the rows name strategy tokens. *)
Theorem strategy_entries_well_formed : forall rows : list CsvRow,
  NoDup (JsMap.keys (strategyMap (analyzeRows rows)))
  /\ Forall (fun e : jsstr * StrategyStats =>
               name (snd e) = fst e /\ fst e <> [] /\ 1 <= hitCount (snd e))
            (strategyMap (analyzeRows rows))
  /\ list_sum (map (fun e => hitCount (snd e)) (strategyMap (analyzeRows rows)))
     = List.length (flat_map strategyContributions rows).
Proof.
  intros rows. split; [apply strategyMap_NoDup|].
  split; [apply strategyMap_shape|].
  destruct (analyzeRows_maps rows) as [-> _].
  apply hits_sum.
  apply Forall_flat_map. apply Forall_forall. intros row _.
  eapply Forall_impl; [|apply strategyContributions_shape].
  intros kd (_ & _ & H). exact H.
Qed.

(** ** Entries of the tag map *)

Lemma analyzeRow_tagCount st row t :
  tagCount (st_tagMap (analyzeRow st row)) t
  = tagCount (st_tagMap st) t
    + (if isHumanViolation row
       then if existsb (JsString.eqb t) (survivingTags (rawTagsOf row))
            then 1 else 0
       else 0).
Proof.
  unfold analyzeRow. cbn [st_tagMap].
  destruct (isHumanViolation row); [|lia].
  rewrite countTag_fold.
  destruct (uniqueTagsInRow_spec row) as [Hnd Hin].
  rewrite (count_occ_NoDup_existsb _ Hnd).
  now rewrite (existsb_ext_In _ _ t Hin).
Qed.

Lemma tagCount_le_violations rows t : forall st,
  tagCount (st_tagMap (fold_left analyzeRow rows st)) t
  + st_humanViolationCount st
  <= tagCount (st_tagMap st) t
     + st_humanViolationCount (fold_left analyzeRow rows st).
Proof.
  induction rows as [|row rows IH]; intros st; simpl; [lia|].
  specialize (IH (analyzeRow st row)).
  rewrite analyzeRow_tagCount in IH.
  assert (st_humanViolationCount (analyzeRow st row)
          = if isHumanViolation row then S (st_humanViolationCount st)
            else st_humanViolationCount st) as E by reflexivity.
  rewrite E in IH.
  destruct (isHumanViolation row);
    [destruct (existsb (JsString.eqb t) (survivingTags (rawTagsOf row)))|];
    lia.
Qed.

Lemma In_get_NoDup {V : Type} (m : JsMap.t V) k v :
  NoDup (JsMap.keys m) -> In (k, v) m -> JsMap.get m k = Some v.
Proof.
  unfold JsMap.keys, JsMap.get.
  induction m as [|[k0 v0] m IH]; simpl; [tauto|].
  intros Hnd [H|H].
  - injection H as -> ->. now rewrite str_eqb_refl.
  - inversion Hnd as [|? ? Hnotin Hnd']; subst.
    destruct (JsString.eqb k0 k) eqn:E; auto.
    apply str_eqb_eq in E. subst k0.
    exfalso. apply Hnotin. apply (in_map fst) in H. exact H.
Qed.

Lemma countTag_positive m t :
  Forall (fun e : jsstr * nat => 1 <= snd e) m ->
  Forall (fun e : jsstr * nat => 1 <= snd e) (countTag m t).
Proof.
  intros H. unfold countTag. apply Forall_set; auto. simpl. lia.
Qed.

Lemma analyzeRows_tags_positive rows :
  Forall (fun e : jsstr * nat => 1 <= snd e) (tagMap (analyzeRows rows)).
Proof.
  unfold analyzeRows. cbn [tagMap].
  apply fold_left_inv
    with (I := fun st => Forall (fun e : jsstr * nat => 1 <= snd e) (st_tagMap st)).
  - intros st row H. unfold analyzeRow. cbn [st_tagMap].
    destruct (isHumanViolation row); auto.
    apply fold_left_inv; auto. intros; now apply countTag_positive.
  - constructor.
Qed.

Lemma tagMap_bounds : forall rows : list CsvRow,
  NoDup (JsMap.keys (tagMap (analyzeRows rows)))
  /\ Forall (fun e : jsstr * nat =>
               1 <= snd e
               /\ snd e <= humanViolationCount (basic (analyzeRows rows)))
            (tagMap (analyzeRows rows))
  /\ (humanViolationCount (basic (analyzeRows rows)) = 0 ->
      tagMap (analyzeRows rows) = []).
Proof.
  intros rows.
  assert (Hnd : NoDup (JsMap.keys (tagMap (analyzeRows rows)))).
  { destruct (analyzeRows_maps rows) as [_ ->].
    apply NoDup_keys_fold. constructor. }
  assert (Hall : Forall (fun e : jsstr * nat =>
               1 <= snd e
               /\ snd e <= humanViolationCount (basic (analyzeRows rows)))
            (tagMap (analyzeRows rows))).
  { apply Forall_forall. intros [t c] Hin. simpl. split.
    - pose proof (analyzeRows_tags_positive rows) as Hp.
      rewrite Forall_forall in Hp. apply (Hp _ Hin).
    - pose proof (In_get_NoDup _ _ _ Hnd Hin) as G.
      pose proof (tagCount_le_violations rows t initialState) as Hle.
      unfold analyzeRows in G. cbn [tagMap] in G.
      unfold tagCount in Hle at 1. rewrite G in Hle.
      unfold analyzeRows. cbn [basic humanViolationCount].
      simpl in Hle. lia. }
  split; [exact Hnd|]. split; [exact Hall|].
  intros Hz. destruct (tagMap (analyzeRows rows)) as [|e m]; auto.
  inversion Hall as [|? ? [H1 H2] _]; subst. lia.
Qed.

(** X5.  The tag map of [analyzeRows] has pairwise distinct keys, and the
    count of every tag is at least 1 and at most the number of violation
    rows: a tag's share of the violations never exceeds 100%.  Without a
    violation row the tag map is empty. *)
Theorem tag_counts_bounded_by_violations : forall rows : list CsvRow,
  NoDup (JsMap.keys (tagMap (analyzeRows rows)))
  /\ Forall (fun e : jsstr * nat =>
               1 <= snd e
               /\ snd e <= humanViolationCount (basic (analyzeRows rows)))
            (tagMap (analyzeRows rows))
  /\ (humanViolationCount (basic (analyzeRows rows)) = 0 ->
      tagMap (analyzeRows rows) = []).
Proof. exact tagMap_bounds. Qed.

Lemma tag_counts_witness :
  tagMap (analyzeRows [[(COL_HUMAN_STATUS, js "通过"); (COL_HUMAN_TAGS, js "A")]])
  = [].
Proof.
  apply (proj2 (proj2 (tag_counts_bounded_by_violations
                         [[(COL_HUMAN_STATUS, js "通过");
                           (COL_HUMAN_TAGS, js "A")]]))).
  reflexivity.
Defined.

Lemma splitGo_pieces (matchAt : jsstr -> nat) (P : N -> Prop) :
  (forall c s, matchAt (c :: s) = 0 -> P c) ->
  forall s skip cur,
    Forall P cur -> Forall (Forall P) (JsString.splitGo matchAt skip cur s).
Proof.
  intros Hm. induction s as [|c s IH]; intros skip cur Hcur; simpl.
  - constructor; [|constructor]. now apply Forall_rev.
  - destruct skip as [|k]; [|now apply IH].
    destruct (matchAt (c :: s)) as [|k] eqn:E.
    + apply IH. constructor; auto. now apply (Hm c s).
    + constructor; [now apply Forall_rev|]. apply IH. constructor.
Qed.

Lemma trim_Forall (P : N -> Prop) s : Forall P s -> Forall P (JsString.trim s).
Proof.
  assert (Hstart : forall u, Forall P u -> Forall P (JsString.trimStart u)).
  { induction u as [|c u IH]; simpl; auto.
    intros H. destruct (JsString.isWhiteSpace c); auto.
    inversion H; auto. }
  intros H. unfold JsString.trim, JsString.trimEnd.
  apply Forall_rev, Hstart, Forall_rev, Hstart, H.
Qed.

Lemma tagSep_zero c s :
  tagSep (c :: s) = 0 -> isListSep c = false /\ c <> 43%N.
Proof.
  unfold tagSep.
  destruct (JsString.startsWith (JsString.lit "&&") (c :: s)); [discriminate|].
  destruct (JsString.startsWith (JsString.lit "$$") (c :: s)); [discriminate|].
  destruct (JsString.startsWith (JsString.lit "+") (c :: s)) eqn:E;
    [discriminate|].
  simpl. destruct (isListSep c); [discriminate|]. intros _.
  split; [reflexivity|]. intros ->. discriminate.
Qed.

(** X6.  A key of the tag map of [analyzeRows] is never empty, is never one
    of the eight stop words, and contains no white space, no comma of
    either width and no plus sign. *)
Theorem tag_keys_clean : forall rows : list CsvRow,
  Forall (fun e : jsstr * nat =>
            fst e <> []
            /\ ~ In (fst e) TAG_STOP_LIST
            /\ Forall (fun c => isListSep c = false /\ c <> 43%N) (fst e))
         (tagMap (analyzeRows rows)).
Proof.
  intros rows.
  destruct (analyzeRows_maps rows) as [_ ->].
  apply fold_upsertAdd_Forall; [tauto| |constructor].
  apply Forall_flat_map. apply Forall_forall. intros row _.
  unfold tagContributions. destruct (isHumanViolation row); [|constructor].
  apply Forall_map. apply Forall_forall. intros t Ht. cbn [fst snd].
  apply (proj2 (uniqueTagsInRow_spec row)) in Ht.
  unfold survivingTags in Ht.
  apply in_map_iff in Ht. destruct Ht as (tag & <- & Ht).
  apply filter_In in Ht. destruct Ht as [Ht Hvalid].
  apply in_map_iff in Ht. destruct Ht as (tok & <- & Htok).
  assert (Hm : mergeTag (JsString.trim tok) = JsString.trim tok) by reflexivity.
  rewrite Hm.
  apply negb_true_iff in Hvalid. unfold isInvalidTag in Hvalid.
  destruct (JsString.trim tok) as [|c r] eqn:Et; [discriminate|].
  split; [discriminate|]. split.
  - intros Hin. apply existsb_eqb_In in Hin. congruence.
  - rewrite <- Et. apply trim_Forall.
    pose proof (@splitGo_pieces tagSep
                  (fun c => isListSep c = false /\ c <> 43%N)
                  (fun c s => @tagSep_zero c s) (rawTagsOf row) 0 []
                  (Forall_nil _)) as Hp.
    rewrite Forall_forall in Hp. apply Hp. exact Htok.
Qed.

(** ** Row order and missing columns *)

Lemma additive_perm (F : list CsvRow -> nat) :
  (forall x l, F (x :: l) = F [x] + F l) ->
  forall A B, Permutation A B -> F A = F B.
Proof.
  intros HF. induction 1 as [|x l l' _ IH|x y l|l l' l'' _ IH1 _ IH2].
  - reflexivity.
  - rewrite (HF x l), (HF x l'). now rewrite IH.
  - rewrite (HF y (x :: l)), (HF x l), (HF x (y :: l)), (HF y l). lia.
  - congruence.
Qed.

Lemma fieldOf_cons (f : StrategyStats -> nat) x l k :
  (forall a b, f (addStats a b) = f a + f b) ->
  fieldOf f (strategyMap (analyzeRows (x :: l))) k
  = fieldOf f (strategyMap (analyzeRows [x])) k
    + fieldOf f (strategyMap (analyzeRows l)) k.
Proof.
  intros Hf. destruct (analyzeRows_app_maps [x] l) as (HS & _).
  unfold fieldOf. change (x :: l) with ([x] ++ l). rewrite HS.
  destruct (JsMap.get (strategyMap (analyzeRows [x])) k),
           (JsMap.get (strategyMap (analyzeRows l)) k); simpl; auto.
Qed.

Lemma tagCount_cons x l t :
  tagCount (tagMap (analyzeRows (x :: l))) t
  = tagCount (tagMap (analyzeRows [x])) t + tagCount (tagMap (analyzeRows l)) t.
Proof.
  destruct (analyzeRows_app_maps [x] l) as (_ & HT & _).
  unfold tagCount. change (x :: l) with ([x] ++ l). rewrite HT.
  destruct (JsMap.get (tagMap (analyzeRows [x])) t),
           (JsMap.get (tagMap (analyzeRows l)) t); simpl; auto.
Qed.

Lemma filter_count_cons (p : CsvRow -> bool) x l :
  List.length (filter p (x :: l))
  = List.length (filter p [x]) + List.length (filter p l).
Proof. simpl. destruct (p x); reflexivity. Qed.

Lemma analyzeRows_perm : forall A B : list CsvRow,
  Permutation A B ->
  basic (analyzeRows A) = basic (analyzeRows B)
  /\ (forall k,
        fieldOf hitCount (strategyMap (analyzeRows A)) k
        = fieldOf hitCount (strategyMap (analyzeRows B)) k
        /\ fieldOf humanReviewCount (strategyMap (analyzeRows A)) k
           = fieldOf humanReviewCount (strategyMap (analyzeRows B)) k
        /\ fieldOf pendingCount (strategyMap (analyzeRows A)) k
           = fieldOf pendingCount (strategyMap (analyzeRows B)) k
        /\ fieldOf violationCount (strategyMap (analyzeRows A)) k
           = fieldOf violationCount (strategyMap (analyzeRows B)) k)
  /\ (forall t,
        tagCount (tagMap (analyzeRows A)) t = tagCount (tagMap (analyzeRows B)) t).
Proof.
  intros A B HP. split; [|split].
  - rewrite !analyzeRows_basic.
    rewrite (Permutation_length HP).
    rewrite (additive_perm (fun l => List.length (filter isMachineReject l))
               (filter_count_cons isMachineReject) HP).
    rewrite (additive_perm (fun l => List.length (filter isHumanSent l))
               (filter_count_cons isHumanSent) HP).
    rewrite (additive_perm (fun l => List.length (filter isHumanViolation l))
               (filter_count_cons isHumanViolation) HP).
    reflexivity.
  - intros k. repeat split.
    + apply (additive_perm
               (fun l => fieldOf hitCount (strategyMap (analyzeRows l)) k)); auto.
      intros x l. now apply fieldOf_cons.
    + apply (additive_perm
               (fun l => fieldOf humanReviewCount (strategyMap (analyzeRows l)) k));
        auto.
      intros x l. now apply fieldOf_cons.
    + apply (additive_perm
               (fun l => fieldOf pendingCount (strategyMap (analyzeRows l)) k));
        auto.
      intros x l. now apply fieldOf_cons.
    + apply (additive_perm
               (fun l => fieldOf violationCount (strategyMap (analyzeRows l)) k));
        auto.
      intros x l. now apply fieldOf_cons.
  - intros t.
    apply (additive_perm (fun l => tagCount (tagMap (analyzeRows l)) t)); auto.
    intros x l. apply tagCount_cons.
Qed.

(** X7.  The order of the rows does not matter for any number the
    aggregator reports: two row sequences that are permutations of each
    other give the same five basic counts, the same four fields for every
    strategy and the same count for every tag. *)
Theorem analyzeRows_order_independent : forall A B : list CsvRow,
  Permutation A B ->
  basic (analyzeRows A) = basic (analyzeRows B)
  /\ (forall k,
        fieldOf hitCount (strategyMap (analyzeRows A)) k
        = fieldOf hitCount (strategyMap (analyzeRows B)) k
        /\ fieldOf humanReviewCount (strategyMap (analyzeRows A)) k
           = fieldOf humanReviewCount (strategyMap (analyzeRows B)) k
        /\ fieldOf pendingCount (strategyMap (analyzeRows A)) k
           = fieldOf pendingCount (strategyMap (analyzeRows B)) k
        /\ fieldOf violationCount (strategyMap (analyzeRows A)) k
           = fieldOf violationCount (strategyMap (analyzeRows B)) k)
  /\ (forall t,
        tagCount (tagMap (analyzeRows A)) t = tagCount (tagMap (analyzeRows B)) t).
Proof. exact analyzeRows_perm. Qed.

Lemma analyzeRows_order_witness :
  basic (analyzeRows (rev scenarioRows)) = basic (analyzeRows scenarioRows)
  /\ tagCount (tagMap (analyzeRows (rev scenarioRows))) (js "t1")
     = tagCount (tagMap (analyzeRows scenarioRows)) (js "t1").
Proof.
  destruct (analyzeRows_order_independent
              (Permutation_sym (Permutation_rev scenarioRows))) as (H1 & _ & H3).
  split; [exact H1|apply H3].
Defined.

Lemma blank_not_literal row col lit :
  blankColumn row col = true -> lit <> [] ->
  isStr (optTrim (lookup row col)) lit = false
  /\ truthy (optTrim (lookup row col)) = false.
Proof.
  unfold blankColumn. intros H Hlit.
  destruct (lookup row col) as [s|]; simpl; auto.
  destruct (JsString.trim s); [|discriminate].
  split; auto. apply str_eqb_neq. congruence.
Qed.

Lemma analyzeRow_bare st row : bareRow row = true -> analyzeRow st row = st.
Proof.
  unfold bareRow. intros H.
  repeat (apply andb_prop in H; destruct H as [H ?]).
  assert (Hlit : REJECTED <> []) by discriminate.
  assert (Hpen : PENDING <> []) by discriminate.
  unfold analyzeRow, isMachineReject, isHumanSent, isHumanViolation,
    isHumanPending, humanStatus, rawStrategyValue.
  destruct (blank_not_literal row COL_SYNC_STATUS H Hlit) as [-> _].
  destruct (blank_not_literal row COL_ASYNC_STATUS H3 Hlit) as [-> _].
  destruct (blank_not_literal row COL_HUMAN_STATUS H2 Hlit) as [-> ->].
  destruct (blank_not_literal row COL_SYNC_STRATEGY H1 Hlit) as [_ ->].
  destruct (blank_not_literal row COL_ASYNC_STRATEGY H0 Hlit) as [_ Ht].
  destruct (optTrim (lookup row COL_ASYNC_STRATEGY)) as [[|c v]|];
    try discriminate; destruct st; reflexivity.
Qed.

(** X8.  Rows in which the two machine-status columns, the human-status
    column and the two strategy columns are absent or hold only white space
    are counted as rows and as nothing else: all other counts are zero and
    both maps are empty, whatever the remaining columns hold. *)
Theorem bare_rows_only_count_as_rows : forall rows : list CsvRow,
  forallb bareRow rows = true ->
  analyzeRows rows
  = {| basic := {| totalRows := List.length rows;
                   machineRejectCount := 0;
                   recallCount := 0;
                   humanViolationCount := 0;
                   blackSampleTotal := 0 |};
       strategyMap := [];
       tagMap := [] |}.
Proof.
  intros rows H. unfold analyzeRows.
  assert (E : fold_left analyzeRow rows initialState = initialState).
  { generalize initialState.
    induction rows as [|row rows IH]; intros st; simpl in *; auto.
    apply andb_prop in H. destruct H as [H1 H2].
    rewrite (analyzeRow_bare st _ H1). now apply IH. }
  rewrite E. reflexivity.
Qed.

Lemma bare_rows_witness :
  analyzeRows [ []; [ (COL_HUMAN_TAGS, js "A"); (COL_HUMAN_STATUS, js "  ") ] ]
  = {| basic := {| totalRows := 2; machineRejectCount := 0; recallCount := 0;
                   humanViolationCount := 0; blackSampleTotal := 0 |};
       strategyMap := [];
       tagMap := [] |}.
Proof.
  apply (bare_rows_only_count_as_rows
           [ []; [ (COL_HUMAN_TAGS, js "A"); (COL_HUMAN_STATUS, js "  ") ] ]).
  reflexivity.
Defined.

(** * Further properties of the report *)

Lemma length_flat_map_rows (p : CsvRow -> bool) rawData ds :
  List.length (filter p (flat_map (rowsOfDate rawData) ds))
  = list_sum (map (fun d => List.length (filter p (rowsOfDate rawData d))) ds).
Proof.
  induction ds as [|d ds IH]; [reflexivity|].
  cbn [flat_map map list_sum]. now rewrite filter_app, length_app, IH.
Qed.

Lemma list_sum_map_add {A : Type} (f g : A -> nat) l :
  list_sum (map (fun x => f x + g x) l)
  = list_sum (map f l) + list_sum (map g l).
Proof. induction l as [|x l IH]; simpl; lia. Qed.

Lemma filter_all {A : Type} (l : list A) : filter (fun _ => true) l = l.
Proof. induction l as [|x l IH]; simpl; congruence. Qed.

Lemma basic_flat_map rawData ds :
  basic (analyzeRows (flat_map (rowsOfDate rawData) ds))
  = {| totalRows := sumOver rawData totalRows ds;
       machineRejectCount := sumOver rawData machineRejectCount ds;
       recallCount := sumOver rawData recallCount ds;
       humanViolationCount := sumOver rawData humanViolationCount ds;
       blackSampleTotal := sumOver rawData blackSampleTotal ds |}.
Proof.
  unfold sumOver, dayStats. rewrite analyzeRows_basic.
  rewrite !length_flat_map_rows.
  rewrite <- (filter_all (flat_map (rowsOfDate rawData) ds)) at 1.
  rewrite length_flat_map_rows.
  rewrite <- list_sum_map_add.
  f_equal; apply f_equal; apply map_ext; intros d;
    rewrite analyzeRows_basic; cbn; try reflexivity.
  now rewrite filter_all.
Qed.

Lemma weekly_totals rawData ds :
  {| totalRows := w_aggTotalRows (weeklyState rawData ds);
     machineRejectCount := w_aggMachineReject (weeklyState rawData ds);
     recallCount := w_aggRecall (weeklyState rawData ds);
     humanViolationCount := w_aggHumanViolation (weeklyState rawData ds);
     blackSampleTotal := w_aggBlackSample (weeklyState rawData ds) |}
  = basic (analyzeRows (flat_map (rowsOfDate rawData) ds)).
Proof.
  rewrite basic_flat_map. unfold weeklyState.
  destruct (weekly_fold_counts rawData ds weeklyInit) as (C1 & C2 & C3 & C4 & C5).
  cbv zeta in C1, C2, C3, C4, C5.
  rewrite C1, C2, C3, C4, C5. reflexivity.
Qed.

(** A report, in either mode, is the report of one aggregation over its
    scope rows. *)
Lemma report_scope row rows selectedDate availableDates :
  let rawData := row :: rows in
  let stats := analyzeRows (scopeRows rawData selectedDate availableDates) in
  exists r,
    report rawData selectedDate availableDates = Return (Some r)
    /\ mode r = (if JsString.eqb selectedDate WEEKLY_KEY then WEEKLY else SINGLE)
    /\ summaryStats r = Some (basic stats)
    /\ strategyList r = sort byHitCountDesc (JsMap.values (strategyMap stats))
    /\ tagList r = topTags (tagMap stats)
    /\ totalTagCount r = sumCounts (tagList r)
    /\ aggTotalRows r = totalRows (basic stats)
    /\ aggHumanViolationCount r = humanViolationCount (basic stats)
    /\ aggRecallCount r = recallCount (basic stats).
Proof.
  intros rawData stats. subst stats. unfold report, scopeRows. fold rawData.
  subst rawData.
  destruct (JsString.eqb selectedDate WEEKLY_KEY).
  - unfold weeklyReport.
    set (ds := retainedDates (row :: rows) availableDates).
    destruct (averages_returns (weeklyState (row :: rows) ds) (dayCountOf ds))
      as [a ->].
    cbn [bind]. eexists. split; [reflexivity|].
    unfold summaryStats.
    cbn [mode totalStats strategyList tagList totalTagCount aggTotalRows
         aggHumanViolationCount aggRecallCount].
    destruct (weekly_maps_single_pass (row :: rows) ds) as [-> ->].
    pose proof (weekly_totals (row :: rows) ds) as HT.
    pose proof (f_equal totalRows HT) as T1.
    pose proof (f_equal humanViolationCount HT) as T2.
    pose proof (f_equal recallCount HT) as T3.
    cbn [totalRows humanViolationCount recallCount] in T1, T2, T3.
    rewrite HT, T1, T2, T3.
    repeat split.
  - eexists. repeat split.
Qed.

Lemma retainedDates_filter rawData availableDates :
  exists keep, retainedDates rawData availableDates = filter keep availableDates.
Proof.
  unfold retainedDates.
  destruct (1 <? List.length availableDates);
    [|exists (fun _ => true); symmetry; apply filter_all].
  destruct (100 <? _);
    [|exists (fun _ => true); symmetry; apply filter_all].
  eexists.
  apply (filter_by_index
           (fun d => List.length (rowsOfDate rawData d))
           (fun c => Number.ltb
                       (noiseThreshold
                          (list_max
                             (map (fun d => List.length (rowsOfDate rawData d))
                                  availableDates)))
                       (Number.ofNat c))).
Qed.

Lemma StronglySorted_filter {A : Type} (R : A -> A -> Prop) (p : A -> bool) l :
  StronglySorted R l -> StronglySorted R (filter p l).
Proof.
  induction 1 as [|x l Hs IH Hx]; simpl; [constructor|].
  destruct (p x); auto. constructor; auto.
  apply Forall_forall. intros y Hy. apply filter_In in Hy.
  rewrite Forall_forall in Hx. apply Hx. tauto.
Qed.

(** X9.  The noise filter only selects: the retained dates are the
    available dates that pass a test, in their original order.  So every
    retained date is an available date, and a list of available dates
    without repeats, or sorted, stays so. *)
Theorem retained_dates_are_a_selection :
  forall (rawData : list CsvRow) (availableDates : list jsstr),
    (exists keep,
        retainedDates rawData availableDates = filter keep availableDates)
    /\ incl (retainedDates rawData availableDates) availableDates
    /\ List.length (retainedDates rawData availableDates)
       <= List.length availableDates
    /\ (NoDup availableDates -> NoDup (retainedDates rawData availableDates))
    /\ (forall R : jsstr -> jsstr -> Prop,
          StronglySorted R availableDates ->
          StronglySorted R (retainedDates rawData availableDates)).
Proof.
  intros rawData availableDates.
  destruct (retainedDates_filter rawData availableDates) as [keep E].
  split; [now exists keep|]. rewrite E.
  split; [apply incl_filter|]. split; [apply filter_length_le|].
  split; [apply NoDup_filter|]. intros R. apply StronglySorted_filter.
Qed.

Lemma retained_dates_witness :
  NoDup (retainedDates noisyData (availableDatesOf noisyData)).
Proof.
  apply (proj1 (proj2 (proj2 (proj2
           (retained_dates_are_a_selection noisyData (availableDatesOf noisyData)))))).
  apply distinctb_NoDup. vm_compute. reflexivity.
Defined.

(** X10.  A weekly report over a single available date shows, in its total
    column and in its lists, exactly what the single-day report of that
    date shows. *)
Theorem weekly_of_one_date_is_single_day :
  forall (row : CsvRow) (rows : list CsvRow) (d : jsstr),
    let single := singleReport (row :: rows) d in
    exists weekly,
      report (row :: rows) WEEKLY_KEY [d] = Return (Some weekly)
      /\ dates weekly = Some [d]
      /\ totalStats weekly = singleStats single
      /\ strategyList weekly = strategyList single
      /\ tagList weekly = tagList single
      /\ totalTagCount weekly = totalTagCount single
      /\ aggTotalRows weekly = aggTotalRows single
      /\ aggHumanViolationCount weekly = aggHumanViolationCount single
      /\ aggRecallCount weekly = aggRecallCount single.
Proof.
  intros row rows d single. subst single.
  destruct (report_scope row rows WEEKLY_KEY [d])
    as (r & Hr & Hm & Hs & Hsl & Htl & Htc & H1 & H2 & H3).
  unfold scopeRows in *. rewrite str_eqb_refl in *.
  change (retainedDates (row :: rows) [d]) with [d] in *.
  cbn [flat_map] in *. rewrite app_nil_r in *.
  exists r. split; [exact Hr|].
  unfold summaryStats in Hs. rewrite Hm in Hs.
  unfold singleReport.
  cbn [singleStats strategyList tagList totalTagCount aggTotalRows
       aggHumanViolationCount aggRecallCount].
  rewrite Hs, Hsl, Htc, Htl, H1, H2, H3.
  repeat split.
  unfold report in Hr. rewrite str_eqb_refl in Hr. unfold weeklyReport in Hr.
  destruct (averages _ _) as [a|e]; cbn [bind] in Hr; [|discriminate].
  injection Hr as <-. reflexivity.
Qed.

Lemma sort_length {A : Type} (cmp : A -> A -> Z) l :
  List.length (sort cmp l) = List.length l.
Proof.
  induction l as [|x l IH]; simpl; auto.
  rewrite <- IH. generalize (sort cmp l). intros s.
  induction s as [|y s IHs]; simpl; auto.
  destruct (cmp x y <=? 0)%Z; simpl; auto.
Qed.

(** X11.  In both report modes the strategy list holds every strategy of
    the report's rows exactly once, none being cut off: it is a permutation
    of the entries of the strategy map, in descending order of [hitCount],
    strategies with equal [hitCount] keeping the order in which they were
    first met. *)
Theorem strategy_list_is_complete_and_sorted :
  forall (row : CsvRow) (rows : list CsvRow) (selectedDate : jsstr)
         (availableDates : list jsstr),
    let entries :=
      JsMap.values
        (strategyMap
           (analyzeRows (scopeRows (row :: rows) selectedDate availableDates))) in
    exists r,
      report (row :: rows) selectedDate availableDates = Return (Some r)
      /\ Permutation (strategyList r) entries
      /\ List.length (strategyList r) = List.length entries
      /\ NoDup (map name (strategyList r))
      /\ StronglySorted (fun a b => hitCount b <= hitCount a) (strategyList r)
      /\ (forall c, filter (fun s => hitCount s =? c) (strategyList r)
                    = filter (fun s => hitCount s =? c) entries).
Proof.
  intros row rows selectedDate availableDates entries. subst entries.
  destruct (report_scope row rows selectedDate availableDates)
    as (r & Hr & _ & _ & Hsl & _).
  set (stats := analyzeRows (scopeRows (row :: rows) selectedDate availableDates))
    in *.
  exists r. split; [exact Hr|]. rewrite Hsl.
  split; [apply (sort_perm hitCount)|].
  split; [apply sort_length|].
  split.
  - apply (Permutation_NoDup
             (Permutation_sym (Permutation_map name
                (sort_perm hitCount (JsMap.values (strategyMap stats)))))).
    assert (E : map name (JsMap.values (strategyMap stats))
                = JsMap.keys (strategyMap stats)).
    { unfold JsMap.values, JsMap.keys. rewrite map_map.
      apply map_ext_in. intros e He.
      pose proof (strategyMap_shape
                    (scopeRows (row :: rows) selectedDate availableDates)) as HQ.
      rewrite Forall_forall in HQ. apply (HQ _ He). }
    rewrite E. apply strategyMap_NoDup.
  - split; [apply (sort_sorted hitCount)|].
    intros c. apply (sort_stable hitCount).
Qed.

Lemma In_firstn {A : Type} (x : A) n l : In x (firstn n l) -> In x l.
Proof.
  revert l. induction n as [|n IH]; intros [|y l]; simpl; try tauto.
  intros [H|H]; auto.
Qed.

Lemma NoDup_firstn {A : Type} n (l : list A) : NoDup l -> NoDup (firstn n l).
Proof.
  revert l. induction n as [|n IH]; intros [|y l] H; simpl; try constructor.
  - inversion H; subst. intros Hin. apply In_firstn in Hin. contradiction.
  - inversion H; subst. auto.
Qed.

Lemma list_sum_firstn n l : list_sum (firstn n l) <= list_sum l.
Proof.
  revert l. induction n as [|n IH]; intros [|y l]; simpl; try lia.
  specialize (IH l). lia.
Qed.

Lemma list_sum_perm l l' : Permutation l l' -> list_sum l = list_sum l'.
Proof. induction 1; simpl; lia. Qed.

Lemma tagEntries_names m : map tagName (tagEntries m) = JsMap.keys m.
Proof. unfold tagEntries, JsMap.keys. rewrite map_map. reflexivity. Qed.

Lemma tagEntries_counts m : map count (tagEntries m) = map snd m.
Proof. unfold tagEntries. rewrite map_map. reflexivity. Qed.

Lemma In_topTags m t :
  In t (topTags m) -> In (tagName t, count t) m.
Proof.
  unfold topTags. intros H. apply In_firstn in H.
  apply (Permutation_in _ (sort_perm count (tagEntries m))) in H.
  unfold tagEntries in H. apply in_map_iff in H.
  destruct H as ([k c] & <- & H). exact H.
Qed.

(** X12.  In both report modes the tag list has at most 35 entries with
    pairwise distinct names, every count in it is at least 1 and at most
    the report's number of violations, which is at most its number of
    recalled rows, which is at most its number of rows; so whenever a tag
    row is rendered the row count it is divided by is not zero.
    [totalTagCount] never exceeds the sum of the counts of all tags. *)
Theorem tag_list_bounded :
  forall (row : CsvRow) (rows : list CsvRow) (selectedDate : jsstr)
         (availableDates : list jsstr),
    let stats :=
      analyzeRows (scopeRows (row :: rows) selectedDate availableDates) in
    exists r,
      report (row :: rows) selectedDate availableDates = Return (Some r)
      /\ List.length (tagList r) <= 35
      /\ NoDup (map tagName (tagList r))
      /\ Forall (fun t => 1 <= count t
                          /\ count t <= aggHumanViolationCount r
                          /\ 1 <= aggTotalRows r)
                (tagList r)
      /\ aggHumanViolationCount r <= aggRecallCount r
      /\ aggRecallCount r <= aggTotalRows r
      /\ totalTagCount r <= list_sum (map snd (tagMap stats)).
Proof.
  intros row rows selectedDate availableDates stats.
  destruct (report_scope row rows selectedDate availableDates)
    as (r & Hr & _ & _ & _ & Htl & Htc & H1 & H2 & H3).
  fold stats in Htl, H1, H2, H3.
  exists r. split; [exact Hr|].
  assert (Hnest : humanViolationCount (basic stats) <= recallCount (basic stats)
                  /\ recallCount (basic stats) <= totalRows (basic stats)).
  { subst stats. rewrite analyzeRows_basic. cbn. split.
    - apply filter_length_impl. apply violation_is_sent.
    - apply filter_length_le. }
  rewrite Htc, Htl, H1, H2, H3.
  split; [unfold topTags; rewrite length_firstn; apply Nat.le_min_l|].
  split.
  { unfold topTags. rewrite <- firstn_map. apply NoDup_firstn.
    apply (Permutation_NoDup
             (Permutation_sym (Permutation_map tagName
                (sort_perm count (tagEntries (tagMap stats)))))).
    rewrite tagEntries_names. apply (proj1 (tagMap_bounds _)). }
  split.
  { apply Forall_forall. intros t Ht. apply In_topTags in Ht.
    destruct (tagMap_bounds (scopeRows (row :: rows) selectedDate availableDates))
      as (_ & Hall & _).
    rewrite Forall_forall in Hall. specialize (Hall _ Ht). cbn [snd] in Hall.
    fold stats in Hall. lia. }
  split; [tauto|]. split; [tauto|].
  assert (Hperm : Permutation (sort byCountDesc (tagEntries (tagMap stats)))
                              (tagEntries (tagMap stats)))
    by apply (sort_perm count).
  rewrite sumCounts_list_sum.
  change (topTags (tagMap stats))
    with (firstn 35 (sort byCountDesc (tagEntries (tagMap stats)))).
  rewrite <- firstn_map.
  etransitivity; [apply list_sum_firstn|].
  rewrite (list_sum_perm (Permutation_map count Hperm)).
  now rewrite tagEntries_counts.
Qed.

(** ** The weekly report and the rows of the retained dates *)

Lemma onDate_iff d r :
  onDate d r = true <-> extractDate (lookup r COL_ASYNC_TIME) = Some d.
Proof.
  unfold onDate, isStr.
  destruct (extractDate (lookup r COL_ASYNC_TIME)) as [s|].
  - rewrite str_eqb_eq. split; congruence.
  - split; discriminate.
Qed.

Lemma datedIn_false d ds r :
  ~ In d ds -> onDate d r = true -> datedIn ds r = false.
Proof.
  intros Hnot Hd. apply onDate_iff in Hd.
  destruct (datedIn ds r) eqn:E; auto.
  unfold datedIn in E. apply existsb_exists in E.
  destruct E as (d' & Hin & Hd'). apply onDate_iff in Hd'.
  exfalso. apply Hnot. congruence.
Qed.

Lemma filter_disjoint_perm {A : Type} (p q : A -> bool) l :
  (forall x, p x = true -> q x = false) ->
  Permutation (filter p l ++ filter q l) (filter (fun x => p x || q x) l).
Proof.
  intros H. induction l as [|x l IH]; simpl; auto.
  destruct (p x) eqn:Ep; simpl.
  - rewrite (H x Ep). now constructor.
  - destruct (q x); simpl; auto.
    apply Permutation_sym, Permutation_cons_app, Permutation_sym, IH.
Qed.

Lemma rows_by_date_perm rawData ds :
  NoDup ds ->
  Permutation (flat_map (rowsOfDate rawData) ds) (filter (datedIn ds) rawData).
Proof.
  induction 1 as [|d ds Hnot Hnd IH]; simpl.
  - induction rawData; simpl; auto.
  - rewrite IH. unfold rowsOfDate.
    apply (filter_disjoint_perm (onDate d) (datedIn ds)).
    intros r. now apply datedIn_false.
Qed.

Lemma In_sorted_values (m : JsMap.t StrategyStats) s :
  In s (sort byHitCountDesc (JsMap.values m)) -> exists k, In (k, s) m.
Proof.
  intros H.
  apply (Permutation_in _ (sort_perm hitCount (JsMap.values m))) in H.
  unfold JsMap.values in H. apply in_map_iff in H.
  destruct H as ([k v] & <- & H). now exists k.
Qed.

(** X13.  When the available dates are pairwise distinct, the total column
    of the weekly report holds the statistics of one aggregation over the
    rows of the file whose date is retained, in file order; rows without a
    parsable date and rows of a dropped date are excluded.  The fields of
    every listed strategy and the count of every listed tag are those of
    that aggregation. *)
Theorem weekly_totals_over_retained_rows :
  forall (row : CsvRow) (rows : list CsvRow) (availableDates : list jsstr),
    NoDup availableDates ->
    let rawData := row :: rows in
    let kept := filter (datedIn (retainedDates rawData availableDates)) rawData in
    exists r,
      report rawData WEEKLY_KEY availableDates = Return (Some r)
      /\ totalStats r = Some (basic (analyzeRows kept))
      /\ aggTotalRows r = List.length kept
      /\ aggTotalRows r <= List.length rawData
      /\ Forall (fun s =>
                   hitCount s
                   = fieldOf hitCount (strategyMap (analyzeRows kept)) (name s)
                   /\ humanReviewCount s
                      = fieldOf humanReviewCount (strategyMap (analyzeRows kept))
                                (name s)
                   /\ pendingCount s
                      = fieldOf pendingCount (strategyMap (analyzeRows kept))
                                (name s)
                   /\ violationCount s
                      = fieldOf violationCount (strategyMap (analyzeRows kept))
                                (name s))
                (strategyList r)
      /\ Forall (fun t =>
                   count t = tagCount (tagMap (analyzeRows kept)) (tagName t))
                (tagList r).
Proof.
  intros row rows availableDates Hnd rawData kept.
  destruct (report_scope row rows WEEKLY_KEY availableDates)
    as (r & Hr & Hm & Hs & Hsl & Htl & _ & H1 & _).
  fold rawData in Hr, Hs, Hsl, Htl, H1.
  unfold scopeRows in Hs, Hsl, Htl, H1. rewrite str_eqb_refl in Hs, Hsl, Htl, H1.
  rewrite str_eqb_refl in Hm. unfold summaryStats in Hs. rewrite Hm in Hs.
  set (ds := retainedDates rawData availableDates) in *.
  assert (Hds : NoDup ds).
  { subst ds. destruct (retainedDates_filter rawData availableDates) as [keep ->].
    now apply NoDup_filter. }
  pose proof (rows_by_date_perm rawData Hds) as HP. fold kept in HP.
  destruct (analyzeRows_perm HP) as (HB & HS & HT).
  exists r. split; [exact Hr|].
  split; [now rewrite Hs, HB|].
  assert (HL : aggTotalRows r = List.length kept).
  { rewrite H1, HB. now rewrite analyzeRows_basic. }
  split; [exact HL|].
  split; [rewrite HL; apply filter_length_le|].
  split.
  - apply Forall_forall. intros s Hs'. rewrite Hsl in Hs'.
    apply In_sorted_values in Hs'. destruct Hs' as [k Hk].
    pose proof (strategyMap_shape (flat_map (rowsOfDate rawData) ds)) as Hshape.
    rewrite Forall_forall in Hshape.
    destruct (Hshape _ Hk) as (Hname & _). simpl in Hname. rewrite Hname.
    pose proof (In_get_NoDup _ _ _ (strategyMap_NoDup _) Hk) as G.
    destruct (HS k) as (F1 & F2 & F3 & F4).
    rewrite <- F1, <- F2, <- F3, <- F4. unfold fieldOf. rewrite G. auto.
  - apply Forall_forall. intros t Ht. rewrite Htl in Ht.
    apply In_topTags in Ht.
    pose proof (In_get_NoDup _ _ _ (proj1 (tagMap_bounds _)) Ht) as G.
    rewrite <- HT. unfold tagCount. now rewrite G.
Qed.

Lemma weekly_totals_witness :
  exists r,
    report noisyData WEEKLY_KEY (availableDatesOf noisyData) = Return (Some r)
    /\ aggTotalRows r = 150.
Proof.
  destruct (@weekly_totals_over_retained_rows
              (datedRow (js "2024-03-01 23:59:59"))
              (datedRow (js "2024-03-02 00:00:01")
               :: repeat (datedRow (js "2024-03-03 12:00:00")) 150)
              (availableDatesOf noisyData))
    as (r & Hr & _ & HL & _).
  - apply distinctb_NoDup. vm_compute. reflexivity.
  - exists r. split; [exact Hr|]. rewrite HL. vm_compute. reflexivity.
Defined.

(** ** The dates offered for selection *)

Lemma ltb_irrefl a : JsString.ltb a a = false.
Proof.
  induction a as [|x a IH]; simpl; auto.
  rewrite N.ltb_irrefl, N.eqb_refl, IH. reflexivity.
Qed.

Lemma ltb_trans a : forall b c,
  JsString.ltb a b = true -> JsString.ltb b c = true -> JsString.ltb a c = true.
Proof.
  induction a as [|x a IH]; intros [|y b] [|z c]; simpl; try discriminate; auto.
  intros H1 H2.
  apply orb_true_iff in H1. apply orb_true_iff in H2. apply orb_true_iff.
  destruct H1 as [H1|H1], H2 as [H2|H2].
  - left. apply N.ltb_lt in H1, H2. apply N.ltb_lt. lia.
  - apply andb_prop in H2. destruct H2 as [E _].
    apply N.eqb_eq in E. subst. now left.
  - apply andb_prop in H1. destruct H1 as [E _].
    apply N.eqb_eq in E. subst. now left.
  - apply andb_prop in H1. destruct H1 as [E1 L1].
    apply andb_prop in H2. destruct H2 as [E2 L2].
    apply N.eqb_eq in E1, E2. subst. right.
    rewrite N.eqb_refl. simpl. now apply (IH b c).
Qed.

Lemma ltb_total a : forall b,
  JsString.ltb a b = false -> a <> b -> JsString.ltb b a = true.
Proof.
  induction a as [|x a IH]; intros [|y b]; simpl; auto; try congruence.
  intros H Hne.
  apply orb_false_iff in H. destruct H as [H1 H2].
  apply N.ltb_ge in H1.
  destruct (N.eqb_spec x y) as [->|Hxy].
  - simpl in H2. rewrite N.ltb_irrefl, N.eqb_refl. simpl.
    apply IH; auto. congruence.
  - apply orb_true_iff. left. apply N.ltb_lt. lia.
Qed.

Lemma insertAsc_perm x l : Permutation (insertAsc x l) (x :: l).
Proof.
  induction l as [|y l IH]; simpl; auto.
  destruct (JsString.ltb y x); auto.
  rewrite IH. apply perm_swap.
Qed.

Lemma insertAsc_sorted x l :
  ~ In x l ->
  StronglySorted (fun a b => JsString.ltb a b = true) l ->
  StronglySorted (fun a b => JsString.ltb a b = true) (insertAsc x l).
Proof.
  intros Hx Hs. induction Hs as [|y l Hs IH Hy]; simpl.
  - repeat constructor.
  - destruct (JsString.ltb y x) eqn:E.
    + constructor.
      * apply IH. intros H. apply Hx. now right.
      * apply (Permutation_Forall (Permutation_sym (insertAsc_perm x l))).
        constructor; auto.
    + assert (Hxy : JsString.ltb x y = true).
      { apply ltb_total; auto. intros ->. apply Hx. now left. }
      constructor; [now constructor|].
      constructor; auto.
      eapply Forall_impl; [|exact Hy].
      intros z Hz. now apply (ltb_trans x y z).
Qed.

Section DateCollection.

Variable dateOf : CsvRow -> option jsstr.

Let collect (dates : JsSet.t) (row : CsvRow) : JsSet.t :=
  match dateOf row with
  | Some d => JsSet.add dates d
  | None => dates
  end.

Lemma collect_fold data : forall s d,
  In d (fold_left collect data s)
  <-> In d s \/ exists row, In row data /\ dateOf row = Some d.
Proof.
  induction data as [|row data IH]; intros s d; simpl.
  - split; [tauto|]. intros [H|(r & [] & _)]; auto.
  - rewrite IH. unfold collect.
    destruct (dateOf row) as [d0|] eqn:E.
    + rewrite set_add_In. split.
      * intros [[H| ->]|(r & Hr & Hd)]; auto.
        -- right. exists row. auto.
        -- right. exists r. auto.
      * intros [H|(r & [<-|Hr] & Hd)]; auto.
        -- left. right. congruence.
        -- right. exists r. auto.
    + split.
      * intros [H|(r & Hr & Hd)]; auto. right. exists r. auto.
      * intros [H|(r & [<-|Hr] & Hd)]; auto.
        -- congruence.
        -- right. exists r. auto.
Qed.

Lemma collect_NoDup data : forall s,
  NoDup s -> NoDup (fold_left collect data s).
Proof.
  induction data as [|row data IH]; intros s H; simpl; auto.
  apply IH. unfold collect.
  destruct (dateOf row); auto.
  now apply set_add_NoDup.
Qed.

End DateCollection.

Lemma collectDate_fold data s d :
  In d (fold_left collectDate data s)
  <-> In d s \/ exists row, In row data /\ onDate d row = true.
Proof.
  rewrite (collect_fold (fun row => extractDate (lookup row COL_ASYNC_TIME))
             data s d).
  split; intros [H|(r & Hr & Hd)]; auto; right; exists r; split; auto;
    now apply onDate_iff.
Qed.

Lemma collectDate_NoDup data s :
  NoDup s -> NoDup (fold_left collectDate data s).
Proof.
  apply (collect_NoDup (fun row => extractDate (lookup row COL_ASYNC_TIME))).
Qed.

Lemma fold_insertAsc s :
  NoDup s ->
  Permutation (fold_right insertAsc [] s) s
  /\ StronglySorted (fun a b => JsString.ltb a b = true)
                    (fold_right insertAsc [] s).
Proof.
  induction 1 as [|x s Hx Hnd [IHp IHs]]; simpl.
  - split; constructor.
  - split.
    + rewrite insertAsc_perm. now constructor.
    + apply insertAsc_sorted; auto.
      intros H. apply Hx. now apply (Permutation_in _ IHp).
Qed.

Lemma rowsOfDate_nonempty data d :
  rowsOfDate data d <> [] <-> exists row, In row data /\ onDate d row = true.
Proof.
  unfold rowsOfDate. split.
  - destruct (filter (onDate d) data) as [|r l] eqn:E; [congruence|].
    intros _. exists r. apply filter_In. rewrite E. now left.
  - intros (r & Hr & Hd) E.
    assert (H : In r (filter (onDate d) data)) by (apply filter_In; auto).
    rewrite E in H. contradiction.
Qed.

(** X14.  The dates [processFile] offers for selection are pairwise
    distinct and strictly ascending in code-unit order, and a date is
    offered exactly when at least one row of the file has it: every offered
    date selects a non-empty partition, and no dated row is left without
    its date being offered. *)
Theorem available_dates_sorted_and_exact : forall data : list CsvRow,
  NoDup (availableDatesOf data)
  /\ StronglySorted (fun a b => JsString.ltb a b = true) (availableDatesOf data)
  /\ (forall d, In d (availableDatesOf data) <-> rowsOfDate data d <> []).
Proof.
  intros data. unfold availableDatesOf.
  assert (Hnd : NoDup (fold_left collectDate data []))
    by (apply collectDate_NoDup; constructor).
  destruct (fold_insertAsc Hnd) as [Hp Hs].
  split; [apply (Permutation_NoDup (Permutation_sym Hp) Hnd)|].
  split; [exact Hs|].
  intros d. rewrite rowsOfDate_nonempty. split.
  - intros H. apply (Permutation_in _ Hp) in H.
    apply collectDate_fold in H. destruct H as [[]|H]. exact H.
  - intros H. apply (Permutation_in _ (Permutation_sym Hp)).
    apply collectDate_fold. now right.
Qed.

(** ** The floor of the noise threshold *)

Lemma above_stays_above m5 e5 m e my ey :
  SFcompare (S754_finite false m5 e5) (S754_finite false m e) = Some Lt ->
  ((ey <? e5)%Z || ((ey =? e5)%Z && (my <=? m5)%positive))%bool = true ->
  SFltb (S754_finite false m e) (S754_finite false my ey) = false.
Proof.
  unfold SFltb. simpl.
  change (Pos.compare_cont Eq m5 m) with (Pos.compare m5 m).
  change (Pos.compare_cont Eq m my) with (Pos.compare m my).
  intros C H.
  apply orb_true_iff in H.
  destruct (Z.compare_spec e5 e) as [E|E|E]; try discriminate.
  - subst e. destruct (Pos.compare_spec m5 m) as [P|P|P]; try discriminate.
    destruct H as [H|H].
    + apply Z.ltb_lt in H.
      destruct (Z.compare_spec e5 ey); first [lia | reflexivity].
    + apply andb_prop in H. destruct H as [H1 H2].
      apply Z.eqb_eq in H1. apply Pos.leb_le in H2. subst ey.
      rewrite Z.compare_refl.
      destruct (Pos.compare_spec m my); first [lia | reflexivity].
  - assert (ey <= e5)%Z.
    { destruct H as [H|H]; [apply Z.ltb_lt in H; lia|].
      apply andb_prop in H. destruct H as [H1 _]. apply Z.eqb_eq in H1. lia. }
    destruct (Z.compare_spec e ey); first [lia | reflexivity].
Qed.

Lemma above_five_not_below_small x c :
  c <= 5 ->
  SFcompare (Number.ofZ 5) x = Some Lt ->
  Number.ltb x (Number.ofNat c) = false.
Proof.
  intros Hc.
  change (Number.ofZ 5) with (S754_finite false 5629499534213120 (-50)).
  destruct x as [s|s| |s m e]; simpl; try discriminate.
  - destruct s; [discriminate|]. intros _.
    unfold Number.ltb, SFltb.
    destruct (Number.ofNat c) as [| [|] | |]; reflexivity.
  - destruct s; [discriminate|]. intros C.
    assert (C' : SFcompare (S754_finite false 5629499534213120 (-50))
                           (S754_finite false m e) = Some Lt) by exact C.
    unfold Number.ltb.
    do 6 (destruct c as [|c];
          [ let y := fresh "y" in
            set (y := Number.ofNat _); vm_compute in y; subst y;
            first [ reflexivity
                  | eapply above_stays_above; [exact C' | reflexivity] ] | ]).
    lia.
Qed.

Lemma low_volume_not_above_threshold maxVolume c :
  c <= 5 -> Number.ltb (noiseThreshold maxVolume) (Number.ofNat c) = false.
Proof.
  intros Hc. unfold noiseThreshold, Number.max.
  set (x := Number.mul (Number.ofNat maxVolume) (Number.dec 5 3)).
  destruct (SFcompare (Number.ofZ 5) x) as [[| |]|] eqn:C.
  - change (Number.ofZ 5) with (S754_finite false 5629499534213120 (-50)).
    do 6 (destruct c as [|c]; [reflexivity|]). lia.
  - now apply above_five_not_below_small.
  - do 6 (destruct c as [|c]; [reflexivity|]). lia.
  - reflexivity.
Qed.

(** X15.  Once the noise filter is active (more than one date and more
    than 100 rows on the busiest one), every retained date has more than 5
    rows: a date with at most 5 rows is always dropped, however large the
    other dates are. *)
Theorem retained_dates_have_more_than_five_rows :
  forall (rawData : list CsvRow) (availableDates : list jsstr),
    1 < List.length availableDates ->
    100 < maxVolumeOf rawData availableDates ->
    Forall (fun d => 5 < dailyCount rawData d)
           (retainedDates rawData availableDates).
Proof.
  intros rawData availableDates Hlen Hmax.
  unfold retainedDates.
  apply Nat.ltb_lt in Hlen. rewrite Hlen.
  fold (dailyCount rawData). fold (maxVolumeOf rawData availableDates).
  apply Nat.ltb_lt in Hmax. rewrite Hmax.
  rewrite (filter_by_index (dailyCount rawData)
             (fun c => Number.ltb
                         (noiseThreshold (maxVolumeOf rawData availableDates))
                         (Number.ofNat c))).
  apply Forall_forall. intros d Hd. apply filter_In in Hd.
  destruct Hd as [_ Hd].
  destruct (le_lt_dec (dailyCount rawData d) 5) as [Hle|Hgt]; auto.
  rewrite (low_volume_not_above_threshold _ Hle) in Hd. discriminate.
Qed.

Lemma retained_floor_witness :
  Forall (fun d => 5 < dailyCount noisyData d)
         (retainedDates noisyData (availableDatesOf noisyData)).
Proof.
  apply (@retained_dates_have_more_than_five_rows noisyData
           (availableDatesOf noisyData)).
  - vm_compute. lia.
  - vm_compute. lia.
Defined.

(** * Properties of the date extractor *)

Lemma digits12_shape s g r :
  digits12 s = Some (g, r) ->
  (exists a, g = [a] /\ isDigit a = true)
  \/ (exists a b, g = [a; b] /\ isDigit a = true /\ isDigit b = true).
Proof.
  unfold digits12.
  destruct s as [|a [|b s]].
  - discriminate.
  - destruct (isDigit a) eqn:Ea; [|discriminate].
    intros [= <- <-]. left. eauto.
  - destruct (isDigit a) eqn:Ea; [|discriminate].
    destruct (isDigit b) eqn:Eb; intros [= <- <-]; [right|left]; eauto.
Qed.

Lemma matchDateAt_shape s y mo dd :
  matchDateAt s = Some (y, mo, dd) ->
  isCanonicalDate
    (y ++ JsString.lit "-" ++ JsString.padStart2 mo
       ++ JsString.lit "-" ++ JsString.padStart2 dd) = true.
Proof.
  unfold matchDateAt.
  destruct s as [|y1 [|y2 [|y3 [|y4 [|sep r]]]]]; try discriminate.
  destruct (isDigit y1) eqn:E1; [|discriminate].
  destruct (isDigit y2) eqn:E2; [|discriminate].
  destruct (isDigit y3) eqn:E3; [|discriminate].
  destruct (isDigit y4) eqn:E4; [|discriminate].
  destruct (isYearSep sep); [|discriminate]. simpl.
  destruct (digits12 r) as [[g [|sep2 r2]]|] eqn:Dm; try discriminate.
  destruct (isMonthSep sep2); [|discriminate].
  destruct (digits12 r2) as [[g2 r3]|] eqn:Dd; [|discriminate].
  intros [= <- <- <-].
  destruct (digits12_shape _ Dm) as [(a & -> & Ha)|(a & b & -> & Ha & Hb)];
    destruct (digits12_shape _ Dd) as [(c & -> & Hc)|(c & d & -> & Hc & Hd)];
    simpl; rewrite E1, E2, E3, E4, ?Ha, ?Hb, ?Hc, ?Hd; reflexivity.
Qed.

Lemma matchDate_found s g :
  matchDate s = Some g -> exists pre t, s = pre ++ t /\ matchDateAt t = Some g.
Proof.
  induction s as [|c s IH].
  - discriminate.
  - change (matchDate (c :: s))
      with (match matchDateAt (c :: s) with
            | Some g' => Some g'
            | None => matchDate s
            end).
    destruct (matchDateAt (c :: s)) eqn:E.
    + intros [= <-]. exists [], (c :: s). auto.
    + intros H. destruct (IH H) as (pre & t & -> & Ht).
      exists (c :: pre), t. auto.
Qed.

Lemma extractDate_canonical_fixed d :
  isCanonicalDate d = true -> extractDate (Some d) = Some d.
Proof.
  unfold isCanonicalDate.
  destruct d as [|y1 [|y2 [|y3 [|y4 [|h1 [|m1 [|m2 [|h2 [|d1 [|d2 [|x d]]]]]]]]]]];
    try discriminate.
  intros H.
  destruct (isDigit y1) eqn:E1; [|discriminate].
  destruct (isDigit y2) eqn:E2; [|discriminate].
  destruct (isDigit y3) eqn:E3; [|discriminate].
  destruct (isDigit y4) eqn:E4; [|discriminate].
  destruct (N.eqb_spec h1 45) as [->|]; [|discriminate].
  destruct (isDigit m1) eqn:E5; [|discriminate].
  destruct (isDigit m2) eqn:E6; [|discriminate].
  destruct (N.eqb_spec h2 45) as [->|]; [|discriminate].
  destruct (isDigit d1) eqn:E7; [|discriminate].
  destruct (isDigit d2) eqn:E8; [|discriminate].
  unfold extractDate. cbn [truthy negb].
  unfold matchDate, matchDateAt, digits12.
  rewrite E1, E2, E3, E4, E5, E6, E7, E8.
  reflexivity.
Qed.

(** X16.  A date key returned by [extractDate] always has the form
    [YYYY-MM-DD], ten code units with digits around two hyphens, and
    [extractDate] returns every such key unchanged: extracting a date from
    an extracted date changes nothing. *)
Theorem extractDate_canonical :
  (forall (dateStr : option jsstr) (d : jsstr),
      extractDate dateStr = Some d ->
      isCanonicalDate d = true /\ extractDate (Some d) = Some d)
  /\ (forall d : jsstr,
        isCanonicalDate d = true -> extractDate (Some d) = Some d).
Proof.
  split; [|exact extractDate_canonical_fixed].
  intros dateStr d H.
  assert (Hc : isCanonicalDate d = true).
  { unfold extractDate in H.
    destruct (negb (truthy dateStr)); [discriminate|].
    destruct dateStr as [s|]; [|discriminate].
    destruct (matchDate s) as [[[y mo] dd]|] eqn:E; [|discriminate].
    injection H as <-.
    destruct (matchDate_found _ E) as (pre & t & _ & Ht).
    apply (matchDateAt_shape _ Ht). }
  split; [exact Hc|now apply extractDate_canonical_fixed].
Qed.

Lemma extractDate_canonical_witness :
  isCanonicalDate (js "2024-03-01") = true
  /\ extractDate (Some (js "2024-03-01")) = Some (js "2024-03-01").
Proof.
  apply (proj1 extractDate_canonical (Some (js "入审 2024年3月1日 08:00"))).
  reflexivity.
Defined.

Lemma digits12_length s g r :
  digits12 s = Some (g, r) ->
  List.length s = List.length g + List.length r /\ 1 <= List.length g.
Proof.
  unfold digits12.
  destruct s as [|a [|b s]]; try discriminate.
  - destruct (isDigit a); [|discriminate]. intros [= <- <-]. simpl. lia.
  - destruct (isDigit a); [|discriminate].
    destruct (isDigit b); intros [= <- <-]; simpl; lia.
Qed.

Lemma matchDateAt_needs s g :
  matchDateAt s = Some g ->
  8 <= List.length s /\ existsb isYearSep s = true.
Proof.
  unfold matchDateAt.
  destruct s as [|y1 [|y2 [|y3 [|y4 [|sep r]]]]]; try discriminate.
  destruct (isDigit y1 && isDigit y2 && isDigit y3 && isDigit y4 && isYearSep sep)
    eqn:E; [|discriminate].
  apply andb_prop in E. destruct E as [_ Esep].
  destruct (digits12 r) as [[mo [|sep2 r2]]|] eqn:Dm; try discriminate.
  destruct (isMonthSep sep2); [|discriminate].
  destruct (digits12 r2) as [[dd r3]|] eqn:Dd; [|discriminate].
  intros _.
  apply digits12_length in Dm, Dd. simpl in *. split; [lia|].
  rewrite Esep. now rewrite !orb_true_r.
Qed.

(** X17.  [extractDate] returns nothing for a missing value, for the empty
    string, for every string of fewer than 8 code units, and for every
    string that has none of the separators [.], [-], [/] and [年]; so a
    compact date such as [20240301] is not recognised. *)
Theorem extractDate_rejects :
  extractDate None = None
  /\ extractDate (Some []) = None
  /\ (forall s : jsstr, List.length s < 8 -> extractDate (Some s) = None)
  /\ (forall s : jsstr, existsb isYearSep s = false -> extractDate (Some s) = None).
Proof.
  split; [reflexivity|]. split; [reflexivity|].
  assert (H : forall s,
             List.length s < 8 \/ existsb isYearSep s = false ->
             matchDate s = None).
  { intros s Hs. destruct (matchDate s) as [g|] eqn:E; auto.
    destruct (matchDate_found _ E) as (pre & t & -> & Ht).
    apply matchDateAt_needs in Ht. destruct Ht as [Hlen Hsep].
    rewrite length_app, existsb_app, Hsep, orb_true_r in Hs.
    destruct Hs as [Hs|Hs]; [lia|discriminate]. }
  split; intros s Hs; unfold extractDate;
    destruct (negb (truthy (Some s))); auto;
    rewrite H by tauto; reflexivity.
Qed.

Lemma extractDate_rejects_witness :
  extractDate (Some (js "2024-3-")) = None
  /\ extractDate (Some (js "20240301 08:00:00")) = None.
Proof.
  destruct extractDate_rejects as (_ & _ & Hshort & Hsep).
  split.
  - apply Hshort. vm_compute. lia.
  - apply Hsep. reflexivity.
Defined.

Lemma monthSep_not_digit c : isMonthSep c = true -> isDigit c = false.
Proof.
  unfold isMonthSep, isDigit. intros H.
  repeat (apply orb_true_iff in H; destruct H as [H|H]);
    apply N.eqb_eq in H; subst; reflexivity.
Qed.

Lemma digits12_group g r :
  forallb isDigit g = true ->
  (List.length g = 1 \/ List.length g = 2) ->
  (List.length g = 2 \/ noLeadingDigit r = true) ->
  digits12 (g ++ r) = Some (g, r).
Proof.
  intros Hd Hlen Hr.
  destruct g as [|a [|b [|c g]]]; simpl in Hlen; try lia.
  - simpl in Hd. rewrite andb_true_r in Hd.
    destruct Hr as [Hr|Hr]; [simpl in Hr; lia|].
    unfold digits12. simpl. rewrite Hd.
    destruct r as [|c r]; auto.
    simpl in Hr. apply negb_true_iff in Hr. now rewrite Hr.
  - simpl in Hd. rewrite andb_true_r in Hd.
    apply andb_prop in Hd. destruct Hd as [Ha Hb].
    unfold digits12. simpl. now rewrite Ha, Hb.
Qed.

(** X18.  A string that begins with a four-digit year, one of the
    separators [.], [-], [/], [年], a month of one or two digits, one of
    the separators [.], [-], [/], [月] and a day of one or two digits
    yields the key [YYYY-MM-DD] with month and day padded to two digits,
    whatever follows, provided the day has two digits or is not followed by
    a further digit.  The two separators need not be of the same kind. *)
Theorem extractDate_accepts :
  forall (y mo dd rest : jsstr) (sep1 sep2 : N),
    forallb isDigit y = true -> List.length y = 4 ->
    forallb isDigit mo = true ->
    (List.length mo = 1 \/ List.length mo = 2) ->
    forallb isDigit dd = true ->
    (List.length dd = 1 \/ List.length dd = 2) ->
    isYearSep sep1 = true -> isMonthSep sep2 = true ->
    (List.length dd = 2 \/ noLeadingDigit rest = true) ->
    extractDate (Some (y ++ sep1 :: mo ++ sep2 :: dd ++ rest))
    = Some (y ++ JsString.lit "-" ++ JsString.padStart2 mo
              ++ JsString.lit "-" ++ JsString.padStart2 dd).
Proof.
  intros y mo dd rest sep1 sep2 Hy Hly Hmo Hlmo Hdd Hldd Hs1 Hs2 Hrest.
  destruct y as [|y1 [|y2 [|y3 [|y4 [|y5 y]]]]]; simpl in Hly; try lia.
  simpl in Hy. rewrite andb_true_r in Hy.
  apply andb_prop in Hy. destruct Hy as [Hy1 Hy].
  apply andb_prop in Hy. destruct Hy as [Hy2 Hy].
  apply andb_prop in Hy. destruct Hy as [Hy3 Hy4].
  assert (Hm : digits12 (mo ++ sep2 :: dd ++ rest)
               = Some (mo, sep2 :: dd ++ rest)).
  { apply digits12_group; auto. right. simpl.
    now rewrite (monthSep_not_digit _ Hs2). }
  assert (Hd : digits12 (dd ++ rest) = Some (dd, rest))
    by now apply digits12_group.
  unfold extractDate. cbn [truthy app negb].
  change (matchDate (y1 :: y2 :: y3 :: y4 :: sep1 :: mo ++ sep2 :: dd ++ rest))
    with (match matchDateAt
                  (y1 :: y2 :: y3 :: y4 :: sep1 :: mo ++ sep2 :: dd ++ rest) with
          | Some g' => Some g'
          | None => matchDate (y2 :: y3 :: y4 :: sep1 :: mo ++ sep2 :: dd ++ rest)
          end).
  unfold matchDateAt. rewrite Hy1, Hy2, Hy3, Hy4, Hs1. cbn [andb].
  rewrite Hm, Hs2, Hd. reflexivity.
Qed.

Lemma extractDate_accepts_witness :
  extractDate (Some (js "2024" ++ 24180%N :: js "3" ++ 47%N :: js "1" ++ js "日"))
  = Some (js "2024" ++ JsString.lit "-" ++ JsString.padStart2 (js "3")
             ++ JsString.lit "-" ++ JsString.padStart2 (js "1")).
Proof.
  apply (@extractDate_accepts (js "2024") (js "3") (js "1") (js "日")
           24180%N 47%N); try reflexivity.
  - left. reflexivity.
  - left. reflexivity.
  - right. reflexivity.
Defined.

(** * Properties of the single-day application *)

Lemma single_counts rows : forall c,
  fold_left Baseline.countRow rows c
  = (fst (fst c) + List.length (filter isMachineReject rows),
     snd (fst c) + List.length (filter isHumanSent rows),
     snd c + List.length (filter isHumanViolation rows)).
Proof.
  induction rows as [|row rows IH]; intros [[a b] c]; simpl.
  - f_equal; [f_equal|]; lia.
  - rewrite IH. simpl.
    destruct (isMachineReject row), (isHumanSent row), (isHumanViolation row);
      simpl; f_equal; try f_equal; lia.
Qed.

Lemma single_fold_counts rows : forall st,
  SingleDay.st_counts (fold_left SingleDay.analyzeRow rows st)
  = fold_left Baseline.countRow rows (SingleDay.st_counts st).
Proof.
  induction rows as [|row rows IH]; intros st; simpl; [reflexivity|].
  now rewrite IH.
Qed.

(** X19.  The single-day application shows no report exactly when no date
    is selected or the file has no rows.  Otherwise its row, machine-reject,
    recall and violation counts are those [analyzeRows] gives for the same
    rows, while its black-sample total is [recallCount +
    humanViolationCount]: it exceeds the total of [analyzeRows] by the
    recalled rows and falls short of it by the machine-rejected ones. *)
Theorem single_day_counts_and_black_sample :
  (forall rawData, SingleDay.report rawData [] = None)
  /\ (forall selectedDate, SingleDay.report [] selectedDate = None)
  /\ (forall (row : CsvRow) (rows : list CsvRow) (c : N) (sel : jsstr),
        let dailyData := filter (SingleDay.onDate (c :: sel)) (row :: rows) in
        let b := basic (analyzeRows dailyData) in
        exists r,
          SingleDay.report (row :: rows) (c :: sel) = Some r
          /\ SingleDay.date r = c :: sel
          /\ SingleDay.totalRows r = totalRows b
          /\ SingleDay.machineRejectCount r = machineRejectCount b
          /\ SingleDay.recallCount r = recallCount b
          /\ SingleDay.humanViolationCount r = humanViolationCount b
          /\ SingleDay.blackSampleTotal r
             = SingleDay.recallCount r + SingleDay.humanViolationCount r
          /\ SingleDay.blackSampleTotal r + machineRejectCount b
             = blackSampleTotal b + recallCount b).
Proof.
  split; [intros [|r l]; reflexivity|].
  split; [intros [|c l]; reflexivity|].
  intros row rows c sel dailyData b. subst b.
  unfold SingleDay.report. fold dailyData.
  rewrite single_fold_counts, single_counts. cbn [SingleDay.initialState
    SingleDay.st_counts fst snd Nat.add].
  eexists. split; [reflexivity|].
  rewrite analyzeRows_basic. cbn. repeat split. lia.
Qed.





(** ** The two date extractors *)

Lemma isDateSep_year c : SingleDay.isDateSep c = true -> isYearSep c = true.
Proof.
  unfold SingleDay.isDateSep, isYearSep. intros H.
  apply orb_true_iff in H. destruct H as [-> | ->];
    rewrite ?orb_true_r; reflexivity.
Qed.

Lemma isDateSep_month c : SingleDay.isDateSep c = true -> isMonthSep c = true.
Proof.
  unfold SingleDay.isDateSep, isMonthSep. intros H.
  apply orb_true_iff in H. destruct H as [-> | ->];
    rewrite ?orb_true_r; reflexivity.
Qed.

Lemma single_matchDateAt_incl s g :
  SingleDay.matchDateAt s = Some g -> matchDateAt s = Some g.
Proof.
  destruct s as [|y1 [|y2 [|y3 [|y4 [|sep r]]]]]; try discriminate.
  unfold SingleDay.matchDateAt, matchDateAt.
  destruct (isDigit y1 && isDigit y2 && isDigit y3 && isDigit y4) eqn:D;
    cbn [andb]; [|discriminate].
  destruct (SingleDay.isDateSep sep) eqn:S1; [|discriminate].
  rewrite (isDateSep_year _ S1).
  destruct (digits12 r) as [[mo [|sep2 r2]]|]; try discriminate.
  destruct (SingleDay.isDateSep sep2) eqn:S2; [|discriminate].
  rewrite (isDateSep_month _ S2). auto.
Qed.

Lemma single_matchDate_unfold c s :
  SingleDay.matchDate (c :: s)
  = match SingleDay.matchDateAt (c :: s) with
    | Some g => Some g
    | None => SingleDay.matchDate s
    end.
Proof. reflexivity. Qed.

Lemma matchDate_unfold c s :
  matchDate (c :: s)
  = match matchDateAt (c :: s) with
    | Some g => Some g
    | None => matchDate s
    end.
Proof. reflexivity. Qed.

Lemma single_matchDate_incl s :
  SingleDay.matchDate s <> None -> matchDate s <> None.
Proof.
  induction s as [|c s IH]; [intros H; exact H|].
  rewrite single_matchDate_unfold, matchDate_unfold.
  destruct (matchDateAt (c :: s)) as [g|] eqn:E; [discriminate|].
  destruct (SingleDay.matchDateAt (c :: s)) as [g|] eqn:E'.
  - apply single_matchDateAt_incl in E'. congruence.
  - exact IH.
Qed.

Lemma plain_matchDateAt s :
  forallb plainDateChar s = true ->
  SingleDay.matchDateAt s = matchDateAt s.
Proof.
  destruct s as [|y1 [|y2 [|y3 [|y4 [|sep r]]]]]; try reflexivity.
  intros H. cbn [forallb] in H.
  do 4 (apply andb_prop in H; destruct H as [_ H]).
  apply andb_prop in H. destruct H as [Hsep H].
  unfold SingleDay.matchDateAt, matchDateAt.
  assert (E1 : SingleDay.isDateSep sep = isYearSep sep).
  { revert Hsep. unfold plainDateChar, SingleDay.isDateSep, isYearSep.
    destruct (N.eqb_spec sep 46), (N.eqb_spec sep 24180),
             (N.eqb_spec sep 26376), (N.eqb_spec sep 45),
             (N.eqb_spec sep 47); simpl; congruence. }
  rewrite E1.
  destruct (isDigit y1 && isDigit y2 && isDigit y3 && isDigit y4 && isYearSep sep);
    [|reflexivity].
  destruct (digits12 r) as [[mo [|sep2 r2]]|] eqn:D; try reflexivity.
  assert (Hin : forallb plainDateChar (sep2 :: r2) = true).
  { destruct r as [|a [|b r]]; simpl in D.
    - discriminate.
    - destruct (isDigit a); discriminate.
    - cbn [forallb] in H.
      apply andb_prop in H. destruct H as [Ha H].
      apply andb_prop in H. destruct H as [Hb H].
      destruct (isDigit a); [|discriminate].
      destruct (isDigit b).
      + injection D as _ ->. exact H.
      + injection D as _ <- <-. cbn [forallb]. now rewrite Hb, H. }
  cbn [forallb] in Hin. apply andb_prop in Hin. destruct Hin as [Hs2 _].
  assert (E2 : SingleDay.isDateSep sep2 = isMonthSep sep2).
  { revert Hs2. unfold plainDateChar, SingleDay.isDateSep, isMonthSep.
    destruct (N.eqb_spec sep2 46), (N.eqb_spec sep2 24180),
             (N.eqb_spec sep2 26376), (N.eqb_spec sep2 45),
             (N.eqb_spec sep2 47); simpl; congruence. }
  now rewrite E2.
Qed.

Lemma plain_matchDate s :
  forallb plainDateChar s = true -> SingleDay.matchDate s = matchDate s.
Proof.
  induction s as [|c s IH]; [reflexivity|].
  intros H. rewrite single_matchDate_unfold, matchDate_unfold.
  rewrite (plain_matchDateAt _ H).
  cbn [forallb] in H. apply andb_prop in H. destruct H as [_ H].
  now rewrite IH.
Qed.

(** X21.  The date extractor of the single-day application knows only the
    separators [/] and [-]: on a value without [.], [年] and [月] the two
    extractors return the same result; on any value, whenever the
    single-day extractor finds a date the weekly one finds one too; and the
    converse fails, a dotted date being read by the weekly extractor
    only. *)
Theorem extractors_agree_without_dots :
  (forall s : jsstr,
      forallb plainDateChar s = true ->
      SingleDay.extractDate (Some s) = extractDate (Some s))
  /\ (forall (dateStr : option jsstr) (d : jsstr),
         SingleDay.extractDate dateStr = Some d ->
         exists d', extractDate dateStr = Some d')
  /\ (SingleDay.extractDate (Some (JsString.lit "2024.3.1")) = None
      /\ extractDate (Some (JsString.lit "2024.3.1"))
         = Some (JsString.lit "2024-03-01")).
Proof.
  split; [|split].
  - intros s H. unfold SingleDay.extractDate, extractDate.
    now rewrite (plain_matchDate _ H).
  - intros dateStr d. unfold SingleDay.extractDate, extractDate.
    destruct (negb (truthy dateStr)); [discriminate|].
    destruct dateStr as [s|]; [|discriminate].
    pose proof (single_matchDate_incl s) as Hi.
    destruct (SingleDay.matchDate s) as [[[y mo] dd]|]; [|discriminate].
    intros _.
    destruct (matchDate s) as [[[y' mo'] dd']|].
    + eexists. reflexivity.
    + exfalso. apply Hi; [discriminate|reflexivity].
  - split; vm_compute; reflexivity.
Qed.

Lemma extractors_agree_witness :
  forallb plainDateChar (JsString.lit "2024/3/1 10:00") = true
  /\ SingleDay.extractDate (Some (JsString.lit "2024/3/1 10:00"))
     = extractDate (Some (JsString.lit "2024/3/1 10:00")).
Proof.
  split; [reflexivity|].
  apply (proj1 extractors_agree_without_dots). reflexivity.
Defined.

(** ** The date selected after loading a file *)

Lemma StronglySorted_snoc {A : Type} (R : A -> A -> Prop) l x :
  StronglySorted R l -> Forall (fun y => R y x) l ->
  StronglySorted R (l ++ [x]).
Proof.
  induction 1 as [|y l Hs IH Hy]; intros Hx; simpl.
  - repeat constructor.
  - inversion Hx as [|? ? Hyx Hl]; subst.
    constructor; [now apply IH|].
    apply Forall_app. split; [exact Hy|now constructor].
Qed.

Lemma StronglySorted_rev {A : Type} (R : A -> A -> Prop) l :
  StronglySorted R l -> StronglySorted (fun a b => R b a) (rev l).
Proof.
  induction 1 as [|x l Hs IH Hx]; simpl; [constructor|].
  apply StronglySorted_snoc; [exact IH|].
  apply Forall_rev. exact Hx.
Qed.

Lemma single_onDate_iff d r :
  SingleDay.onDate d r = true
  <-> SingleDay.extractDate (lookup r SingleDay.COL_TIME) = Some d.
Proof.
  unfold SingleDay.onDate, isStr.
  destruct (SingleDay.extractDate (lookup r SingleDay.COL_TIME)) as [s|].
  - rewrite str_eqb_eq. split; congruence.
  - split; discriminate.
Qed.

Lemma single_extractDate_nonempty x d :
  SingleDay.extractDate x = Some d -> d <> [].
Proof.
  unfold SingleDay.extractDate.
  destruct (negb (truthy x)); [discriminate|].
  destruct x as [s|]; [|discriminate].
  destruct (SingleDay.matchDate s) as [[[y mo] dd]|]; [|discriminate].
  intros [= <-] E.
  apply (f_equal (@List.length N)) in E.
  rewrite !length_app in E.
  simpl in E. lia.
Qed.

Lemma single_dates data :
  let dates := SingleDay.availableDatesOf data in
  StronglySorted (fun a b => JsString.ltb b a = true) dates
  /\ (forall d, In d dates
                <-> exists row, In row data /\ SingleDay.onDate d row = true).
Proof.
  cbv zeta. unfold SingleDay.availableDatesOf.
  assert (Hnd : NoDup (fold_left SingleDay.collectDate data [])).
  { apply (collect_NoDup
             (fun row => SingleDay.extractDate (lookup row SingleDay.COL_TIME))).
    constructor. }
  destruct (fold_insertAsc Hnd) as [Hp Hs].
  split; [apply (StronglySorted_rev Hs)|].
  intros d. rewrite <- in_rev. split.
  - intros H. apply (Permutation_in _ Hp) in H.
    apply (collect_fold
             (fun row => SingleDay.extractDate (lookup row SingleDay.COL_TIME)))
      in H.
    destruct H as [[]|(r & Hr & Hd)]. exists r. split; auto.
    now apply single_onDate_iff.
  - intros (r & Hr & Hd).
    apply (Permutation_in _ (Permutation_sym Hp)).
    apply (collect_fold
             (fun row => SingleDay.extractDate (lookup row SingleDay.COL_TIME))).
    right. exists r. split; auto. now apply single_onDate_iff.
Qed.

(** X22.  Loading a file into the single-day application: an empty file
    only sets an error and keeps the data, dates and selection of before.
    A file with rows replaces the data; its dates are listed in strictly
    descending code-unit order, a date being listed exactly when some row
    has it.  When some row has a date, the greatest date is selected and
    its report exists and counts at least one row.  When no row has a date
    the previous selection is kept: for a newly chosen file no report is
    shown, and for a file processed again an earlier selected date gives a
    report of zero rows. *)
Theorem single_day_selection_after_load :
  forall (st : SingleDay.AppState) (data : list CsvRow),
    let st' := SingleDay.processFile st data in
    (data = [] ->
       SingleDay.app_rawData st' = SingleDay.app_rawData st
       /\ SingleDay.app_availableDates st' = SingleDay.app_availableDates st
       /\ SingleDay.app_selectedDate st' = SingleDay.app_selectedDate st
       /\ SingleDay.app_error st' = Some SingleDay.ERR_EMPTY)
    /\ (data <> [] ->
          SingleDay.app_rawData st' = data
          /\ StronglySorted (fun a b => JsString.ltb b a = true)
                            (SingleDay.app_availableDates st')
          /\ (forall d, In d (SingleDay.app_availableDates st')
                        <-> exists row, In row data
                                        /\ SingleDay.onDate d row = true))
    /\ (forall row d,
          In row data ->
          SingleDay.extractDate (lookup row SingleDay.COL_TIME) = Some d ->
          (d = SingleDay.app_selectedDate st'
           \/ JsString.ltb d (SingleDay.app_selectedDate st') = true)
          /\ In (SingleDay.app_selectedDate st') (SingleDay.app_availableDates st')
          /\ exists r, SingleDay.shownReport st' = Some r
                       /\ SingleDay.date r = SingleDay.app_selectedDate st'
                       /\ 1 <= SingleDay.totalRows r)
    /\ (data <> [] ->
        (forall row, In row data ->
           SingleDay.extractDate (lookup row SingleDay.COL_TIME) = None) ->
        SingleDay.app_availableDates st' = []
        /\ SingleDay.app_selectedDate st' = SingleDay.app_selectedDate st
        /\ (SingleDay.app_selectedDate st = [] ->
            SingleDay.shownReport st' = None)
        /\ (SingleDay.app_selectedDate st <> [] ->
            exists r, SingleDay.shownReport st' = Some r
                      /\ SingleDay.totalRows r = 0)).
Proof.
  intros st data st'.
  destruct (single_dates data) as [Hs Hin].
  split; [intros ->; repeat split|].
  split.
  { intros Hne. destruct data as [|r0 rows]; [congruence|].
    repeat split; try exact Hs; apply Hin. }
  split.
  - intros row d Hrow Hd.
    destruct data as [|r1 rows]; [contradiction|].
    set (data := r1 :: rows) in *.
    set (dates := SingleDay.availableDatesOf data) in *.
    set (sel := SingleDay.app_selectedDate st').
    assert (Ed : SingleDay.app_availableDates st' = dates) by reflexivity.
    rewrite Ed.
    assert (Hdin : In d dates).
    { apply Hin. exists row. split; auto. now apply single_onDate_iff. }
    assert (Hsel : exists l, dates = sel :: l).
    { subst sel st'. cbn [SingleDay.processFile SingleDay.app_selectedDate].
      unfold data. cbn [SingleDay.processFile SingleDay.app_selectedDate].
      fold data. fold dates.
      destruct dates as [|d0 l]; [contradiction|]. now exists l. }
    destruct Hsel as (l & El). rewrite El in Hs, Hdin.
    assert (Hselin : In sel dates) by (rewrite El; now left).
    split.
    { destruct Hdin as [->|Hl]; [now left|]. right.
      inversion Hs as [|? ? _ Hall]; subst.
      rewrite Forall_forall in Hall. now apply Hall. }
    split; [exact Hselin|].
    destruct (proj1 (Hin sel) Hselin) as (r0 & Hr0 & Hd0).
    assert (Hne : sel <> []).
    { apply single_onDate_iff in Hd0.
      now apply (single_extractDate_nonempty _ Hd0). }
    assert (Hlen : 1 <= List.length (filter (SingleDay.onDate sel) data)).
    { assert (Hf : In r0 (filter (SingleDay.onDate sel) data))
        by (apply filter_In; auto).
      destruct (filter (SingleDay.onDate sel) data); [contradiction|].
      simpl. lia. }
    unfold SingleDay.shownReport. fold sel.
    change (SingleDay.app_rawData st') with data.
    clearbody sel. clear El Hs Hdin Hselin.
    destruct sel as [|c s]; [congruence|].
    unfold data, SingleDay.report. fold data.
    destruct (SingleDay.st_counts _) as [[a b] e].
    eexists. split; [reflexivity|]. split; [reflexivity|]. exact Hlen.
  - intros Hne Hnone.
    destruct data as [|r1 rows]; [congruence|].
    set (data := r1 :: rows) in *.
    set (dates := SingleDay.availableDatesOf data) in *.
    assert (E : dates = []).
    { destruct dates as [|d l] eqn:Ed; [reflexivity|].
      destruct (proj1 (Hin d) (or_introl eq_refl)) as (r & Hr & Hd).
      apply single_onDate_iff in Hd. rewrite (Hnone r Hr) in Hd. discriminate. }
    assert (Ea : SingleDay.app_availableDates st' = dates) by reflexivity.
    assert (Es : SingleDay.app_selectedDate st' = SingleDay.app_selectedDate st).
    { subst st'. unfold data.
      cbn [SingleDay.processFile SingleDay.app_selectedDate].
      fold data. fold dates. now rewrite E. }
    split; [now rewrite Ea|]. split; [exact Es|].
    unfold SingleDay.shownReport. rewrite Es.
    change (SingleDay.app_rawData st') with data.
    split.
    + intros ->. reflexivity.
    + intros Hsel. destruct (SingleDay.app_selectedDate st) as [|c s] eqn:Ec;
        [congruence|].
      unfold data, SingleDay.report. fold data.
      destruct (SingleDay.st_counts _) as [[a b] e].
      eexists. split; [reflexivity|].
      cbn [SingleDay.totalRows].
      assert (Hf : filter (SingleDay.onDate (c :: s)) data = []).
      { destruct (filter (SingleDay.onDate (c :: s)) data) as [|r l] eqn:Ef;
          [reflexivity|].
        assert (Hr : In r (filter (SingleDay.onDate (c :: s)) data))
          by (rewrite Ef; now left).
        apply filter_In in Hr. destruct Hr as [Hr Hd].
        apply single_onDate_iff in Hd. rewrite (Hnone r Hr) in Hd.
        discriminate. }
      now rewrite Hf.
Qed.

Lemma single_day_selection_witness :
  exists r,
    SingleDay.shownReport
      (SingleDay.processFile SingleDay.handleFileChange
         [[(JsString.lit "入审时间", JsString.lit "2024/3/1 10:00")];
          [(JsString.lit "入审时间", JsString.lit "2024-03-02 09:00")]])
    = Some r
    /\ SingleDay.date r
       = SingleDay.app_selectedDate
           (SingleDay.processFile SingleDay.handleFileChange
              [[(JsString.lit "入审时间", JsString.lit "2024/3/1 10:00")];
               [(JsString.lit "入审时间", JsString.lit "2024-03-02 09:00")]])
    /\ 1 <= SingleDay.totalRows r.
Proof.
  apply (proj1 (proj2 (proj2 (single_day_selection_after_load
           SingleDay.handleFileChange
           [[(JsString.lit "入审时间", JsString.lit "2024/3/1 10:00")];
            [(JsString.lit "入审时间", JsString.lit "2024-03-02 09:00")]])))
           [(JsString.lit "入审时间", JsString.lit "2024/3/1 10:00")]
           (JsString.lit "2024-03-01")).
  - simpl. auto.
  - vm_compute. reflexivity.
Defined.

(** ** The tags of the single-day application *)

Lemma single_countToken_fold tokens : forall m,
  fold_left Baseline.countToken tokens m
  = fold_left (fun m t => JsMap.set m t (orZero (JsMap.get m t) + 1))
              (filter (fun tag => negb (Baseline.isInvalidTag tag))
                      (map JsString.trim tokens))
              m.
Proof.
  induction tokens as [|t tokens IH]; intros m; [reflexivity|].
  cbn [fold_left map filter]. rewrite IH. unfold Baseline.countToken at 1.
  destruct (negb (Baseline.isInvalidTag (JsString.trim t))); reflexivity.
Qed.

Lemma single_tagMap_fold rows : forall st,
  SingleDay.st_tagMap (fold_left SingleDay.analyzeRow rows st)
  = fold_left (fun m t => JsMap.set m t (orZero (JsMap.get m t) + 1))
              (flat_map singleDayTags rows) (SingleDay.st_tagMap st).
Proof.
  induction rows as [|row rows IH]; intros st; [reflexivity|].
  cbn [fold_left flat_map]. rewrite IH, fold_left_app. f_equal.
  cbn [SingleDay.analyzeRow SingleDay.st_tagMap].
  unfold Baseline.countRowTags, singleDayTags.
  destruct (isHumanViolation row); [|reflexivity].
  apply single_countToken_fold.
Qed.

Lemma bump_count l t : forall m,
  tagCount (fold_left (fun m t => JsMap.set m t (orZero (JsMap.get m t) + 1)) l m) t
  = tagCount m t + occurrences t l.
Proof.
  unfold occurrences.
  induction l as [|x l IH]; intros m; cbn [fold_left filter]; [simpl; lia|].
  rewrite IH, tagCount_set, orZero_tagCount.
  destruct (JsString.eqb x t) eqn:E.
  - apply str_eqb_eq in E. subst x. rewrite str_eqb_refl. simpl. lia.
  - assert (E' : JsString.eqb t x = false).
    { destruct (JsString.eqb t x) eqn:E2; [|reflexivity].
      apply str_eqb_eq in E2. subst x. now rewrite str_eqb_refl in E. }
    rewrite E'. reflexivity.
Qed.

Lemma bump_NoDup l : forall m : JsMap.t nat,
  NoDup (JsMap.keys m) ->
  NoDup (JsMap.keys
           (fold_left (fun m t => JsMap.set m t (orZero (JsMap.get m t) + 1)) l m)).
Proof.
  induction l as [|x l IH]; intros m H; [exact H|].
  cbn [fold_left]. apply IH. rewrite keys_set. now apply set_add_NoDup.
Qed.

Lemma set_count_sum (m : JsMap.t nat) k v :
  list_sum (map snd (JsMap.set m k v)) + tagCount m k
  = list_sum (map snd m) + v.
Proof.
  unfold tagCount, JsMap.get.
  induction m as [|[k0 v0] m IH]; simpl; [lia|].
  destruct (JsString.eqb k0 k); simpl; lia.
Qed.

Lemma bump_sum l : forall m : JsMap.t nat,
  list_sum (map snd
              (fold_left (fun m t => JsMap.set m t (orZero (JsMap.get m t) + 1)) l m))
  = list_sum (map snd m) + List.length l.
Proof.
  induction l as [|x l IH]; intros m; cbn [fold_left]; [simpl; lia|].
  rewrite IH.
  pose proof (set_count_sum m x (orZero (JsMap.get m x) + 1)) as H.
  rewrite orZero_tagCount in *. simpl. lia.
Qed.

Lemma StronglySorted_firstn {A : Type} (R : A -> A -> Prop) n : forall l,
  StronglySorted R l -> StronglySorted R (firstn n l).
Proof.
  induction n as [|n IH]; intros l H; [constructor|].
  destruct H as [|x l Hs Hx]; [constructor|].
  cbn [firstn]. constructor; [now apply IH|].
  apply Forall_forall. intros y Hy. apply In_firstn in Hy.
  rewrite Forall_forall in Hx. now apply Hx.
Qed.

(** X23.  The tag list of the single-day application counts tokens, not
    rows: the count of a listed tag is the number of times the tag occurs
    among the trimmed ['&&'] tokens of the tag column of the day's
    violation rows that pass the filter, a tag written twice in one row
    counting twice.  The list has at most 15 entries with pairwise
    distinct names in descending order of count, and [totalTagCount], the
    sum of the listed counts, is at most the number of those tokens. *)
Theorem single_day_tags_count_tokens :
  forall (row : CsvRow) (rows : list CsvRow) (c : N) (sel : jsstr),
    let dailyData := filter (SingleDay.onDate (c :: sel)) (row :: rows) in
    let tokens := flat_map singleDayTags dailyData in
    exists r,
      SingleDay.report (row :: rows) (c :: sel) = Some r
      /\ List.length (SingleDay.tagList r) <= 15
      /\ NoDup (map tagName (SingleDay.tagList r))
      /\ StronglySorted (fun a b => count b <= count a) (SingleDay.tagList r)
      /\ Forall (fun t => count t = occurrences (tagName t) tokens
                          /\ 1 <= count t)
                (SingleDay.tagList r)
      /\ SingleDay.totalTagCount r = list_sum (map count (SingleDay.tagList r))
      /\ SingleDay.totalTagCount r <= List.length tokens.
Proof.
  intros row rows c sel dailyData tokens.
  unfold SingleDay.report. fold dailyData.
  destruct (SingleDay.st_counts (fold_left SingleDay.analyzeRow dailyData
                                   SingleDay.initialState)) as [[a b] d].
  eexists. split; [reflexivity|].
  cbn [SingleDay.tagList SingleDay.totalTagCount].
  set (m := SingleDay.st_tagMap
              (fold_left SingleDay.analyzeRow dailyData SingleDay.initialState)).
  assert (Em : m = fold_left (fun m t => JsMap.set m t (orZero (JsMap.get m t) + 1))
                             tokens [])
    by apply single_tagMap_fold.
  change (map (fun e : jsstr * nat => {| tagName := fst e; count := snd e |}) m)
    with (tagEntries m).
  assert (Hnd : NoDup (JsMap.keys m))
    by (rewrite Em; apply bump_NoDup; constructor).
  assert (Hperm : Permutation (sort byCountDesc (tagEntries m)) (tagEntries m))
    by apply (sort_perm count).
  assert (Hin : forall t, In t (firstn 15 (sort byCountDesc (tagEntries m))) ->
                          In (tagName t, count t) m).
  { intros t Ht. apply In_firstn in Ht.
    apply (Permutation_in _ Hperm) in Ht.
    unfold tagEntries in Ht. apply in_map_iff in Ht.
    destruct Ht as ([k n] & <- & Ht). exact Ht. }
  split; [rewrite length_firstn; apply Nat.le_min_l|].
  split.
  { rewrite <- firstn_map. apply NoDup_firstn.
    apply (Permutation_NoDup
             (Permutation_sym (Permutation_map tagName Hperm))).
    now rewrite tagEntries_names. }
  split.
  { apply StronglySorted_firstn. apply (sort_sorted count). }
  assert (Hcount : forall t,
             In t (firstn 15 (sort byCountDesc (tagEntries m))) ->
             count t = occurrences (tagName t) tokens).
  { intros t Ht. apply Hin in Ht.
    apply (@In_get_NoDup _ m _ _ Hnd) in Ht.
    pose proof (bump_count tokens (tagName t) []) as Hb.
    rewrite <- Em in Hb. unfold tagCount at 1 in Hb. rewrite Ht in Hb.
    exact Hb. }
  split.
  { apply Forall_forall. intros t Ht. split; [now apply Hcount|].
    rewrite (Hcount t Ht).
    apply Hin in Ht. rewrite Em in Ht.
    assert (Hk : In (tagName t) tokens).
    { assert (G : forall l (m0 : JsMap.t nat),
                 In (tagName t, count t)
                    (fold_left (fun m t => JsMap.set m t (orZero (JsMap.get m t) + 1))
                               l m0) ->
                 In (tagName t) l \/ In (tagName t) (JsMap.keys m0)).
      { induction l as [|x l IH]; intros m0 H; cbn [fold_left] in H.
        - right. unfold JsMap.keys. apply in_map_iff.
          now exists (tagName t, count t).
        - destruct (IH _ H) as [H1|H1]; [left; now right|].
          rewrite keys_set in H1. apply set_add_In in H1.
          destruct H1 as [H1|H1]; [now right|]. left. left. congruence. }
      destruct (G _ _ Ht) as [H1|[]]. exact H1. }
    unfold occurrences.
    assert (Hf : In (tagName t) (filter (JsString.eqb (tagName t)) tokens))
      by (apply filter_In; split; [exact Hk|apply str_eqb_refl]).
    destruct (filter (JsString.eqb (tagName t)) tokens); [contradiction|].
    simpl. lia. }
  rewrite sumCounts_list_sum. split; [reflexivity|].
  rewrite <- firstn_map.
  etransitivity; [apply list_sum_firstn|].
  rewrite (list_sum_perm (Permutation_map count Hperm)).
  rewrite tagEntries_counts, Em, bump_sum. simpl. lia.
Qed.

(** ** Column headers: [formatDateSimple] *)

Lemma isDigit_cases c : isDigit c = true -> In c digitChars.
Proof.
  unfold isDigit, digitChars. intros H.
  apply andb_prop in H. destruct H as [H1 H2].
  apply N.leb_le in H1, H2.
  apply in_map_iff. exists (N.to_nat c). split; [apply N2Nat.id|].
  apply in_seq. lia.
Qed.

Lemma hyphenSep_digit c s : isDigit c = true -> hyphenSep (c :: s) = 0.
Proof.
  unfold isDigit, hyphenSep. intros H.
  apply andb_prop in H. destruct H as [H1 _]. apply N.leb_le in H1.
  change (JsString.lit "-") with [45%N]. cbn [JsString.startsWith].
  destruct (N.eqb_spec 45 c) as [<-|]; [lia|reflexivity].
Qed.

Lemma hyphenSep_other c s : c <> 45%N -> hyphenSep (c :: s) = 0.
Proof.
  unfold hyphenSep. intros H.
  change (JsString.lit "-") with [45%N]. cbn [JsString.startsWith].
  destruct (N.eqb_spec 45 c) as [<-|]; [congruence|reflexivity].
Qed.

Lemma split_without_hyphen s : forall cur,
  Forall (fun c => c <> 45%N) s ->
  JsString.splitGo hyphenSep 0 cur s = [rev cur ++ s].
Proof.
  induction s as [|c s IH]; intros cur H; cbn [JsString.splitGo].
  - now rewrite app_nil_r.
  - inversion H as [|? ? Hc Hs]; subst.
    rewrite (hyphenSep_other s Hc), (IH (c :: cur) Hs).
    cbn [rev]. now rewrite <- app_assoc.
Qed.

Lemma two_digits_text a b :
  isDigit a = true -> isDigit b = true ->
  NumberConv.NumberToString (NumberConv.StringToNumber [a; b]) = unpad2 [a; b].
Proof.
  intros Ha Hb. apply isDigit_cases in Ha, Hb.
  assert (H : forallb
                (fun a => forallb
                   (fun b => JsString.eqb
                      (NumberConv.NumberToString (NumberConv.StringToNumber [a; b]))
                      (unpad2 [a; b]))
                   digitChars)
                digitChars = true) by (vm_compute; reflexivity).
  rewrite forallb_forall in H. specialize (H a Ha).
  rewrite forallb_forall in H. specialize (H b Hb).
  now apply str_eqb_eq.
Qed.

Lemma formatDateSimple_canonical d :
  isCanonicalDate d = true ->
  formatDateSimple d = unpad2 (monthOf d) ++ JsString.lit "." ++ unpad2 (dayOf d).
Proof.
  unfold isCanonicalDate.
  destruct d as [|y1 [|y2 [|y3 [|y4 [|h1 [|m1 [|m2 [|h2 [|d1 [|d2 [|x d]]]]]]]]]]];
    try discriminate.
  intros H.
  destruct (isDigit y1) eqn:E1; [|discriminate].
  destruct (isDigit y2) eqn:E2; [|discriminate].
  destruct (isDigit y3) eqn:E3; [|discriminate].
  destruct (isDigit y4) eqn:E4; [|discriminate].
  destruct (N.eqb_spec h1 45) as [->|]; [|discriminate].
  destruct (isDigit m1) eqn:E5; [|discriminate].
  destruct (isDigit m2) eqn:E6; [|discriminate].
  destruct (N.eqb_spec h2 45) as [->|]; [|discriminate].
  destruct (isDigit d1) eqn:E7; [|discriminate].
  destruct (isDigit d2) eqn:E8; [|discriminate].
  clear H.
  assert (Hs : JsString.split hyphenSep [y1; y2; y3; y4; 45%N; m1; m2; 45%N; d1; d2]
               = [[y1; y2; y3; y4]; [m1; m2]; [d1; d2]]).
  { unfold JsString.split. cbn [JsString.splitGo].
    rewrite !hyphenSep_digit by assumption.
    change (hyphenSep (45%N :: m1 :: m2 :: 45%N :: [d1; d2])) with 1.
    cbn [JsString.splitGo].
    rewrite !hyphenSep_digit by assumption.
    change (hyphenSep (45%N :: [d1; d2])) with 1.
    cbn [JsString.splitGo].
    rewrite !hyphenSep_digit by assumption.
    reflexivity. }
  unfold formatDateSimple. rewrite Hs.
  cbn [map nth_error interpolate monthOf dayOf skipn firstn].
  now rewrite !two_digits_text by assumption.
Qed.

Lemma extractDate_isCanonical x d :
  extractDate x = Some d -> isCanonicalDate d = true.
Proof.
  intros H. unfold extractDate in H.
  destruct (negb (truthy x)); [discriminate|].
  destruct x as [s|]; [|discriminate].
  destruct (matchDate s) as [[[y mo] dd]|] eqn:E; [|discriminate].
  injection H as <-.
  destruct (matchDate_found _ E) as (pre & t & _ & Ht).
  now apply matchDateAt_shape in Ht.
Qed.

(** X24.  The column header [formatDateSimple] makes of a date key
    [YYYY-MM-DD] is its month and its day joined by a dot, each without
    its leading zero: the zero padding of [extractDate] is undone, and so
    it is for every key that [extractDate] returns.  The empty string
    gives the empty string, and a non-empty string without a hyphen gives
    [undefined.undefined]. *)
Theorem formatDateSimple_month_dot_day :
  formatDateSimple [] = []
  /\ (forall d : jsstr,
        isCanonicalDate d = true ->
        formatDateSimple d
        = unpad2 (monthOf d) ++ JsString.lit "." ++ unpad2 (dayOf d))
  /\ (forall (dateStr : option jsstr) (d : jsstr),
        extractDate dateStr = Some d ->
        formatDateSimple d
        = unpad2 (monthOf d) ++ JsString.lit "." ++ unpad2 (dayOf d))
  /\ (forall (c : N) (s : jsstr),
        Forall (fun c => c <> 45%N) (c :: s) ->
        formatDateSimple (c :: s) = JsString.lit "undefined.undefined").
Proof.
  split; [reflexivity|].
  split; [exact formatDateSimple_canonical|].
  split.
  - intros dateStr d H. apply formatDateSimple_canonical.
    exact (extractDate_isCanonical _ H).
  - intros c s H. unfold formatDateSimple, JsString.split.
    rewrite (split_without_hyphen [] H). reflexivity.
Qed.

Lemma formatDateSimple_witness :
  formatDateSimple (JsString.lit "2024-03-01") = JsString.lit "3.1"
  /\ formatDateSimple (JsString.lit "2024-12-25") = JsString.lit "12.25".
Proof.
  destruct formatDateSimple_month_dot_day as (_ & H & _).
  split.
  - apply (H (JsString.lit "2024-03-01")). reflexivity.
  - apply (H (JsString.lit "2024-12-25")). reflexivity.
Defined.
